(** * Hand Cricket cloud functions: identity reservation and queue membership

    A shallow embedding of the callable handlers of the repository

      - [createNewUser] (Realtime Database version, "Strategy A"),
      - [createNewUserHandler] (Firestore version, "Strategy B"),
      - [quickMatchHandler] (join the matchmaking queue),
      - [cancelQuickMatchHandler] and [deleteWithRetry] (leave the queue),
      - [validateAuthAndEmail] (the authorization checks),

    as programs of a state-and-exception monad over a [World] that holds the
    two databases, the Firebase Auth directory, a clock, a script of what the
    environment does at each store call (writes of other clients, rejected
    calls) and the trace of the calls made so far. Logging has no part in
    what the handlers return or store and is left out.

    The handlers come first, then the vocabulary of the properties and some
    worlds to run the handlers in, then the properties themselves. *)

From Stdlib Require Import ZArith String Ascii List Bool Lia.
From stdpp Require Import base gmap strings list.
Import ListNotations.

Local Open Scope string_scope.
Local Open Scope list_scope.
Local Open Scope Z_scope.

(** ** JavaScript values *)

(** A string is a sequence of code units; [string] holds the one-byte ones. *)
Inductive jsval :=
| JUndefined
| JNull
| JBool (b : bool)
| JNum (n : Z)
| JStr (s : string)
| JServerTimestamp.  (* ServerValue.TIMESTAMP / FieldValue.serverTimestamp() *)

(** An object literal: its properties in source order. *)
Abbreviation jsobj := (list (string * jsval)).

Fixpoint prop (name : string) (o : jsobj) : jsval :=
  match o with
  | [] => JUndefined
  | (k, v) :: rest => if String.eqb k name then v else prop name rest
  end.

(** ** Thrown values *)

(** An [Error] object as the handlers look at it: [error.code] and
    [error.message], either of which may be undefined. *)
Record js_error := mkError { err_code : option string; err_message : option string }.

Inductive exn :=
| HttpsError (code : string) (message : string)   (* functions.https.HttpsError *)
| Error (e : js_error).                           (* anything else that is thrown *)

(** [new Error(msg)] *)
Definition new_Error (msg : string) : exn := Error (mkError None (Some msg)).

Definition exn_code (e : exn) : option string :=
  match e with HttpsError c _ => Some c | Error e => err_code e end.

Definition exn_message (e : exn) : option string :=
  match e with HttpsError _ m => Some m | Error e => err_message e end.

(** [error instanceof functions.https.HttpsError] *)
Definition instanceof_HttpsError (e : exn) : bool :=
  match e with HttpsError _ _ => true | Error _ => false end.

Inductive result (A : Type) :=
| Returns (a : A)
| Throws (e : exn).
Arguments Returns {A} a.
Arguments Throws {A} e.

(** ** The stores *)

Inductive collection := presence | users | usernames | quick_matchmaking_queue.

#[global] Instance collection_eq_dec : EqDecision collection.
Proof. solve_decision. Defined.

Definition collection_to_nat (c : collection) : nat :=
  match c with
  | presence => 0 | users => 1 | usernames => 2 | quick_matchmaking_queue => 3
  end%nat.

Definition collection_of_nat (n : nat) : collection :=
  match n with
  | 0 => presence | 1 => users | 2 => usernames | _ => quick_matchmaking_queue
  end%nat.

#[global] Instance collection_countable : Countable collection.
Proof.
  apply (inj_countable' collection_to_nat collection_of_nat).
  intros []; reflexivity.
Defined.

(** A reference: [rtdb.ref(`users/${uid}`)], [db.collection('users').doc(uid)]. *)
Abbreviation ref := (collection * string)%type.
Abbreviation store := (gmap (collection * string) (list (string * jsval))).

Inductive database := Rtdb | Firestore.

(** What another client does to a store while a call of ours is in flight. *)
Inductive mutation :=
| OtherSet (d : database) (r : ref) (v : jsobj)
| OtherDelete (d : database) (r : ref).

(** The environment's part in one store call: the writes of other clients that
    land before it, and whether the store rejects the call. The Admin SDK
    rejects with error objects of its own, never with an [HttpsError]. *)
Record env_step := mkStep { interference : list mutation; fault : option js_error }.

Definition quiet_step : env_step := mkStep [] None.

Inductive call := Once | Transaction | Remove | Get | Set_ | Delete.

Inductive reply :=
| Rejected (e : js_error)
| Snapshot (v : option jsobj)
| Transacted (committed : bool) (snapshot : option jsobj)
| Done.

Inductive event :=
| EvGetUser (uid : string)
| EvStore (d : database) (c : call) (r : ref) (a : reply)
| EvRunTransaction (a : result (list (ref * jsobj)))
| EvSleep (ms : Z).

(** [admin.auth().getUser(uid)] resolves to a record like this one. *)
Record UserRecord := mkUser { email : string; emailVerified : bool }.

Record World := mkWorld {
  auth_directory : string -> result UserRecord;  (* Firebase Auth *)
  rtdb : store;                                  (* Realtime Database *)
  firestore : store;                             (* Cloud Firestore *)
  server_value : bool;   (* admin.database.ServerValue is there *)
  field_value : bool;    (* db.constructor.FieldValue is there *)
  now : Z;               (* the clock, in milliseconds *)
  script : list env_step;
  trace : list event
}.

Definition set_rtdb (s : store) (w : World) : World :=
  mkWorld (auth_directory w) s (firestore w) (server_value w) (field_value w)
          (now w) (script w) (trace w).

Definition set_firestore (s : store) (w : World) : World :=
  mkWorld (auth_directory w) (rtdb w) s (server_value w) (field_value w)
          (now w) (script w) (trace w).

Definition set_now (t : Z) (w : World) : World :=
  mkWorld (auth_directory w) (rtdb w) (firestore w) (server_value w) (field_value w)
          t (script w) (trace w).

Definition set_script (s : list env_step) (w : World) : World :=
  mkWorld (auth_directory w) (rtdb w) (firestore w) (server_value w) (field_value w)
          (now w) s (trace w).

Definition log (ev : event) (w : World) : World :=
  mkWorld (auth_directory w) (rtdb w) (firestore w) (server_value w) (field_value w)
          (now w) (script w) (trace w ++ [ev]).

Definition apply_mutation (m : mutation) (w : World) : World :=
  match m with
  | OtherSet Rtdb r v => set_rtdb (<[r := v]> (rtdb w)) w
  | OtherSet Firestore r v => set_firestore (<[r := v]> (firestore w)) w
  | OtherDelete Rtdb r => set_rtdb (delete r (rtdb w)) w
  | OtherDelete Firestore r => set_firestore (delete r (firestore w)) w
  end.

Definition apply_mutations (ms : list mutation) (w : World) : World :=
  fold_left (fun w m => apply_mutation m w) ms w.

(** A store call reaches the server: the next step of the script is consumed
    (a quiet one when the script is over), the other clients' writes land and
    a millisecond passes. *)
Definition arrive (w : World) : option js_error * World :=
  match script w with
  | [] => (None, set_now (now w + 1) w)
  | s :: rest =>
      (fault s, set_now (now w + 1) (apply_mutations (interference s) (set_script rest w)))
  end.

(** ** The monad of the handlers: state and exceptions *)

Definition M (A : Type) : Type := World -> result A * World.

Definition ret {A} (a : A) : M A := fun w => (Returns a, w).

Definition throw {A} (e : exn) : M A := fun w => (Throws e, w).

Definition bind {A B} (m : M A) (k : A -> M B) : M B :=
  fun w => match m w with
           | (Returns a, w1) => k a w1
           | (Throws e, w1) => (Throws e, w1)
           end.

(** [try { m } catch (error) { h error }] *)
Definition try_catch {A} (m : M A) (h : exn -> M A) : M A :=
  fun w => match m w with
           | (Returns a, w1) => (Returns a, w1)
           | (Throws e, w1) => h e w1
           end.

Notation "'let*' x ':=' m 'in' k" := (bind m (fun x => k))
  (at level 10, x pattern, m at level 100, k at level 200).
Notation "m ';;' k" := (bind m (fun _ => k))
  (at level 100, k at level 200, right associativity).

(** Resolving the server-timestamp sentinel when a write is applied. *)
Definition resolve_val (t : Z) (v : jsval) : jsval :=
  match v with JServerTimestamp => JNum t | _ => v end.

Definition resolve (t : Z) (o : jsobj) : jsobj :=
  map (fun kv => (fst kv, resolve_val t (snd kv))) o.

(** [snapshot.exists()] of the Realtime Database, [doc.exists] of Firestore. *)
Definition exists_ (snapshot : option jsobj) : bool :=
  match snapshot with Some _ => true | None => false end.

(** ** Realtime Database primitives *)

(** [ref.once('value')] *)
Definition once (r : ref) : M (option jsobj) := fun w =>
  let '(f, w1) := arrive w in
  match f with
  | Some e => (Throws (Error e), log (EvStore Rtdb Once r (Rejected e)) w1)
  | None => let v := rtdb w1 !! r in
            (Returns v, log (EvStore Rtdb Once r (Snapshot v)) w1)
  end.

Record TransactionResult := mkTx { committed : bool; snapshot : option jsobj }.

(** [ref.transaction(update)]: [update] sees the current value ([None] for
    null) and returns the new one, or [None] (undefined) to abort; being a
    closure of the handler it can also look at the ambient state. *)
Definition transaction (r : ref) (update : World -> option jsobj -> option jsobj)
  : M TransactionResult := fun w =>
  let '(f, w1) := arrive w in
  match f with
  | Some e => (Throws (Error e), log (EvStore Rtdb Transaction r (Rejected e)) w1)
  | None =>
      let cur := rtdb w1 !! r in
      match update w1 cur with
      | None => (Returns (mkTx false cur),
                 log (EvStore Rtdb Transaction r (Transacted false cur)) w1)
      | Some v =>
          let v' := resolve (now w1) v in
          (Returns (mkTx true (Some v')),
           log (EvStore Rtdb Transaction r (Transacted true (Some v')))
               (set_rtdb (<[r := v']> (rtdb w1)) w1))
      end
  end.

(** [ref.remove()] *)
Definition remove (r : ref) : M unit := fun w =>
  let '(f, w1) := arrive w in
  match f with
  | Some e => (Throws (Error e), log (EvStore Rtdb Remove r (Rejected e)) w1)
  | None => (Returns tt, log (EvStore Rtdb Remove r Done) (set_rtdb (delete r (rtdb w1)) w1))
  end.

(** ** Firestore primitives *)

(** [docRef.get()] *)
Definition get (r : ref) : M (option jsobj) := fun w =>
  let '(f, w1) := arrive w in
  match f with
  | Some e => (Throws (Error e), log (EvStore Firestore Get r (Rejected e)) w1)
  | None => let v := firestore w1 !! r in
            (Returns v, log (EvStore Firestore Get r (Snapshot v)) w1)
  end.

(** [docRef.set(data)]: an unconditional write. *)
Definition set (r : ref) (data : jsobj) : M unit := fun w =>
  let '(f, w1) := arrive w in
  match f with
  | Some e => (Throws (Error e), log (EvStore Firestore Set_ r (Rejected e)) w1)
  | None => (Returns tt,
             log (EvStore Firestore Set_ r Done)
                 (set_firestore (<[r := resolve (now w1) data]> (firestore w1)) w1))
  end.

(** [docRef.delete()] *)
Definition delete_doc (r : ref) : M unit := fun w =>
  let '(f, w1) := arrive w in
  match f with
  | Some e => (Throws (Error e), log (EvStore Firestore Delete r (Rejected e)) w1)
  | None => (Returns tt,
             log (EvStore Firestore Delete r Done)
                 (set_firestore (delete r (firestore w1)) w1))
  end.

(** The body of a Firestore transaction reads a snapshot of the store and
    buffers its writes. *)
Definition T (A : Type) : Type := store -> list (ref * jsobj) -> result A * list (ref * jsobj).

Definition tret {A} (a : A) : T A := fun _ ws => (Returns a, ws).
Definition tthrow {A} (e : exn) : T A := fun _ ws => (Throws e, ws).
Definition tbind {A B} (m : T A) (k : A -> T B) : T B :=
  fun s ws => match m s ws with
              | (Returns a, ws1) => k a s ws1
              | (Throws e, ws1) => (Throws e, ws1)
              end.

(** [transaction.get(ref)] and [transaction.set(ref, data)] *)
Definition tx_get (r : ref) : T (option jsobj) := fun s ws => (Returns (s !! r), ws).
Definition tx_set (r : ref) (data : jsobj) : T unit := fun _ ws => (Returns tt, ws ++ [(r, data)]).

Definition apply_writes (t : Z) (ws : list (ref * jsobj)) (s : store) : store :=
  fold_left (fun s w => <[fst w := resolve t (snd w)]> s) ws s.

(** [db.runTransaction(body)]: all the buffered writes are applied together,
    with one commit time, or none is. *)
Definition runTransaction (body : T unit) : M unit := fun w =>
  let '(f, w1) := arrive w in
  match f with
  | Some e => (Throws (Error e), log (EvRunTransaction (Throws (Error e))) w1)
  | None =>
      match body (firestore w1) [] with
      | (Returns _, ws) =>
          (Returns tt,
           log (EvRunTransaction (Returns (map (fun w => (fst w, resolve (now w1) (snd w))) ws)))
               (set_firestore (apply_writes (now w1) ws (firestore w1)) w1))
      | (Throws e, _) => (Throws e, log (EvRunTransaction (Throws e)) w1)
      end
  end.

(** The delay [setTimeout] waits for: a delay below 1 or above 2^31-1 is set
    to 1. *)
Definition timeout_delay (ms : Z) : Z :=
  if (ms <? 1) || (2147483647 <? ms) then 1 else ms.

(** [new Promise(resolve => setTimeout(resolve, ms))] *)
Definition sleep (ms : Z) : M unit := fun w =>
  (Returns tt, log (EvSleep ms) (set_now (now w + timeout_delay ms) w)).

(** [admin.auth().getUser(uid)] *)
Definition getUser (uid : string) : M UserRecord := fun w =>
  (auth_directory w uid, log (EvGetUser uid) w).

(** [getServerTimestamp()] of utils/firestore.js (and its copy in the handler). *)
Definition getServerTimestamp : M jsval := fun w =>
  if field_value w then (Returns JServerTimestamp, w)
  else (Throws (new_Error "Firestore FieldValue is not available. Ensure admin is initialized."), w).

(** ** The callable context *)

Record Auth := mkAuth { uid : option string }.
Record Context := mkContext { app : bool; auth : option Auth }.

(** [!context.auth || !context.auth.uid] *)
Definition no_uid (context : Context) : bool :=
  match auth context with
  | None => true
  | Some a => match uid a with
              | None => true
              | Some u => String.eqb u ""
              end
  end.

(** [context.auth.uid], a TypeError when [context.auth] is null. *)
Definition context_uid (context : Context) : M string :=
  match auth context with
  | Some a => match uid a with
              | Some u => ret u
              | None => ret ""
              end
  | None => throw (new_Error "Cannot read properties of null (reading 'uid')")
  end.

(** ** utils/auth.js *)

(** The try/catch around [getUser]: whatever it throws becomes one error. *)
Definition getUserRecord (uid : string) : M UserRecord :=
  try_catch (getUser uid)
    (fun error => throw (HttpsError "internal" "Failed to retrieve user information")).

Definition validateAuthAndEmail (context : Context) (functionName : string) : M unit :=
  (* Step 1: Validate App Check token *)
  if negb (app context) then
    throw (HttpsError "failed-precondition" "App Check verification failed")
  else
  (* Step 2: Validate auth token *)
  if no_uid context then
    throw (HttpsError "unauthenticated" "Authentication required")
  else
  let* uid := context_uid context in
  let* userRecord := getUserRecord uid in
  (* Step 3: Check if email is verified *)
  if negb (emailVerified userRecord) then
    throw (HttpsError "failed-precondition" "use a verified email address to continue")
  else ret tt.

(** The outer try/catch of every handler: an [HttpsError] is thrown again as
    it is, anything else becomes a generic internal error. *)
Definition guard {A} (m : M A) : M A :=
  try_catch m
    (fun error =>
       if instanceof_HttpsError error then throw error
       else throw (HttpsError "internal" "An unexpected error occurred")).

(** ** Username rules *)

(** White space and line terminators that [String.prototype.trim] strips,
    among the one-byte code units. *)
Definition is_whitespace (c : ascii) : bool :=
  let n := nat_of_ascii c in
  ((9 <=? n) && (n <=? 13) || (n =? 32) || (n =? 160))%nat.

Fixpoint trimStart (s : string) : string :=
  match s with
  | String c rest => if is_whitespace c then trimStart rest else s
  | EmptyString => EmptyString
  end.

Fixpoint string_rev_append (s acc : string) : string :=
  match s with
  | String c rest => string_rev_append rest (String c acc)
  | EmptyString => acc
  end.

Definition string_rev (s : string) : string := string_rev_append s "".

Definition trimEnd (s : string) : string := string_rev (trimStart (string_rev s)).

Definition trim (s : string) : string := trimEnd (trimStart s).

(** [[a-z]] *)
Definition is_lower (c : ascii) : bool :=
  let n := nat_of_ascii c in ((97 <=? n) && (n <=? 122))%nat.

(** [[0-9]] *)
Definition is_digit (c : ascii) : bool :=
  let n := nat_of_ascii c in ((48 <=? n) && (n <=? 57))%nat.

(** [[a-z0-9_]] *)
Definition is_word (c : ascii) : bool :=
  is_lower c || is_digit c || (nat_of_ascii c =? 95)%nat.

Fixpoint all_chars (p : ascii -> bool) (s : string) : bool :=
  match s with
  | String c rest => p c && all_chars p rest
  | EmptyString => true
  end.

(** [/^[a-z][a-z0-9_]{7,14}$/.test(s)] *)
Definition usernameRegex_test (s : string) : bool :=
  match s with
  | String c rest =>
      is_lower c && all_chars is_word rest
      && (7 <=? String.length rest)%nat && (String.length rest <=? 14)%nat
  | EmptyString => false
  end.

(** [data.username] when [data] is there and [typeof data.username] is
    ['string']. *)
Definition username_of (data : option jsobj) : option string :=
  match data with
  | None => None                     (* !data *)
  | Some o => match prop "username" o with
              | JStr s => Some s
              | _ => None
              end
  end.

(** ** handlers/cancelQuickMatch.js *)

(** [s.includes(sub)] *)
Fixpoint includes (s sub : string) : bool :=
  String.prefix sub s ||
  match s with
  | String _ rest => includes rest sub
  | EmptyString => false
  end.

Definition code_is (error : exn) (c : string) : bool :=
  match exn_code error with Some c' => String.eqb c' c | None => false end.

(** [error.message?.includes(sub)] *)
Definition message_includes (error : exn) (sub : string) : bool :=
  match exn_message error with Some m => includes m sub | None => false end.

Definition isLockedError (error : exn) : bool :=
  code_is error "aborted" ||
  code_is error "failed-precondition" ||
  code_is error "unavailable" ||
  message_includes error "concurrent" ||
  message_includes error "locked".

(** The [for] loop of [deleteWithRetry] from [attempt] on; [fuel] bounds the
    iterations that are left. *)
Fixpoint deleteWithRetry_from (fuel : nat) (docRef : ref) (attempt maxRetries : nat)
    (retryDelayMs : Z) : M bool :=
  match fuel with
  | O => ret false
  | S fuel' =>
      if (attempt <=? maxRetries)%nat then
        try_catch
          ((* Check if document exists first *)
           let* doc := get docRef in
           match doc with
           | None => ret true
           | Some _ =>
               (* Attempt to delete *)
               delete_doc docRef ;;
               ret true
           end)
          (fun error =>
             if isLockedError error && (attempt <? maxRetries)%nat then
               sleep retryDelayMs ;;
               deleteWithRetry_from fuel' docRef (S attempt) maxRetries retryDelayMs
             else ret false)
      else ret false
  end.

Definition deleteWithRetry (docRef : ref) (maxRetries : nat) (retryDelayMs : Z) : M bool :=
  deleteWithRetry_from maxRetries docRef 1 maxRetries retryDelayMs.

Definition success_response : jsobj := [("success", JBool true)].

Definition cancelQuickMatchHandler (data : option jsobj) (context : Context) : M jsobj :=
  guard
    ((* Step 1: Validate App Check, auth, and email verification *)
     validateAuthAndEmail context "cancelQuickMatch" ;;
     let* uid := context_uid context in
     (* Step 2: Delete document from quick_matchmaking_queue collection *)
     let queueDocRef := (quick_matchmaking_queue, uid) in
     (* Step 3: Attempt deletion with retry logic for locked documents *)
     let* deleted := deleteWithRetry queueDocRef 10 500 in
     (* Step 4: Return success regardless of deletion result *)
     ret success_response).

(** ** handlers/quickMatch.js *)

Definition quickMatchHandler (data : option jsobj) (context : Context) : M jsobj :=
  guard
    ((* Step 1: Validate App Check, auth, and email verification *)
     validateAuthAndEmail context "quickMatch" ;;
     let* uid := context_uid context in
     (* Step 2: Check if user is online *)
     let presenceRef := (presence, uid) in
     let* presenceSnapshot := once presenceRef in
     if negb (exists_ presenceSnapshot) then
       throw (HttpsError "failed-precondition" "User Not Online")
     else
     (* Step 3: Check if user is already waiting in the queue *)
     let queueDocRef := (quick_matchmaking_queue, uid) in
     let* queueDoc := get queueDocRef in
     if exists_ queueDoc then
       throw (HttpsError "already-exists" "User Already Waiting to be matched")
     else
     (* Step 4: Create document in quick_matchmaking_queue collection *)
     let* timestamp := getServerTimestamp in
     set queueDocRef [("uid", JStr uid); ("created_at", timestamp); ("status", JStr "waiting")] ;;
     ret success_response).

(** ** createNewUser over the Realtime Database (two single-key transactions) *)

(** [snapshot.val().created_at], a TypeError when the value is null. *)
Definition created_at_of (snapshot : option jsobj) : M jsval :=
  match snapshot with
  | Some o => ret (prop "created_at" o)
  | None => throw (new_Error "Cannot read properties of null (reading 'created_at')")
  end.

(** The update function of the username transaction. *)
Definition usernameUpdate (w : World) (currentData : option jsobj) : option jsobj :=
  match currentData with
  | None =>
      (* Path doesn't exist, we can create it *)
      let timestamp := if server_value w then JServerTimestamp else JNum (now w) in
      Some [("created_at", timestamp)]
  | Some _ => None   (* Path exists, abort transaction *)
  end.

(** Step 6, the loop from [attempt] on. [Some t] is [usernameCreated = true]
    with [createdTimestamp = t]; [None] is the loop left without a [break]. *)
Fixpoint createUsername_from (fuel : nat) (usernameRef : ref) (attempt maxRetries : nat)
  : M (option jsval) :=
  match fuel with
  | O => ret None
  | S fuel' =>
      if (attempt <=? maxRetries)%nat then
        try_catch
          ((* Re-check if username exists before retrying (except on first attempt) *)
           (if (1 <? attempt)%nat then
              let* usernameSnapshot := once usernameRef in
              if exists_ usernameSnapshot then
                throw (HttpsError "already-exists" "username already taken")
              else ret tt
            else ret tt) ;;
           (* Attempt to create username using transaction *)
           let* usernameTransactionResult := transaction usernameRef usernameUpdate in
           (* Check if transaction was committed *)
           if committed usernameTransactionResult then
             let* createdTimestamp := created_at_of (snapshot usernameTransactionResult) in
             ret (Some createdTimestamp)
           else
             throw (new_Error "Transaction aborted - username may have been taken"))
          (fun error =>
             if instanceof_HttpsError error then throw error
             else if (attempt =? maxRetries)%nat then
               throw (HttpsError "internal" "Something is wrong")
             else createUsername_from fuel' usernameRef (S attempt) maxRetries)
      else ret None
  end.

(** The update function of the user transaction. *)
Definition userUpdate (createdTimestamp : jsval) (username : string) (userRecord : UserRecord)
    (w : World) (currentData : option jsobj) : option jsobj :=
  match currentData with
  | None =>
      Some [("created_at", createdTimestamp);
            ("username", JStr username);
            ("email_address", JStr (email userRecord))]
  | Some _ => None
  end.

(** Step 8: the cleanup, whose own failure is only logged. *)
Definition cleanupUsername (usernameRef : ref) : M unit :=
  try_catch (remove usernameRef) (fun cleanupError => ret tt).

(** Step 7, the loop from [attempt] on; the result is [userCreated]. *)
Fixpoint createUser_from (fuel : nat) (userRef usernameRef : ref)
    (createdTimestamp : jsval) (username : string) (userRecord : UserRecord)
    (attempt maxRetries : nat) (retryDelay : Z) : M bool :=
  match fuel with
  | O => ret false
  | S fuel' =>
      if (attempt <=? maxRetries)%nat then
        try_catch
          ((* Wait before retry (except on first attempt) *)
           (if (1 <? attempt)%nat then sleep retryDelay else ret tt) ;;
           (* Attempt to create user using transaction *)
           let* userTransactionResult :=
             transaction userRef (userUpdate createdTimestamp username userRecord) in
           if committed userTransactionResult then ret true
           else throw (new_Error "Transaction aborted - user may already exist"))
          (fun error =>
             if (attempt =? maxRetries)%nat then
               cleanupUsername usernameRef ;;
               throw (HttpsError "internal" "Something is Wrong")
             else
               createUser_from fuel' userRef usernameRef createdTimestamp username userRecord
                               (S attempt) maxRetries retryDelay)
      else ret false
  end.

(** Steps 4 to 8 and the response, for a request that passed the checks. *)
Definition registerUser (uid : string) (userRecord : UserRecord) (username : string)
  : M jsobj :=
  (* Step 4: Check if /users/{uid} exists *)
  let userRef := (users, uid) in
  let* userSnapshot := once userRef in
  if exists_ userSnapshot then
    throw (HttpsError "already-exists" "user already exists")
  else
  (* Step 5: Check if /usernames/{username} exists *)
  let usernameRef := (usernames, username) in
  let* usernameSnapshot := once usernameRef in
  if exists_ usernameSnapshot then
    throw (HttpsError "already-exists" "username already taken")
  else
  (* Step 6: Create /usernames/{username} with transaction and retry *)
  let maxRetries := 3%nat in
  let* created := createUsername_from maxRetries usernameRef 1 maxRetries in
  match created with
  | None => throw (HttpsError "internal" "Something is wrong")
  | Some createdTimestamp =>
      (* Step 7: Create /users/{uid} with transaction and retry *)
      let retryDelay := 500 in
      let* userCreated :=
        createUser_from maxRetries userRef usernameRef createdTimestamp username
                        userRecord 1 maxRetries retryDelay in
      if negb userCreated then
        (* Final cleanup attempt *)
        cleanupUsername usernameRef ;;
        throw (HttpsError "internal" "Something is Wrong")
      else
        ret [("success", JBool true); ("username", JStr username); ("uid", JStr uid)]
  end.

Definition createNewUser (data : option jsobj) (context : Context) : M jsobj :=
  guard
    ((* Step 1: Validate auth token *)
     if no_uid context then
       throw (HttpsError "unauthenticated" "Authentication required")
     else
     let* uid := context_uid context in
     let* userRecord := getUserRecord uid in
     (* Step 2: Check if email is verified *)
     if negb (emailVerified userRecord) then
       throw (HttpsError "failed-precondition" "use a verified email address to continue")
     else
     (* Validate username input *)
     match username_of data with
     | None =>
         throw (HttpsError "invalid-argument" "username is required and must be a string")
     | Some raw =>
         let username := trim raw in
         (* Step 3: Validate username format *)
         if negb (usernameRegex_test username) then
           throw (HttpsError "invalid-argument" "username rules failed")
         else registerUser uid userRecord username
     end).

(** ** createNewUserHandler over Firestore (one two-document transaction) *)

Notation "'tlet*' x ':=' m 'in' k" := (tbind m (fun x => k))
  (at level 10, x pattern, m at level 100, k at level 200).

(** The body handed to [db.runTransaction]. *)
Definition createBoth (userRef usernameRef : ref) (uid username : string)
    (userRecord : UserRecord) (timestamp : jsval) : T unit :=
  (* Re-read user document to ensure it still doesn't exist *)
  tlet* userDocSnapshot := tx_get userRef in
  if exists_ userDocSnapshot then tthrow (new_Error "User already exists")
  else
  (* Check if username is already taken by reading the username document *)
  tlet* usernameDocSnapshot := tx_get usernameRef in
  if exists_ usernameDocSnapshot then
    tthrow (HttpsError "already-exists" ("username " +:+ username +:+ " already taken"))
  else
  (* Both checks passed, create both documents atomically *)
  tlet* _ := tx_set usernameRef [("uid", JStr uid); ("created_at", timestamp)] in
  tx_set userRef [("created_at", timestamp);
                  ("username", JStr username);
                  ("email_address", JStr (email userRecord))].

(** Step 6, the loop from [attempt] on; the result is [userCreated]. *)
Fixpoint createBoth_from (fuel : nat) (userRef usernameRef : ref) (uid username : string)
    (userRecord : UserRecord) (attempt maxRetries : nat) (retryDelay : Z) : M bool :=
  match fuel with
  | O => ret false
  | S fuel' =>
      if (attempt <=? maxRetries)%nat then
        try_catch
          ((* Wait before retry (except on first attempt) *)
           (if (1 <? attempt)%nat then sleep retryDelay else ret tt) ;;
           let* timestamp := getServerTimestamp in
           runTransaction (createBoth userRef usernameRef uid username userRecord timestamp) ;;
           ret true)
          (fun error =>
             if instanceof_HttpsError error then throw error
             else if (attempt =? maxRetries)%nat then
               throw (HttpsError "internal" "Something is wrong")
             else
               createBoth_from fuel' userRef usernameRef uid username userRecord
                               (S attempt) maxRetries retryDelay)
      else ret false
  end.

(** Steps 5 and 6 and the response, for a request that passed the checks. *)
Definition registerUserDoc (uid : string) (userRecord : UserRecord) (username : string)
  : M jsobj :=
  (* Step 5: Check if user document exists by uid *)
  let userRef := (users, uid) in
  let* userDoc := get userRef in
  if exists_ userDoc then
    throw (HttpsError "already-exists" "user already exists")
  else
  (* Step 6: Create user and username documents atomically *)
  let usernameRef := (usernames, username) in
  let maxRetries := 3%nat in
  let retryDelay := 500 in
  let* userCreated :=
    createBoth_from maxRetries userRef usernameRef uid username userRecord
                    1 maxRetries retryDelay in
  if negb userCreated then throw (HttpsError "internal" "Something is wrong")
  else ret success_response.

Definition createNewUserHandler (data : option jsobj) (context : Context) : M jsobj :=
  guard
    ((* Step 1: Validate App Check token *)
     if negb (app context) then
       throw (HttpsError "failed-precondition" "App Check verification failed")
     else
     (* Step 2: Validate auth token *)
     if no_uid context then
       throw (HttpsError "unauthenticated" "Authentication required")
     else
     let* uid := context_uid context in
     let* userRecord := getUserRecord uid in
     (* Step 3: Check if email is verified *)
     if negb (emailVerified userRecord) then
       throw (HttpsError "failed-precondition" "use a verified email address to continue")
     else
     (* Validate username input *)
     match username_of data with
     | None =>
         throw (HttpsError "invalid-argument" "username is required and must be a string")
     | Some raw =>
         let username := trim raw in
         (* Step 4: Validate username format *)
         if negb (usernameRegex_test username) then
           throw (HttpsError "invalid-argument" "username rules failed")
         else registerUserDoc uid userRecord username
     end).

(** * The vocabulary of the properties *)

(** ** Authorization *)

(** The caller ID the handlers work with: [context.auth.uid] when it is truthy. *)
Definition caller_id (context : Context) : option string :=
  match auth context with
  | Some a => match uid a with
              | Some u => if String.eqb u "" then None else Some u
              | None => None
              end
  | None => None
  end.

(** The caller passes the checks of [validateAuthAndEmail] in [w]. *)
Definition authorized (w : World) (context : Context) (u : string) : Prop :=
  app context = true /\ caller_id context = Some u /\
  exists userRecord, auth_directory w u = Returns userRecord /\ emailVerified userRecord = true.

(** An event that is a call to one of the two databases. *)
Definition store_access (ev : event) : bool :=
  match ev with
  | EvStore _ _ _ _ | EvRunTransaction _ => true
  | EvGetUser _ | EvSleep _ => false
  end.

(** The handler stopped with [e] having done nothing but look the caller up:
    both databases, the script and the clock are as they were. *)
Definition stopped_after_lookup {A} (run : result A * World) (w : World) (u : string) (e : exn) : Prop :=
  run = (Throws e, log (EvGetUser u) w).

Definition lookup_failed : exn :=
  HttpsError "internal" "Failed to retrieve user information".

(** ** Username rules *)

(** An input the checks refuse: nothing that is a string under [username], or
    a string whose trimmed value does not match the regex. *)
Definition invalid_input (data : option jsobj) : Prop :=
  username_of data = None \/
  exists raw, username_of data = Some raw /\ usernameRegex_test (trim raw) = false.

(** ** The shape of a run of deleteWithRetry *)

(** The calls of a run, without what they answered. *)
Inductive step := Read | Del | Wait (ms : Z) | Other.

Definition step_of (ev : event) : step :=
  match ev with
  | EvStore Firestore Get _ _ => Read
  | EvStore Firestore Delete _ _ => Del
  | EvSleep ms => Wait ms
  | _ => Other
  end.

Definition is_delete (ev : event) : bool :=
  match ev with EvStore Firestore Delete _ _ => true | _ => false end.

(** How many elements of [l] satisfy [p]. *)
Fixpoint count {A} (p : A -> bool) (l : list A) : nat :=
  match l with
  | [] => 0
  | x :: rest => if p x then S (count p rest) else count p rest
  end.

(** An event of an attempt that fails contended: the read finds the document,
    the delete is rejected with an error that [isLockedError] accepts. *)
Definition contended_event (ev : event) : bool :=
  match ev with
  | EvStore Firestore Get _ (Snapshot (Some _)) => true
  | EvStore Firestore Delete _ (Rejected e) => isLockedError (Error e)
  | EvSleep _ => true
  | _ => false
  end.

(** [attempts] attempts, each a read and a delete, with a wait in between. *)
Fixpoint contended_shape (attempts : nat) (ms : Z) : list step :=
  match attempts with
  | O => []
  | S n => match n with
           | O => [Read; Del]
           | S _ => Read :: Del :: Wait ms :: contended_shape n ms
           end
  end.

(** The code the store reports, or the text of the message, makes an error a
    contended one. *)
Definition contended (error : exn) : Prop :=
  exn_code error = Some "aborted" \/
  exn_code error = Some "failed-precondition" \/
  exn_code error = Some "unavailable" \/
  (exists m, exn_message error = Some m /\ includes m "concurrent" = true) \/
  (exists m, exn_message error = Some m /\ includes m "locked" = true).

Definition is_Del (s : step) : bool := match s with Del => true | _ => false end.
Definition is_Read (s : step) : bool := match s with Read => true | _ => false end.
Definition is_Wait (s : step) : bool := match s with Wait _ => true | _ => false end.

Definition is_get (ev : event) : bool :=
  match ev with EvStore Firestore Get _ _ => true | _ => false end.

(** An attempt that fails: the read is rejected, or the read finds the
    document and the delete is rejected. *)
Inductive failed_deletion (r : ref) : list event -> js_error -> Prop :=
| get_rejected e :
    failed_deletion r [EvStore Firestore Get r (Rejected e)] e
| delete_rejected doc e :
    failed_deletion r [EvStore Firestore Get r (Snapshot (Some doc));
                       EvStore Firestore Delete r (Rejected e)] e.

(** The runs of the delete loop from [attempt] on: the calls made and the
    result. A failure that is contended is followed by a sleep and the next
    attempt, unless it was the last attempt; any other failure ends the
    run. *)
Inductive deletion (r : ref) (maxRetries : nat) (ms : Z) : nat -> list event -> bool -> Prop :=
| deletion_absent attempt :
    deletion r maxRetries ms attempt [EvStore Firestore Get r (Snapshot None)] true
| deletion_done attempt doc :
    deletion r maxRetries ms attempt
      [EvStore Firestore Get r (Snapshot (Some doc)); EvStore Firestore Delete r Done] true
| deletion_other attempt evs e :
    failed_deletion r evs e -> ~ contended (Error e) ->
    deletion r maxRetries ms attempt evs false
| deletion_exhausted attempt evs e :
    attempt = maxRetries -> failed_deletion r evs e -> contended (Error e) ->
    deletion r maxRetries ms attempt evs false
| deletion_retry attempt evs e rest deleted :
    (attempt < maxRetries)%nat -> failed_deletion r evs e -> contended (Error e) ->
    deletion r maxRetries ms (S attempt) rest deleted ->
    deletion r maxRetries ms attempt (evs ++ EvSleep ms :: rest) deleted.

(** An event of a run all of whose attempts fail contended: a read that finds
    the document, a delete rejected with a contended error, a sleep. *)
Definition fails_contended (ev : event) : Prop :=
  match ev with
  | EvStore Firestore Get _ (Snapshot (Some _)) => True
  | EvStore Firestore Delete _ (Rejected e) => contended (Error e)
  | EvSleep _ => True
  | _ => False
  end.

(** A call that Firestore rejects with an error that is not contended. *)
Definition fails_otherwise (ev : event) : Prop :=
  match ev with
  | EvStore Firestore _ _ (Rejected e) => ~ contended (Error e)
  | _ => False
  end.

(** ** Joining the queue *)

(** A call that reads or writes under [users], in either database. *)
Definition touches_users (ev : event) : bool :=
  match ev with
  | EvStore _ _ (users, _) _ => true
  | EvRunTransaction _ => true
  | _ => false
  end.

Definition waiting_entry (u : string) (timestamp : jsval) : jsobj :=
  [("uid", JStr u); ("created_at", timestamp); ("status", JStr "waiting")].

(** ** Requests *)

(** A request that gets past the input checks of either version. *)
Definition valid_request (data : option jsobj) (context : Context) (w : World)
    (u : string) (userRecord : UserRecord) (username : string) : Prop :=
  caller_id context = Some u /\
  auth_directory w u = Returns userRecord /\
  emailVerified userRecord = true /\
  exists raw, username_of data = Some raw /\ username = trim raw /\
              usernameRegex_test username = true.

(** ** Step 6: reserving the username *)

Definition already_taken : exn := HttpsError "already-exists" "username already taken".
Definition something_is_wrong : exn := HttpsError "internal" "Something is wrong".

(** The re-read that opens every attempt but the first, finding nothing. *)
Definition reread (r : ref) (attempt : nat) : list event :=
  if (1 <? attempt)%nat then [EvStore Rtdb Once r (Snapshot None)] else [].

(** An attempt that ends without a commit and without a confirmed taken
    username: the re-read is rejected, or the transaction is rejected or
    aborted. *)
Inductive failed_attempt (r : ref) (attempt : nat) : list event -> Prop :=
| reread_rejected e :
    (1 < attempt)%nat ->
    failed_attempt r attempt [EvStore Rtdb Once r (Rejected e)]
| transaction_rejected e :
    failed_attempt r attempt (reread r attempt ++ [EvStore Rtdb Transaction r (Rejected e)])
| transaction_aborted current :
    failed_attempt r attempt
      (reread r attempt ++ [EvStore Rtdb Transaction r (Transacted false (Some current))]).

(** The runs of the loop of step 6 from [attempt] on: the calls made and the
    result. *)
Inductive reservation (r : ref) (maxRetries : nat)
  : nat -> list event -> result (option jsval) -> Prop :=
| reservation_committed attempt t :
    reservation r maxRetries attempt
      (reread r attempt
       ++ [EvStore Rtdb Transaction r (Transacted true (Some [("created_at", JNum t)]))])
      (Returns (Some (JNum t)))
| reservation_taken attempt current :
    (1 < attempt)%nat ->
    reservation r maxRetries attempt
      [EvStore Rtdb Once r (Snapshot (Some current))] (Throws already_taken)
| reservation_exhausted attempt evs :
    attempt = maxRetries ->
    failed_attempt r attempt evs ->
    reservation r maxRetries attempt evs (Throws something_is_wrong)
| reservation_retry attempt evs rest res :
    (attempt < maxRetries)%nat ->
    failed_attempt r attempt evs ->
    reservation r maxRetries (S attempt) rest res ->
    reservation r maxRetries attempt (evs ++ rest) res.

(** ** What the other clients write *)

Definition other_write (s : store) (m : mutation) : store :=
  match m with
  | OtherSet Rtdb r v => <[r := v]> s
  | OtherDelete Rtdb r => delete r s
  | _ => s
  end.

(** The Realtime Database after the writes that the other clients land
    during the given steps of the script, and no write of the handler. *)
Definition others_rtdb (steps : list env_step) (s : store) : store :=
  fold_left other_write (flat_map interference steps) s.

(** From [w] to [w'] the script has advanced, and the Realtime Database has
    changed by the writes of the other clients alone. *)
Definition only_others (w w' : World) : Prop :=
  exists steps, script w = steps ++ script w' /\ rtdb w' = others_rtdb steps (rtdb w).

(** No write of another client lands during the calls still to come. *)
Definition quiet (w : World) : Prop := Forall (fun s => interference s = []) (script w).

(** The username transaction commits [{created_at: t}]. *)
Definition reservation_commit (r : ref) (t : Z) : event :=
  EvStore Rtdb Transaction r (Transacted true (Some [("created_at", JNum t)])).

Definition is_transaction (ev : event) : bool :=
  match ev with EvStore Rtdb Transaction _ _ => true | _ => false end.

Definition is_sleep (ev : event) : bool :=
  match ev with EvSleep _ => true | _ => false end.

(** A read that finds the reservation of someone else. *)
Definition found_taken (ev : event) : bool :=
  match ev with EvStore Rtdb Once _ (Snapshot (Some _)) => true | _ => false end.

Definition is_commit (ev : event) : bool :=
  match ev with EvStore Rtdb Transaction _ (Transacted true _) => true | _ => false end.

Definition is_remove (ev : event) : bool :=
  match ev with EvStore Rtdb Remove _ _ => true | _ => false end.

(** A transaction on a document of [users] that did not commit. *)
Definition failed_user_transaction (ev : event) : bool :=
  match ev with
  | EvStore Rtdb Transaction (users, _) (Rejected _) => true
  | EvStore Rtdb Transaction (users, _) (Transacted false _) => true
  | _ => false
  end.

(** ** Step 7: creating the user, and the cleanup of step 8 *)

Definition something_is_Wrong : exn := HttpsError "internal" "Something is Wrong".

(** The user record, with the timestamp of the reservation. *)
Definition user_doc (t : Z) (username : string) (userRecord : UserRecord) : jsobj :=
  [("created_at", JNum t); ("username", JStr username);
   ("email_address", JStr (email userRecord))].

Definition user_commit (u : string) (t : Z) (username : string) (userRecord : UserRecord)
  : event :=
  EvStore Rtdb Transaction (users, u) (Transacted true (Some (user_doc t username userRecord))).

(** ** The whole registration *)

(** The response of the Realtime Database version. *)
Definition registered (username u : string) : jsobj :=
  [("success", JBool true); ("username", JStr username); ("uid", JStr u)].

(** ** Registration over Firestore *)

Definition taken_in_transaction (username : string) : exn :=
  HttpsError "already-exists" ("username " +:+ username +:+ " already taken").

(** The wait that opens every attempt but the first. *)
Definition wait (attempt : nat) (ms : Z) : list event :=
  if (1 <? attempt)%nat then [EvSleep ms] else [].

Definition username_doc (u : string) (t : Z) : jsobj :=
  [("uid", JStr u); ("created_at", JNum t)].

(** The two writes of a committed transaction, with its commit time. *)
Definition both_docs (u username : string) (userRecord : UserRecord) (t : Z)
  : list (ref * jsobj) :=
  [((usernames, username), username_doc u t); ((users, u), user_doc t username userRecord)].

(** An attempt that fails with something other than an [HttpsError]: no
    timestamp sentinel to be had, or a transaction that throws a plain error
    (rejected by the store, or "User already exists" from its body). *)
Inductive failed_transaction (attempt : nat) (ms : Z) : list event -> Prop :=
| timestamp_unavailable :
    failed_transaction attempt ms (wait attempt ms)
| transaction_failed e :
    failed_transaction attempt ms (wait attempt ms ++ [EvRunTransaction (Throws (Error e))]).

(** The runs of the loop of step 6 of the Firestore version from [attempt]
    on. *)
Inductive creation (u username : string) (userRecord : UserRecord) (maxRetries : nat) (ms : Z)
  : nat -> list event -> result bool -> Prop :=
| creation_committed attempt t :
    creation u username userRecord maxRetries ms attempt
      (wait attempt ms ++ [EvRunTransaction (Returns (both_docs u username userRecord t))])
      (Returns true)
| creation_taken attempt :
    creation u username userRecord maxRetries ms attempt
      (wait attempt ms ++ [EvRunTransaction (Throws (taken_in_transaction username))])
      (Throws (taken_in_transaction username))
| creation_exhausted attempt evs :
    attempt = maxRetries ->
    failed_transaction attempt ms evs ->
    creation u username userRecord maxRetries ms attempt evs (Throws something_is_wrong)
| creation_retry attempt evs rest res :
    (attempt < maxRetries)%nat ->
    failed_transaction attempt ms evs ->
    creation u username userRecord maxRetries ms (S attempt) rest res ->
    creation u username userRecord maxRetries ms attempt (evs ++ rest) res.

Definition is_run_transaction (ev : event) : bool :=
  match ev with EvRunTransaction _ => true | _ => false end.

(** A transaction whose body threw the confirmed-taken [HttpsError]. *)
Definition transaction_taken (ev : event) : bool :=
  match ev with EvRunTransaction (Throws (HttpsError _ _)) => true | _ => false end.

Definition transaction_committed (ev : event) : bool :=
  match ev with EvRunTransaction (Returns _) => true | _ => false end.

Definition sleeps_are (ms : Z) (delta : list event) : Prop :=
  forall ev, In ev delta -> is_sleep ev = true -> ev = EvSleep ms.

(** From [w] to [w'] the clock has advanced by one unit for each transaction
    run and by the delay of [setTimeout] for each sleep. *)
Definition on_the_clock (ms : Z) (w w' : World) : Prop :=
  exists delta,
    trace w' = trace w ++ delta /\
    now w' = now w + Z.of_nat (count is_run_transaction delta)
             + timeout_delay ms * Z.of_nat (count is_sleep delta).

(** ** The errors of the handlers *)

Definition app_check_failed : exn :=
  HttpsError "failed-precondition" "App Check verification failed".
Definition authentication_required : exn :=
  HttpsError "unauthenticated" "Authentication required".
Definition email_not_verified : exn :=
  HttpsError "failed-precondition" "use a verified email address to continue".
Definition unexpected_error : exn :=
  HttpsError "internal" "An unexpected error occurred".
Definition user_not_online : exn :=
  HttpsError "failed-precondition" "User Not Online".
Definition already_waiting : exn :=
  HttpsError "already-exists" "User Already Waiting to be matched".
Definition user_already_exists : exn :=
  HttpsError "already-exists" "user already exists".

(** Neither database, nor the clock, nor what is left of the script differs
    between the two worlds: no store call was made. *)
Definition no_store_call (w w' : World) : Prop :=
  rtdb w' = rtdb w /\ firestore w' = firestore w /\ script w' = script w /\ now w' = now w.


(** A world in which nothing else happens: no other client, no fault. *)
Definition idle (w : World) : Prop := script w = [].

(** What stays of a world for the next call. *)
Definition same_service (w w' : World) : Prop :=
  auth_directory w' = auth_directory w /\ field_value w' = field_value w /\ idle w'.

Definition username_required : exn :=
  HttpsError "invalid-argument" "username is required and must be a string".
Definition username_rules_failed : exn :=
  HttpsError "invalid-argument" "username rules failed".

(** ** What no call changes *)

(** The directory and the SDK stay as they were, and a script that was over
    or free of interference stays so. *)
Definition settled (w w' : World) : Prop :=
  auth_directory w' = auth_directory w /\ server_value w' = server_value w /\
  field_value w' = field_value w /\ (idle w -> idle w') /\ (quiet w -> quiet w').

Definition settles {A} (m : M A) : Prop :=
  forall w res w', m w = (res, w') -> settled w w'.

(** ** Username rules *)

Definition not_whitespace (c : ascii) : bool := negb (is_whitespace c).

(** * Worlds to run the handlers in *)

Definition alice : UserRecord := mkUser "alice@example.com" true.
Definition bob : UserRecord := mkUser "bob@example.com" true.

Definition directory (uid : string) : result UserRecord :=
  if String.eqb uid "uid-a" then Returns alice
  else if String.eqb uid "uid-b" then Returns bob
  else Throws (Error (mkError (Some "auth/user-not-found") (Some "no such user"))).

Definition world0 (sc : list env_step) : World :=
  mkWorld directory ∅ ∅ true true 1000 sc [].

Definition caller (u : string) : Context := mkContext true (Some (mkAuth (Some u))).

Definition input (name : string) : option jsobj := Some [("username", JStr name)].

Definition rejected (c m : string) : env_step := mkStep [] (Some (mkError (Some c) (Some m))).

(** A lookup that rejects with an [HttpsError] of its own. *)
Definition outage_directory (uid : string) : result UserRecord :=
  Throws (HttpsError "failed-precondition" "use a verified email address to continue").

Definition outage_world : World :=
  mkWorld outage_directory ∅ ∅ true true 1000 [] [].

Definition cancel_world (sc : list env_step) : World :=
  mkWorld directory ∅ {[ (quick_matchmaking_queue, "uid-a") := [("status", JStr "waiting")] ]}
          true true 1000 sc [].

(** Ten attempts to delete, each rejected as aborted. *)
Definition contended_script : list env_step :=
  concat (repeat [quiet_step; rejected "aborted" "transaction conflict"] 10).

(** An online caller with no document under [users] in either database. *)
Definition online_world : World :=
  mkWorld directory {[ (presence, "uid-a") := [("online", JBool true)] ]} ∅
          true true 1000 [] [].

(** The first transaction is rejected; another client reserves the name
    before the re-read of the second attempt. *)
Definition race_world : World :=
  world0 [rejected "unavailable" "try again";
          mkStep [OtherSet Rtdb (usernames, "testuser123") [("created_at", JNum 7)]] None].

(** The first transaction is rejected, the second one commits. *)
Definition contention_world : World :=
  world0 [quiet_step; rejected "aborted" "too much contention"].

(** The reservation commits, the three user transactions are rejected. *)
Definition identity_failure (cleanup : env_step) : list env_step :=
  [quiet_step; quiet_step; quiet_step;
   rejected "unavailable" "try again"; rejected "unavailable" "try again";
   rejected "unavailable" "try again"; cleanup].

(** A context without an App Check token and without credentials. *)
Definition anonymous : Context := mkContext false None.

(** A caller whose email address is not verified. *)
Definition carol : UserRecord := mkUser "carol@example.com" false.

Definition carol_world : World :=
  mkWorld (fun _ => Returns carol) ∅ ∅ true true 1000 [] [].

(** The name is reserved by someone else; the caller has no record. *)
Definition reserved_world : World :=
  mkWorld directory {[ (usernames, "testuser123") := [("created_at", JNum 7)] ]} ∅
          true true 1000 [] [].

(** Another client writes the caller's profile after the read of step 5. *)
Definition late_profile_world : World :=
  world0 [quiet_step;
          mkStep [OtherSet Firestore (users, "uid-a") [("username", JStr "somebody1")]] None].

(** The Admin SDK without [FieldValue]. *)
Definition no_FieldValue_world : World :=
  mkWorld directory {[ (presence, "uid-a") := [("online", JBool true)] ]} ∅
          true false 1000 [] [].

(** Another client reserves the name while the first transaction is on its
    way. *)
Definition lost_race_world : World :=
  world0 [mkStep [OtherSet Rtdb (usernames, "testuser123") [("created_at", JNum 7)]] None].

(** * Properties *)

(** ** Authorization *)

Lemma caller_id_no_uid context u :
  caller_id context = Some u -> no_uid context = false.
Proof.
  unfold caller_id, no_uid.
  destruct (auth context) as [[[u'|]]|]; cbn; try discriminate.
  destruct (String.eqb u' ""); cbn; [discriminate | reflexivity].
Qed.

Lemma caller_id_context_uid context u :
  caller_id context = Some u -> context_uid context = ret u.
Proof.
  unfold caller_id, context_uid.
  destruct (auth context) as [[[u'|]]|]; cbn; try discriminate.
  destruct (String.eqb u' ""); cbn; [discriminate | congruence].
Qed.

Lemma getUserRecord_ok u userRecord w :
  auth_directory w u = Returns userRecord ->
  getUserRecord u w = (Returns userRecord, log (EvGetUser u) w).
Proof. intros H. unfold getUserRecord, try_catch, getUser. rewrite H. reflexivity. Qed.

Lemma getUserRecord_fails u e w :
  auth_directory w u = Throws e ->
  getUserRecord u w =
  (Throws (HttpsError "internal" "Failed to retrieve user information"), log (EvGetUser u) w).
Proof. intros H. unfold getUserRecord, try_catch, getUser. rewrite H. reflexivity. Qed.

Lemma validateAuthAndEmail_authorized w context u functionName :
  authorized w context u ->
  validateAuthAndEmail context functionName w = (Returns tt, log (EvGetUser u) w).
Proof.
  intros (Happ & Hid & userRecord & Hdir & Hver). unfold validateAuthAndEmail.
  rewrite Happ, (caller_id_no_uid _ _ Hid), (caller_id_context_uid _ _ Hid). simpl.
  unfold bind, ret. rewrite (getUserRecord_ok _ _ _ Hdir), Hver. reflexivity.
Qed.

Lemma validateAuthAndEmail_lookup_fails w context u e functionName :
  app context = true -> caller_id context = Some u -> auth_directory w u = Throws e ->
  validateAuthAndEmail context functionName w =
  (Throws (HttpsError "internal" "Failed to retrieve user information"), log (EvGetUser u) w).
Proof.
  intros Happ Hid Hdir. unfold validateAuthAndEmail.
  rewrite Happ, (caller_id_no_uid _ _ Hid), (caller_id_context_uid _ _ Hid). simpl.
  unfold bind, ret. rewrite (getUserRecord_fails _ _ _ Hdir). reflexivity.
Qed.

Lemma stopped_after_lookup_untouched {A} (run : result A * World) w u e :
  stopped_after_lookup run w u e ->
  rtdb (snd run) = rtdb w /\ firestore (snd run) = firestore w /\
  script (snd run) = script w /\ now (snd run) = now w /\
  exists delta, trace (snd run) = trace w ++ delta /\ existsb store_access delta = false.
Proof.
  unfold stopped_after_lookup. intros ->. simpl. repeat split.
  exists [EvGetUser u]. repeat split.
Qed.

(** C10. In each of the four handlers, when [getUser] fails, with whatever
    thrown value (an [HttpsError] included), the handler throws the internal
    error "Failed to retrieve user information", never "unauthenticated" or
    "failed-precondition", and has made no call to a store: the world it
    leaves differs from the one it found by the [getUser] event alone. *)
Theorem user_lookup_failure_is_internal :
  forall (data : option jsobj) (context : Context) (w : World) (u : string) (e : exn),
    caller_id context = Some u ->
    auth_directory w u = Throws e ->
    stopped_after_lookup (createNewUser data context w) w u lookup_failed /\
    (app context = true ->
     stopped_after_lookup (createNewUserHandler data context w) w u lookup_failed /\
     stopped_after_lookup (quickMatchHandler data context w) w u lookup_failed /\
     stopped_after_lookup (cancelQuickMatchHandler data context w) w u lookup_failed) /\
    exn_code lookup_failed = Some "internal" /\
    existsb store_access [EvGetUser u] = false.
Proof.
  intros data context w u e Hid Hdir. unfold stopped_after_lookup. split; [|split].
  - unfold createNewUser, guard.
    rewrite (caller_id_no_uid _ _ Hid), (caller_id_context_uid _ _ Hid).
    unfold try_catch, bind, ret.
    rewrite (getUserRecord_fails _ _ _ Hdir). reflexivity.
  - intros Happ. repeat split.
    + unfold createNewUserHandler, guard.
      rewrite Happ, (caller_id_no_uid _ _ Hid), (caller_id_context_uid _ _ Hid).
      unfold try_catch, bind, ret. cbn [negb].
      rewrite (getUserRecord_fails _ _ _ Hdir). reflexivity.
    + unfold quickMatchHandler, guard, try_catch, bind.
      rewrite (validateAuthAndEmail_lookup_fails _ _ _ _ _ Happ Hid Hdir). reflexivity.
    + unfold cancelQuickMatchHandler, guard, try_catch, bind.
      rewrite (validateAuthAndEmail_lookup_fails _ _ _ _ _ Happ Hid Hdir). reflexivity.
  - split; reflexivity.
Qed.

Lemma user_lookup_failure_is_internal_witness :
  caller_id (caller "uid-a") = Some "uid-a" /\
  auth_directory outage_world "uid-a" =
    Throws (HttpsError "failed-precondition" "use a verified email address to continue") /\
  stopped_after_lookup (createNewUser (input "testuser123") (caller "uid-a") outage_world)
                  outage_world "uid-a" lookup_failed.
Proof.
  split; [reflexivity | split; [reflexivity |]].
  apply (user_lookup_failure_is_internal (input "testuser123") (caller "uid-a") outage_world
           "uid-a" (HttpsError "failed-precondition" "use a verified email address to continue"));
    reflexivity.
Defined.

(** ** Username rules *)

Lemma usernameRegex_test_spec s :
  usernameRegex_test s = true <->
  exists c rest, s = String c rest /\ is_lower c = true /\ all_chars is_word rest = true /\
                 (8 <= String.length s <= 15)%nat.
Proof.
  unfold usernameRegex_test. split.
  - destruct s as [|c rest]; [discriminate|]. intros H.
    apply andb_prop in H as [H H4]. apply andb_prop in H as [H H3].
    apply andb_prop in H as [H1 H2].
    apply Nat.leb_le in H3, H4. exists c, rest. cbn [String.length]. repeat split; auto; lia.
  - intros (c & rest & -> & H1 & H2 & H3 & H4). cbn [String.length] in *.
    rewrite H1, H2. cbn [andb]. apply andb_true_intro. split; apply Nat.leb_le; lia.
Qed.

(** C9. For an authorized, email-verified caller, an input whose username is
    not a string, or whose trimmed value does not match the regex, makes
    either version of createNewUser throw an invalid-argument error, and the
    world it leaves differs from the one it found by the [getUser] event
    alone: no key of any store is created, no store is called. *)
Theorem invalid_username_rejected :
  forall (data : option jsobj) (context : Context) (w : World) (u : string)
         (userRecord : UserRecord),
    caller_id context = Some u ->
    auth_directory w u = Returns userRecord ->
    emailVerified userRecord = true ->
    invalid_input data ->
    (exists msg,
        stopped_after_lookup (createNewUser data context w) w u (HttpsError "invalid-argument" msg)) /\
    (app context = true ->
     exists msg,
       stopped_after_lookup (createNewUserHandler data context w) w u
                       (HttpsError "invalid-argument" msg)).
Proof.
  intros data context w u userRecord Hid Hdir Hver Hbad. unfold stopped_after_lookup. split.
  - unfold createNewUser, guard.
    rewrite (caller_id_no_uid _ _ Hid), (caller_id_context_uid _ _ Hid).
    unfold try_catch, bind, ret. rewrite (getUserRecord_ok _ _ _ Hdir), Hver. cbn [negb].
    destruct Hbad as [-> | (raw & -> & ->)]; cbn [negb]; eexists; reflexivity.
  - intros Happ. unfold createNewUserHandler, guard.
    rewrite Happ, (caller_id_no_uid _ _ Hid), (caller_id_context_uid _ _ Hid).
    unfold try_catch, bind, ret. cbn [negb].
    rewrite (getUserRecord_ok _ _ _ Hdir), Hver. cbn [negb].
    destruct Hbad as [-> | (raw & -> & ->)]; cbn [negb]; eexists; reflexivity.
Qed.

Lemma invalid_username_rejected_witness :
  caller_id (caller "uid-a") = Some "uid-a" /\
  auth_directory (world0 []) "uid-a" = Returns alice /\
  emailVerified alice = true /\
  usernameRegex_test (trim " Testuser123 ") = false /\
  exists msg,
    stopped_after_lookup (createNewUser (input " Testuser123 ") (caller "uid-a") (world0 []))
                    (world0 []) "uid-a" (HttpsError "invalid-argument" msg).
Proof.
  repeat (split; [reflexivity |]).
  apply (invalid_username_rejected (input " Testuser123 ") (caller "uid-a") (world0 [])
           "uid-a" alice); try reflexivity.
  right. exists " Testuser123 ". split; reflexivity.
Defined.

(** ** Leaving the queue *)

Lemma deleteWithRetry_from_returns fuel :
  forall docRef attempt maxRetries retryDelayMs w,
  exists deleted w',
    deleteWithRetry_from fuel docRef attempt maxRetries retryDelayMs w = (Returns deleted, w').
Proof.
  induction fuel as [|fuel IH]; intros docRef attempt maxRetries retryDelayMs w; cbn [deleteWithRetry_from].
  - eexists _, _. reflexivity.
  - destruct (attempt <=? maxRetries)%nat; [| eexists _, _; reflexivity].
    unfold try_catch, bind.
    destruct (get docRef w) as [[[doc|]|e] w1].
    + destruct (delete_doc docRef w1) as [[[]|e] w2].
      * eexists _, _. reflexivity.
      * destruct (isLockedError e && (attempt <? maxRetries)%nat).
        -- unfold sleep. apply IH.
        -- eexists _, _. reflexivity.
    + eexists _, _. reflexivity.
    + destruct (isLockedError e && (attempt <? maxRetries)%nat).
      * unfold sleep. apply IH.
      * eexists _, _. reflexivity.
Qed.

(** C4. For an authorized caller [cancelQuickMatchHandler] returns
    [{success: true}] whatever the world does: [deleteWithRetry] always
    returns (it never throws), and the handler's answer is the same for
    [deleted = true] (entry deleted or absent) and [deleted = false] (still
    contended after the last attempt, or an error that is not retried). *)
Theorem leaveQueue_always_succeeds :
  forall (data : option jsobj) (context : Context) (w : World) (u : string),
    authorized w context u ->
    exists deleted w',
      deleteWithRetry (quick_matchmaking_queue, u) 10 500 (log (EvGetUser u) w)
        = (Returns deleted, w') /\
      cancelQuickMatchHandler data context w = (Returns success_response, w').
Proof.
  intros data context w u Hauth.
  destruct (deleteWithRetry_from_returns 10 (quick_matchmaking_queue, u) 1 10 500
              (log (EvGetUser u) w)) as (deleted & w' & Hdel).
  exists deleted, w'. split; [exact Hdel|].
  unfold cancelQuickMatchHandler, guard, try_catch, bind.
  rewrite (validateAuthAndEmail_authorized _ _ _ _ Hauth).
  destruct Hauth as (_ & Hid & _). rewrite (caller_id_context_uid _ _ Hid).
  unfold ret at 1. unfold deleteWithRetry in *. rewrite Hdel. reflexivity.
Qed.

Lemma authorized_alice sc : authorized (cancel_world sc) (caller "uid-a") "uid-a".
Proof. repeat split. exists alice. split; reflexivity. Defined.

Lemma leaveQueue_always_succeeds_witness :
  authorized (cancel_world [quiet_step; rejected "permission-denied" "no access"])
             (caller "uid-a") "uid-a" /\
  fst (cancelQuickMatchHandler None (caller "uid-a")
         (cancel_world [quiet_step; rejected "permission-denied" "no access"]))
  = Returns success_response.
Proof.
  split; [apply authorized_alice |].
  destruct (leaveQueue_always_succeeds None (caller "uid-a")
              (cancel_world [quiet_step; rejected "permission-denied" "no access"])
              "uid-a" (authorized_alice _)) as (deleted & w' & _ & H).
  rewrite H. reflexivity.
Defined.

(** *** What the environment's step leaves alone *)

Lemma apply_mutations_trace ms : forall w, trace (apply_mutations ms w) = trace w.
Proof.
  unfold apply_mutations. induction ms as [|m ms IH]; intros w; cbn [fold_left]; [reflexivity|].
  rewrite IH. destruct m as [[] ? ?|[] ?]; reflexivity.
Qed.

Lemma arrive_trace w f w1 : arrive w = (f, w1) -> trace w1 = trace w.
Proof.
  unfold arrive. destruct (script w) as [|s rest]; intros H; inversion H; subst; cbn.
  - reflexivity.
  - rewrite apply_mutations_trace. reflexivity.
Qed.

(** *** The shape of a run of deleteWithRetry *)

Lemma deleteWithRetry_from_contended fuel :
  forall docRef attempt maxRetries ms w,
    (attempt + fuel = maxRetries + 1)%nat ->
    exists deleted delta w',
      deleteWithRetry_from fuel docRef attempt maxRetries ms w = (Returns deleted, w') /\
      trace w' = trace w ++ delta /\
      (forallb contended_event delta = true ->
       map step_of delta = contended_shape fuel ms /\ deleted = false).
Proof.
  induction fuel as [|fuel IH]; intros docRef attempt maxRetries ms w Hfuel;
    cbn [deleteWithRetry_from].
  - exists false, [], w. rewrite app_nil_r. repeat split.
  - replace (attempt <=? maxRetries)%nat with true by (symmetry; apply Nat.leb_le; lia).
    unfold try_catch, bind, get.
    destruct (arrive w) as [[e|] w0] eqn:Ha; pose proof (arrive_trace _ _ _ Ha) as Ht0.
    + (* the read is rejected *)
      destruct (isLockedError (Error e) && (attempt <? maxRetries)%nat) eqn:Hretry.
      * unfold sleep.
        edestruct (IH docRef (S attempt) maxRetries ms) as (b & delta & w' & Hrun & Htr & _);
          [lia|].
        eexists b, (_ :: _ :: delta), w'. split; [exact Hrun|]. split.
        -- rewrite Htr. cbn [trace log set_now]. rewrite Ht0, <- !app_assoc. reflexivity.
        -- cbn [forallb contended_event andb]. discriminate.
      * eexists false, [_], _. split; [reflexivity|]. split.
        -- cbn [trace log]. rewrite Ht0. reflexivity.
        -- cbn [forallb contended_event andb]. discriminate.
    + destruct (firestore w0 !! docRef) as [doc|] eqn:Hdoc.
      * (* the document is there: delete it *)
        unfold delete_doc. cbn [ret].
        destruct (arrive (log _ w0)) as [[e|] w1] eqn:Ha1;
          pose proof (arrive_trace _ _ _ Ha1) as Ht1; cbn [trace log] in Ht1.
        -- destruct (isLockedError (Error e)) eqn:Hlocked; cbn [andb].
           ++ destruct (attempt <? maxRetries)%nat eqn:Hlt.
              ** apply Nat.ltb_lt in Hlt. unfold sleep.
                 edestruct (IH docRef (S attempt) maxRetries ms) as (b & delta & w' & Hrun & Htr & Hshape);
                   [lia|].
                 eexists b, (_ :: _ :: _ :: delta), w'. split; [exact Hrun|]. split.
                 --- rewrite Htr. cbn [trace log set_now]. rewrite Ht1, Ht0, <- !app_assoc.
                     reflexivity.
                 --- cbn [forallb contended_event andb]. rewrite Hlocked. cbn [andb].
                     intros Hall. destruct (Hshape Hall) as [Hmap ->]. split; [|reflexivity].
                     cbn [map step_of]. rewrite Hmap.
                     destruct fuel as [|fuel']; [lia | reflexivity].
              ** apply Nat.ltb_ge in Hlt.
                 eexists false, [_; _], _. split; [reflexivity|]. split.
                 --- cbn [trace log]. rewrite Ht1, Ht0, <- !app_assoc. reflexivity.
                 --- intros _. split; [|reflexivity].
                     destruct fuel as [|fuel']; [reflexivity | lia].
           ++ eexists false, [_; _], _. split; [reflexivity|]. split.
              ** cbn [trace log]. rewrite Ht1, Ht0, <- !app_assoc. reflexivity.
              ** cbn [forallb contended_event andb]. rewrite Hlocked. discriminate.
        -- eexists true, [_; _], _. split; [reflexivity|]. split.
           ++ cbn [trace log set_firestore]. rewrite Ht1, Ht0, <- !app_assoc. reflexivity.
           ++ cbn [forallb contended_event andb]. discriminate.
      * (* the document is absent *)
        eexists true, [_], _. split; [reflexivity|]. split.
        -- cbn [trace log]. rewrite Ht0. reflexivity.
        -- cbn [forallb contended_event andb]. discriminate.
Qed.

Lemma code_is_spec error c : code_is error c = true <-> exn_code error = Some c.
Proof.
  unfold code_is. destruct (exn_code error) as [c'|].
  - rewrite String.eqb_eq. split; congruence.
  - split; discriminate.
Qed.

Lemma message_includes_spec error sub :
  message_includes error sub = true <->
  exists m, exn_message error = Some m /\ includes m sub = true.
Proof.
  unfold message_includes. destruct (exn_message error) as [m|].
  - split; [eauto | intros (m' & Hm & H); congruence].
  - split; [discriminate | intros (m' & Hm & _); discriminate].
Qed.

Lemma isLockedError_spec error : isLockedError error = true <-> contended error.
Proof.
  unfold isLockedError, contended.
  rewrite !orb_true_iff, !code_is_spec, !message_includes_spec. tauto.
Qed.

Lemma count_is_delete_steps delta : count is_delete delta = count is_Del (map step_of delta).
Proof.
  induction delta as [|ev delta IH]; [reflexivity|]. cbn [map count]. rewrite IH.
  destruct ev as [|[] [] ? ?| |]; reflexivity.
Qed.

Lemma get_trace r w res w1 :
  get r w = (res, w1) -> exists a, trace w1 = trace w ++ [EvStore Firestore Get r a].
Proof.
  unfold get. destruct (arrive w) as [[e|] w0] eqn:Ha; intros H; inversion H; subst;
    cbn [trace log]; rewrite (arrive_trace _ _ _ Ha); eauto.
Qed.

Lemma delete_doc_trace r w res w1 :
  delete_doc r w = (res, w1) -> exists a, trace w1 = trace w ++ [EvStore Firestore Delete r a].
Proof.
  unfold delete_doc. destruct (arrive w) as [[e|] w0] eqn:Ha; intros H; inversion H; subst;
    cbn [trace log set_firestore]; rewrite (arrive_trace _ _ _ Ha); eauto.
Qed.



(** ** Joining the queue *)

Lemma once_trace r w res w1 :
  once r w = (res, w1) -> exists a, trace w1 = trace w ++ [EvStore Rtdb Once r a].
Proof.
  unfold once. destruct (arrive w) as [[e|] w0] eqn:Ha; intros H; inversion H; subst;
    cbn [trace log]; rewrite (arrive_trace _ _ _ Ha); eauto.
Qed.

Lemma set_trace r data w res w1 :
  set r data w = (res, w1) -> exists a, trace w1 = trace w ++ [EvStore Firestore Set_ r a].
Proof.
  unfold set. destruct (arrive w) as [[e|] w0] eqn:Ha; intros H; inversion H; subst;
    cbn [trace log set_firestore]; rewrite (arrive_trace _ _ _ Ha); eauto.
Qed.

Lemma set_stores r data w w1 :
  set r data w = (Returns tt, w1) -> firestore w1 !! r = Some (resolve (now w1) data).
Proof.
  unfold set. destruct (arrive w) as [[e|] w0] eqn:Ha; intros H; inversion H; subst.
  cbn [firestore log set_firestore now]. apply lookup_insert_eq.
Qed.

Lemma getServerTimestamp_field_value w :
  field_value w = true -> getServerTimestamp w = (Returns JServerTimestamp, w).
Proof. intros H. unfold getServerTimestamp. rewrite H. reflexivity. Qed.

Lemma arrive_field_value w f w1 : arrive w = (f, w1) -> field_value w1 = field_value w.
Proof.
  assert (Hm : forall ms w, field_value (apply_mutations ms w) = field_value w).
  { unfold apply_mutations. induction ms as [|m ms IH]; intros w0; cbn [fold_left];
      [reflexivity|]. rewrite IH. destruct m as [[] ? ?|[] ?]; reflexivity. }
  unfold arrive. destruct (script w) as [|s rest]; intros H; inversion H; subst; cbn.
  - reflexivity.
  - rewrite Hm. reflexivity.
Qed.

Lemma once_field_value r w res w1 : once r w = (res, w1) -> field_value w1 = field_value w.
Proof.
  unfold once. destruct (arrive w) as [[e|] w0] eqn:Ha; intros H; inversion H; subst;
    cbn [field_value log]; apply (arrive_field_value _ _ _ Ha).
Qed.

Lemma get_field_value r w res w1 : get r w = (res, w1) -> field_value w1 = field_value w.
Proof.
  unfold get. destruct (arrive w) as [[e|] w0] eqn:Ha; intros H; inversion H; subst;
    cbn [field_value log]; apply (arrive_field_value _ _ _ Ha).
Qed.

Lemma context_uid_cases context :
  (exists u, context_uid context = ret u) \/ (exists e, context_uid context = throw e).
Proof. unfold context_uid. destruct (auth context) as [[[u|]]|]; eauto. Qed.

(** The calls [quickMatchHandler] makes never touch [users]. *)
Lemma quickMatchHandler_never_reads_users data context w :
  exists delta,
    trace (snd (quickMatchHandler data context w)) = trace w ++ delta /\
    existsb touches_users delta = false.
Proof.
  unfold quickMatchHandler, guard, try_catch, bind, validateAuthAndEmail, bind.
  destruct (negb (app context)); [exists []; rewrite app_nil_r; split; reflexivity|].
  destruct (no_uid context); [exists []; rewrite app_nil_r; split; reflexivity|].
  destruct (context_uid_cases context) as [(u & Hu) | (e & Hu)]; rewrite !Hu; unfold ret, throw.
  2:{ destruct (instanceof_HttpsError e); exists []; rewrite app_nil_r; split; reflexivity. }
  unfold getUserRecord, try_catch, getUser.
  destruct (auth_directory w u) as [userRecord|e];
    [| exists [EvGetUser u]; split; reflexivity].
  destruct (negb (emailVerified userRecord)); [exists [EvGetUser u]; split; reflexivity|].
  destruct (once (presence, u) (log (EvGetUser u) w)) as [[p|e] w1] eqn:Honce;
    destruct (once_trace _ _ _ _ Honce) as (a1 & Ht1); cbn [trace log] in Ht1.
  2:{ destruct (instanceof_HttpsError e); eexists [_; _]; cbn [snd throw ret instanceof_HttpsError new_Error];
        rewrite Ht1, <- app_assoc; split; reflexivity. }
  destruct (negb (exists_ p)).
  { eexists [_; _]; cbn [snd throw ret instanceof_HttpsError new_Error]; rewrite Ht1, <- app_assoc; split; reflexivity. }
  destruct (get (quick_matchmaking_queue, u) w1) as [[q|e] w2] eqn:Hget;
    destruct (get_trace _ _ _ _ Hget) as (a2 & Ht2).
  2:{ destruct (instanceof_HttpsError e); eexists [_; _; _]; cbn [snd throw ret instanceof_HttpsError new_Error];
        rewrite Ht2, Ht1, <- !app_assoc; split; reflexivity. }
  destruct (exists_ q).
  { eexists [_; _; _]; cbn [snd throw ret instanceof_HttpsError new_Error]; rewrite Ht2, Ht1, <- !app_assoc; split; reflexivity. }
  unfold getServerTimestamp. destruct (field_value w2).
  2:{ eexists [_; _; _]; cbn [snd throw ret instanceof_HttpsError new_Error]; rewrite Ht2, Ht1, <- !app_assoc; split; reflexivity. }
  destruct (set (quick_matchmaking_queue, u) _ w2) as [[[]|e] w3] eqn:Hset;
    destruct (set_trace _ _ _ _ _ Hset) as (a3 & Ht3).
  - eexists [_; _; _; _]; cbn [snd throw ret instanceof_HttpsError new_Error]; rewrite Ht3, Ht2, Ht1, <- !app_assoc; split; reflexivity.
  - destruct (instanceof_HttpsError e); eexists [_; _; _; _]; cbn [snd throw ret instanceof_HttpsError new_Error];
      rewrite Ht3, Ht2, Ht1, <- !app_assoc; split; reflexivity.
Qed.

(** C8. [quickMatchHandler] admits on presence and queue absence alone. For an
    authorized caller [u], with [w0] the world once the checks are passed:
    - the presence read finds nothing: "User Not Online";
    - it finds the marker and the queue read finds an entry:
      "User Already Waiting to be matched";
    - it finds the marker, the queue read finds nothing and the [set] goes
      through: the entry [{uid, created_at, status: 'waiting'}] is stored
      under [u] whatever was there, and [{success: true}] is returned.
    Nothing here depends on what [users] holds, and no call of the handler,
    in any world, is on [users]. *)
Theorem joinQueue_admission :
  forall (data : option jsobj) (context : Context) (w : World) (u : string),
    authorized w context u ->
    let w0 := log (EvGetUser u) w in
    (forall w1,
        once (presence, u) w0 = (Returns None, w1) ->
        quickMatchHandler data context w
        = (Throws (HttpsError "failed-precondition" "User Not Online"), w1)) /\
    (forall marker w1 entry w2,
        once (presence, u) w0 = (Returns (Some marker), w1) ->
        get (quick_matchmaking_queue, u) w1 = (Returns (Some entry), w2) ->
        quickMatchHandler data context w
        = (Throws (HttpsError "already-exists" "User Already Waiting to be matched"), w2)) /\
    (forall marker w1 w2 w3,
        once (presence, u) w0 = (Returns (Some marker), w1) ->
        get (quick_matchmaking_queue, u) w1 = (Returns None, w2) ->
        field_value w = true ->
        set (quick_matchmaking_queue, u) (waiting_entry u JServerTimestamp) w2
        = (Returns tt, w3) ->
        quickMatchHandler data context w = (Returns success_response, w3) /\
        firestore w3 !! (quick_matchmaking_queue, u)
        = Some (waiting_entry u (JNum (now w3)))) /\
    (exists delta,
        trace (snd (quickMatchHandler data context w)) = trace w ++ delta /\
        existsb touches_users delta = false).
Proof.
  intros data context w u Hauth w0.
  assert (Hgate : validateAuthAndEmail context "quickMatch" w = (Returns tt, w0))
    by apply (validateAuthAndEmail_authorized _ _ _ _ Hauth).
  assert (Hu : context_uid context = ret u)
    by (destruct Hauth as (_ & Hid & _); apply (caller_id_context_uid _ _ Hid)).
  split; [|split; [|split]].
  - intros w1 Honce.
    unfold quickMatchHandler, guard, try_catch, bind. rewrite Hgate, Hu. unfold ret at 1.
    rewrite Honce. reflexivity.
  - intros marker w1 entry w2 Honce Hget.
    unfold quickMatchHandler, guard, try_catch, bind. rewrite Hgate, Hu. unfold ret at 1.
    rewrite Honce. cbn [negb exists_]. rewrite Hget. reflexivity.
  - intros marker w1 w2 w3 Honce Hget Hfv Hset. split.
    + unfold quickMatchHandler, guard, try_catch, bind. rewrite Hgate, Hu. unfold ret at 1.
      rewrite Honce. cbn [negb exists_]. rewrite Hget. cbn [exists_].
      rewrite getServerTimestamp_field_value.
      * unfold waiting_entry in Hset. rewrite Hset. reflexivity.
      * rewrite (get_field_value _ _ _ _ Hget), (once_field_value _ _ _ _ Honce). exact Hfv.
    + rewrite (set_stores _ _ _ _ Hset). reflexivity.
  - apply quickMatchHandler_never_reads_users.
Qed.

Lemma joinQueue_admission_witness :
  authorized online_world (caller "uid-a") "uid-a" /\
  rtdb online_world !! (users, "uid-a") = None /\
  firestore online_world !! (users, "uid-a") = None /\
  fst (quickMatchHandler None (caller "uid-a") online_world) = Returns success_response.
Proof.
  assert (Hauth : authorized online_world (caller "uid-a") "uid-a").
  { repeat split. exists alice. split; reflexivity. }
  split; [exact Hauth |]. split; [reflexivity |]. split; [reflexivity |].
  pose (w0 := log (EvGetUser "uid-a") online_world).
  pose (w1 := snd (once (presence, "uid-a") w0)).
  pose (w2 := snd (get (quick_matchmaking_queue, "uid-a") w1)).
  pose (w3 := snd (set (quick_matchmaking_queue, "uid-a")
                       (waiting_entry "uid-a" JServerTimestamp) w2)).
  destruct (proj1 (proj2 (proj2 (joinQueue_admission None (caller "uid-a") online_world
                                   "uid-a" Hauth)))
              [("online", JBool true)] w1 w2 w3) as [Hrun _];
    [vm_compute; reflexivity | vm_compute; reflexivity | reflexivity
    | vm_compute; reflexivity |].
  rewrite Hrun. reflexivity.
Defined.

(** ** Registration over the Realtime Database *)

(** *** Requests that pass the checks *)

Lemma createNewUser_valid data context w u userRecord raw :
  caller_id context = Some u ->
  auth_directory w u = Returns userRecord ->
  emailVerified userRecord = true ->
  username_of data = Some raw ->
  usernameRegex_test (trim raw) = true ->
  createNewUser data context w
  = guard (registerUser u userRecord (trim raw)) (log (EvGetUser u) w).
Proof.
  intros Hid Hdir Hver Hraw Hre. unfold createNewUser, guard.
  rewrite (caller_id_no_uid _ _ Hid), (caller_id_context_uid _ _ Hid).
  unfold try_catch, bind, ret. rewrite (getUserRecord_ok _ _ _ Hdir), Hver, Hraw, Hre.
  reflexivity.
Qed.

Lemma createNewUserHandler_valid data context w u userRecord raw :
  app context = true ->
  caller_id context = Some u ->
  auth_directory w u = Returns userRecord ->
  emailVerified userRecord = true ->
  username_of data = Some raw ->
  usernameRegex_test (trim raw) = true ->
  createNewUserHandler data context w
  = guard (registerUserDoc u userRecord (trim raw)) (log (EvGetUser u) w).
Proof.
  intros Happ Hid Hdir Hver Hraw Hre. unfold createNewUserHandler, guard.
  rewrite Happ, (caller_id_no_uid _ _ Hid), (caller_id_context_uid _ _ Hid).
  unfold try_catch, bind, ret. cbn [negb].
  rewrite (getUserRecord_ok _ _ _ Hdir), Hver, Hraw, Hre. reflexivity.
Qed.

(** *** Inversion of runs that return *)

Ltac absurd_run H := cbv beta iota delta [throw ret negb] in H; discriminate H.

Lemma guard_returns {A} (m : M A) w a w' :
  guard m w = (Returns a, w') -> m w = (Returns a, w').
Proof.
  unfold guard, try_catch, throw. destruct (m w) as [[a0|e] w0]; [auto|].
  destruct (instanceof_HttpsError e); intros H; discriminate H.
Qed.

Lemma bind_returns {A B} (m : M A) (k : A -> M B) w b w' :
  bind m k w = (Returns b, w') ->
  exists a w1, m w = (Returns a, w1) /\ k a w1 = (Returns b, w').
Proof.
  unfold bind. destruct (m w) as [[a|e] w1]; [eauto | intros H; discriminate H].
Qed.


(** ** Inversion of runs *)

Lemma bind_inv {A B} (m : M A) (k : A -> M B) w res w' :
  bind m k w = (res, w') ->
  (exists a w1, m w = (Returns a, w1) /\ k a w1 = (res, w')) \/
  (exists e, m w = (Throws e, w') /\ res = Throws e).
Proof.
  unfold bind. destruct (m w) as [[a|e] w1]; intros H.
  - left. eauto.
  - right. inversion H; subst. eauto.
Qed.

(** * Further properties of the handlers *)


Lemma try_catch_inv {A} (m : M A) (h : exn -> M A) w res w' :
  try_catch m h w = (res, w') ->
  (exists a, m w = (Returns a, w') /\ res = Returns a) \/
  (exists e w1, m w = (Throws e, w1) /\ h e w1 = (res, w')).
Proof.
  unfold try_catch. destruct (m w) as [[a|e] w1]; intros H.
  - left. inversion H; subst. eauto.
  - right. eauto.
Qed.

Lemma guard_throws {A} (m : M A) w e w' :
  guard m w = (Throws e, w') ->
  exists e0, m w = (Throws e0, w') /\
             e = (if instanceof_HttpsError e0 then e0 else unexpected_error).
Proof.
  unfold guard, try_catch, throw. destruct (m w) as [[a|e0] w1]; intros H; [discriminate H|].
  exists e0. destruct (instanceof_HttpsError e0); inversion H; subst; auto.
Qed.

Lemma guard_throws_https {A} (m : M A) w e w' :
  guard m w = (Throws e, w') -> instanceof_HttpsError e = true.
Proof.
  intros H. apply guard_throws in H as (e0 & _ & ->).
  destruct (instanceof_HttpsError e0) eqn:He; [exact He | reflexivity].
Qed.

Lemma guard_inv {A} (m : M A) w res w' :
  guard m w = (res, w') ->
  (exists a, m w = (Returns a, w') /\ res = Returns a) \/
  (exists e0, m w = (Throws e0, w') /\
              res = Throws (if instanceof_HttpsError e0 then e0 else unexpected_error)).
Proof.
  unfold guard, try_catch, throw. destruct (m w) as [[a|e0] w1]; intros H.
  - left. inversion H; subst. eauto.
  - right. exists e0. destruct (instanceof_HttpsError e0); inversion H; subst; auto.
Qed.
Lemma no_uid_caller_id context :
  no_uid context = false -> exists u, caller_id context = Some u.
Proof.
  unfold no_uid, caller_id. destruct (auth context) as [[[u|]]|]; cbn;
    intros H; try discriminate H.
  revert H. destruct (String.eqb u ""); intros H; [discriminate H | eauto].
Qed.

Lemma getUserRecord_returns u w userRecord w1 :
  getUserRecord u w = (Returns userRecord, w1) ->
  auth_directory w u = Returns userRecord /\ w1 = log (EvGetUser u) w.
Proof.
  unfold getUserRecord, try_catch, getUser.
  destruct (auth_directory w u) as [r|e]; intros H; inversion H; auto.
Qed.

Lemma createNewUser_returns data context w response w' :
  createNewUser data context w = (Returns response, w') ->
  exists u userRecord username,
    valid_request data context w u userRecord username /\
    registerUser u userRecord username (log (EvGetUser u) w) = (Returns response, w').
Proof.
  intros H. apply guard_returns in H.
  destruct (no_uid context) eqn:Hno; [absurd_run H|].
  destruct (no_uid_caller_id _ Hno) as (u & Hid).
  rewrite (caller_id_context_uid _ _ Hid) in H.
  apply bind_returns in H as (u' & w1 & Hu & H). inversion Hu; subst u' w1.
  apply bind_returns in H as (userRecord & w1 & Hrec & H).
  apply getUserRecord_returns in Hrec as [Hdir ->].
  destruct (emailVerified userRecord) eqn:Hver; [|absurd_run H]. cbn [negb] in H.
  destruct (username_of data) as [raw|] eqn:Hraw; [|absurd_run H].
  destruct (usernameRegex_test (trim raw)) eqn:Hre; [|absurd_run H]. cbn [negb] in H.
  exists u, userRecord, (trim raw). split; [|exact H].
  repeat split; auto. exists raw. auto.
Qed.

Lemma createNewUserHandler_returns data context w response w' :
  createNewUserHandler data context w = (Returns response, w') ->
  exists u userRecord username,
    app context = true /\
    valid_request data context w u userRecord username /\
    registerUserDoc u userRecord username (log (EvGetUser u) w) = (Returns response, w').
Proof.
  intros H. apply guard_returns in H.
  destruct (app context) eqn:Happ; [|absurd_run H]. cbn [negb] in H.
  destruct (no_uid context) eqn:Hno; [absurd_run H|].
  destruct (no_uid_caller_id _ Hno) as (u & Hid).
  rewrite (caller_id_context_uid _ _ Hid) in H.
  apply bind_returns in H as (u' & w1 & Hu & H). inversion Hu; subst u' w1.
  apply bind_returns in H as (userRecord & w1 & Hrec & H).
  apply getUserRecord_returns in Hrec as [Hdir ->].
  destruct (emailVerified userRecord) eqn:Hver; [|absurd_run H]. cbn [negb] in H.
  destruct (username_of data) as [raw|] eqn:Hraw; [|absurd_run H].
  destruct (usernameRegex_test (trim raw)) eqn:Hre; [|absurd_run H]. cbn [negb] in H.
  exists u, userRecord, (trim raw). split; [reflexivity|]. split; [|exact H].
  repeat split; auto. exists raw. auto.
Qed.

(** *** Step 6: reserving the username *)

Lemma apply_mutations_now ms : forall w, now (apply_mutations ms w) = now w.
Proof.
  unfold apply_mutations. induction ms as [|m ms IH]; intros w; cbn [fold_left]; [reflexivity|].
  rewrite IH. destruct m as [[] ? ?|[] ?]; reflexivity.
Qed.

Lemma arrive_now w f w1 : arrive w = (f, w1) -> now w1 = now w + 1.
Proof.
  unfold arrive. destruct (script w) as [|s rest]; intros H; inversion H; subst; reflexivity.
Qed.

Lemma arrive_quiet w f w1 :
  quiet w -> arrive w = (f, w1) ->
  quiet w1 /\ rtdb w1 = rtdb w /\ firestore w1 = firestore w.
Proof.
  unfold quiet, arrive. destruct (script w) as [|s rest] eqn:Hsc; intros Hq H;
    inversion H; subst.
  - cbn. rewrite Hsc. auto.
  - inversion Hq as [|? ? Hs Hrest]; subst. rewrite Hs. cbn. auto.
Qed.

Lemma try_catch_bind {A B} (m : M A) (k : A -> M B) (h : exn -> M B) w :
  try_catch (bind m k) h w
  = match m w with
    | (Returns a, w1) => try_catch (k a) h w1
    | (Throws e, w1) => h e w1
    end.
Proof. unfold try_catch, bind. destruct (m w) as [[a|e] w1]; reflexivity. Qed.

Lemma createUsername_from_reservation fuel :
  forall usernameRef attempt maxRetries w,
    (attempt + fuel = maxRetries + 1)%nat -> (1 <= fuel)%nat ->
    exists res delta w',
      createUsername_from fuel usernameRef attempt maxRetries w = (res, w') /\
      trace w' = trace w ++ delta /\
      now w' = now w + Z.of_nat (length delta) /\
      reservation usernameRef maxRetries attempt delta res /\
      (forall created, res = Returns created ->
         exists t, created = Some (JNum t) /\
                   rtdb w' !! usernameRef = Some [("created_at", JNum t)] /\
                   last delta = Some (reservation_commit usernameRef t)) /\
      (quiet w -> quiet w').
Proof.
  induction fuel as [|fuel IH]; intros r attempt maxRetries w Hfuel Hpos; [lia|].
  cbn [createUsername_from].
  replace (attempt <=? maxRetries)%nat with true by (symmetry; apply Nat.leb_le; lia).
  match goal with |- context [try_catch _ ?h] => set (handler := h) end.
  match goal with
  | |- context [bind (transaction r usernameUpdate) ?k] =>
      set (attemptTransaction := bind (transaction r usernameUpdate) k)
  end.
  (* what happens after an attempt that failed *)
  assert (Hfail : forall evs w0 e,
             instanceof_HttpsError e = false ->
             (quiet w -> quiet w0) ->
             trace w0 = trace w ++ evs ->
             now w0 = now w + Z.of_nat (length evs) ->
             failed_attempt r attempt evs ->
             exists res delta w',
               handler e w0 = (res, w') /\
               trace w' = trace w ++ delta /\
               now w' = now w + Z.of_nat (length delta) /\
               reservation r maxRetries attempt delta res /\
               (forall created, res = Returns created ->
                  exists t, created = Some (JNum t) /\
                            rtdb w' !! r = Some [("created_at", JNum t)] /\
                            last delta = Some (reservation_commit r t)) /\
               (quiet w -> quiet w')).
  { intros evs w0 e He Hq Ht Hn Hev. unfold handler. rewrite He.
    destruct (attempt =? maxRetries)%nat eqn:Hmax.
    - apply Nat.eqb_eq in Hmax. exists (Throws something_is_wrong), evs, w0.
      split; [reflexivity|]. split; [exact Ht|]. split; [exact Hn|]. split; [|split].
      + apply reservation_exhausted; auto.
      + intros created Hc. discriminate Hc.
      + exact Hq.
    - apply Nat.eqb_neq in Hmax.
      destruct (IH r (S attempt) maxRetries w0)
        as (res & rest & w' & Hrun & Ht' & Hn' & Hres & Hcommit & Hq');
        [lia | lia |].
      exists res, (evs ++ rest), w'. split; [exact Hrun|]. split; [|split; [|split; [|split]]].
      + rewrite Ht', Ht, app_assoc. reflexivity.
      + rewrite Hn', Hn, length_app. lia.
      + apply reservation_retry; auto. lia.
      + intros created Hc. destruct (Hcommit created Hc) as (t & Hcr & Hdb & Hlast).
        exists t. repeat split; auto. rewrite last_app, Hlast. reflexivity.
      + auto. }
  (* the transaction, once the re-read (if any) has found nothing *)
  assert (Htx : forall w0,
             (quiet w -> quiet w0) ->
             trace w0 = trace w ++ reread r attempt ->
             now w0 = now w + Z.of_nat (length (reread r attempt)) ->
             exists res delta w',
               try_catch attemptTransaction handler w0 = (res, w') /\
               trace w' = trace w ++ delta /\
               now w' = now w + Z.of_nat (length delta) /\
               reservation r maxRetries attempt delta res /\
               (forall created, res = Returns created ->
                  exists t, created = Some (JNum t) /\
                            rtdb w' !! r = Some [("created_at", JNum t)] /\
                            last delta = Some (reservation_commit r t)) /\
               (quiet w -> quiet w')).
  { intros w0 Hq0 Ht0 Hn0. unfold attemptTransaction. rewrite try_catch_bind.
    unfold transaction.
    destruct (arrive w0) as [[e|] w1] eqn:Ha;
      pose proof (arrive_trace _ _ _ Ha) as Ht1; pose proof (arrive_now _ _ _ Ha) as Hn1;
      assert (Hq1 : quiet w -> quiet w1)
        by (intros Hq; apply (arrive_quiet _ _ _ (Hq0 Hq) Ha)).
    - eapply Hfail; [reflexivity | exact Hq1 | | |].
      + cbn [trace log]. rewrite Ht1, Ht0, <- app_assoc. reflexivity.
      + cbn [now log]. rewrite Hn1, Hn0, length_app. cbn [length]. lia.
      + apply transaction_rejected.
    - unfold usernameUpdate. destruct (rtdb w1 !! r) as [current|] eqn:Hcur.
      + cbn [committed]. unfold try_catch, throw.
        eapply Hfail; [reflexivity | exact Hq1 | | |].
        * cbn [trace log]. rewrite Ht1, Ht0, <- app_assoc. reflexivity.
        * cbn [now log]. rewrite Hn1, Hn0, length_app. cbn [length]. lia.
        * apply transaction_aborted.
      + assert (Hv : resolve (now w1)
                       [("created_at", if server_value w1 then JServerTimestamp else JNum (now w1))]
                     = [("created_at", JNum (now w1))])
          by (destruct (server_value w1); reflexivity).
        rewrite Hv. cbn [committed snapshot created_at_of]. unfold try_catch, bind, ret.
        eexists _, _, _. split; [reflexivity|]. split; [|split; [|split; [|split]]].
        * cbn [trace log set_rtdb]. rewrite Ht1, Ht0, <- app_assoc. reflexivity.
        * cbn [now log set_rtdb]. rewrite Hn1, Hn0, !length_app. cbn [length]. lia.
        * apply reservation_committed.
        * intros created Hc. inversion Hc; subst. exists (now w1). split; [reflexivity|].
          split; [cbn [rtdb log set_rtdb]; apply lookup_insert_eq|].
          apply last_snoc.
        * exact Hq1. }
  rewrite try_catch_bind.
  destruct (1 <? attempt)%nat eqn:Hretry.
  - (* a retry: re-read first *)
    unfold bind at 1, once.
    destruct (arrive w) as [[e|] w0] eqn:Ha;
      pose proof (arrive_trace _ _ _ Ha) as Ht0; pose proof (arrive_now _ _ _ Ha) as Hn0;
      assert (Hq0 : quiet w -> quiet w0)
        by (intros Hq; apply (arrive_quiet _ _ _ Hq Ha)).
    + eapply Hfail; [reflexivity | exact Hq0 | | |].
      * cbn [trace log]. rewrite Ht0. reflexivity.
      * cbn [now log length]. rewrite Hn0. lia.
      * apply reread_rejected. apply Nat.ltb_lt. exact Hretry.
    + destruct (rtdb w0 !! r) as [current|] eqn:Hcur; cbn [exists_].
      * unfold throw, handler. cbn [instanceof_HttpsError].
        eexists _, _, _. split; [reflexivity|]. split; [|split; [|split; [|split]]].
        -- cbn [trace log]. rewrite Ht0. reflexivity.
        -- cbn [now log length]. rewrite Hn0. lia.
        -- apply reservation_taken. apply Nat.ltb_lt. exact Hretry.
        -- intros created Hc. discriminate Hc.
        -- exact Hq0.
      * unfold ret. apply Htx.
        -- exact Hq0.
        -- cbn [trace log]. rewrite Ht0. unfold reread. rewrite Hretry. reflexivity.
        -- cbn [now log]. rewrite Hn0. unfold reread. rewrite Hretry. cbn [length]. lia.
  - unfold ret. apply Htx.
    + auto.
    + unfold reread. rewrite Hretry, app_nil_r. reflexivity.
    + unfold reread. rewrite Hretry. cbn [length]. lia.
Qed.

Lemma count_app {A} (p : A -> bool) l1 l2 :
  count p (l1 ++ l2) = (count p l1 + count p l2)%nat.
Proof.
  induction l1 as [|x l1 IH]; [reflexivity|]. simpl. rewrite IH.
  destruct (p x); reflexivity.
Qed.

Lemma failed_attempt_facts r attempt evs :
  failed_attempt r attempt evs ->
  (count is_transaction evs <= 1)%nat /\ count is_sleep evs = 0%nat /\
  existsb found_taken evs = false /\ existsb is_commit evs = false /\
  (fst r <> users -> count failed_user_transaction evs = 0%nat).
Proof.
  destruct r as [c id].
  intros [e Hlt | e | current]; unfold reread; destruct (1 <? attempt)%nat; cbn;
    repeat split; try lia; intros Hc; destruct c; try reflexivity; contradiction.
Qed.

Lemma reservation_facts r maxRetries attempt delta res :
  reservation r maxRetries attempt delta res ->
  (attempt <= maxRetries)%nat ->
  (count is_transaction delta <= maxRetries + 1 - attempt)%nat /\
  count is_sleep delta = 0%nat /\
  (existsb found_taken delta = true ->
   res = Throws already_taken /\
   exists current, last delta = Some (EvStore Rtdb Once r (Snapshot (Some current)))) /\
  (existsb found_taken delta = false -> existsb is_commit delta = false ->
   res = Throws something_is_wrong) /\
  (fst r <> users -> count failed_user_transaction delta = 0%nat).
Proof.
  induction 1 as [attempt t | attempt current Hlt | attempt evs Hmax Hev
                 | attempt evs rest res Hlt Hev Hrest IH]; intros Hle.
  - unfold reread. destruct r as [c id].
    destruct (1 <? attempt)%nat; cbn; repeat split; try lia; try discriminate;
      intros Hc; destruct c; try reflexivity; contradiction.
  - destruct r as [c id]. cbn. repeat split; try lia; try discriminate; eauto.
  - destruct (failed_attempt_facts _ _ _ Hev) as (Htx & Hsl & Htk & Hcm & Hus).
    split; [lia|]. split; [exact Hsl|]. split; [|split].
    + intros Hex. rewrite Htk in Hex. discriminate Hex.
    + reflexivity.
    + exact Hus.
  - destruct (failed_attempt_facts _ _ _ Hev) as (Htx & Hsl & Htk & Hcm & Hus).
    destruct IH as (Htx' & Hsl' & Htk' & Hcm' & Hus'); [lia|].
    rewrite !count_app, !existsb_app, Htk, Hcm, Hsl, Hsl'. cbn [orb].
    split; [lia|]. split; [reflexivity|]. split; [|split].
    + intros Hex. destruct (Htk' Hex) as (-> & current & Hlast). split; [reflexivity|].
      exists current. rewrite last_app, Hlast. reflexivity.
    + exact Hcm'.
    + intros Hc. rewrite (Hus Hc), (Hus' Hc). reflexivity.
Qed.

Lemma reservation_throws r maxRetries attempt delta res :
  reservation r maxRetries attempt delta res ->
  forall e, res = Throws e -> e = already_taken \/ e = something_is_wrong.
Proof.
  induction 1 as [attempt t | attempt current Hlt | attempt evs Hmax Hev
                 | attempt evs rest res Hlt Hev Hrest IH]; intros e He.
  - discriminate He.
  - left. congruence.
  - right. congruence.
  - apply IH, He.
Qed.

(** What the outer guard does with the errors of step 6. *)
Lemma registerUser_reservation_fails u userRecord username w w1 w2 e w3 :
  once (users, u) w = (Returns None, w1) ->
  once (usernames, username) w1 = (Returns None, w2) ->
  createUsername_from 3 (usernames, username) 1 3 w2 = (Throws e, w3) ->
  instanceof_HttpsError e = true ->
  guard (registerUser u userRecord username) w = (Throws e, w3).
Proof.
  intros H1 H2 H3 He. unfold guard, try_catch, registerUser, bind.
  rewrite H1. cbn [exists_]. rewrite H2. cbn [exists_]. rewrite H3, He. reflexivity.
Qed.



(** *** Step 7: creating the user, and the cleanup of step 8 *)

Lemma createUser_from_outcome fuel :
  forall u username t userRecord attempt maxRetries retryDelay w,
    (attempt + fuel = maxRetries + 1)%nat -> (1 <= fuel)%nat ->
    exists res delta w',
      createUser_from fuel (users, u) (usernames, username) (JNum t) username userRecord
                      attempt maxRetries retryDelay w = (res, w') /\
      trace w' = trace w ++ delta /\
      ((res = Returns true /\
        (count failed_user_transaction delta < fuel)%nat /\
        rtdb w' !! (users, u) = Some (user_doc t username userRecord) /\
        last delta = Some (user_commit u t username userRecord) /\
        (quiet w -> rtdb w' !! (usernames, username) = rtdb w !! (usernames, username)))
       \/
       (res = Throws something_is_Wrong /\
        exists pre a,
          delta = pre ++ [EvStore Rtdb Remove (usernames, username) a] /\
          count failed_user_transaction pre = fuel /\
          (a = Done -> rtdb w' !! (usernames, username) = None))).
Proof.
  induction fuel as [|fuel IH];
    intros u username t userRecord attempt maxRetries retryDelay w Hfuel Hpos; [lia|].
  cbn [createUser_from].
  replace (attempt <=? maxRetries)%nat with true by (symmetry; apply Nat.leb_le; lia).
  match goal with |- context [try_catch _ ?h] => set (handler := h) end.
  match goal with
  | |- context [bind (transaction (users, u) ?f) ?k] =>
      set (attemptTransaction := bind (transaction (users, u) f) k)
  end.
  set (goal := fun (run : result bool * World) =>
    exists res delta w',
      run = (res, w') /\
      trace w' = trace w ++ delta /\
      ((res = Returns true /\
        (count failed_user_transaction delta < S fuel)%nat /\
        rtdb w' !! (users, u) = Some (user_doc t username userRecord) /\
        last delta = Some (user_commit u t username userRecord) /\
        (quiet w -> rtdb w' !! (usernames, username) = rtdb w !! (usernames, username)))
       \/
       (res = Throws something_is_Wrong /\
        exists pre a,
          delta = pre ++ [EvStore Rtdb Remove (usernames, username) a] /\
          count failed_user_transaction pre = S fuel /\
          (a = Done -> rtdb w' !! (usernames, username) = None)))).
  (* what happens after an attempt that failed *)
  assert (Hfail : forall evs w0 e,
             trace w0 = trace w ++ evs ->
             count failed_user_transaction evs = 1%nat ->
             (quiet w -> quiet w0 /\ rtdb w0 = rtdb w) ->
             goal (handler e w0)).
  { intros evs w0 e Ht Hcount Hq. unfold handler, goal.
    destruct (attempt =? maxRetries)%nat eqn:Hmax.
    - apply Nat.eqb_eq in Hmax. assert (fuel = 0%nat) as -> by lia.
      unfold bind, cleanupUsername, try_catch, remove.
      destruct (arrive w0) as [[e'|] w1] eqn:Ha; pose proof (arrive_trace _ _ _ Ha) as Ht1.
      + eexists _, _, _. split; [reflexivity|]. split.
        * cbn [trace log]. rewrite Ht1, Ht, <- app_assoc. reflexivity.
        * right. split; [reflexivity|]. eexists evs, _. split; [reflexivity|].
          split; [exact Hcount|]. intros Hdone. discriminate Hdone.
      + eexists _, _, _. split; [reflexivity|]. split.
        * cbn [trace log set_rtdb]. rewrite Ht1, Ht, <- app_assoc. reflexivity.
        * right. split; [reflexivity|]. eexists evs, _. split; [reflexivity|].
          split; [exact Hcount|]. intros _. cbn [rtdb log set_rtdb]. apply lookup_delete_eq.
    - apply Nat.eqb_neq in Hmax.
      destruct (IH u username t userRecord (S attempt) maxRetries retryDelay w0)
        as (res & rest & w' & Hrun & Ht' & Hcases); [lia | lia |].
      exists res, (evs ++ rest), w'. split; [exact Hrun|]. split.
      + rewrite Ht', Ht, app_assoc. reflexivity.
      + destruct Hcases as [(-> & Hc & Hdoc & Hlast & Hkeep)
                           | (-> & pre & a & -> & Hc & Hgone)].
        * left. split; [reflexivity|]. rewrite count_app, Hcount. split; [lia|].
          split; [exact Hdoc|]. split; [rewrite last_app, Hlast; reflexivity|].
          intros Hqw. destruct (Hq Hqw) as [Hq0 Hdb]. rewrite (Hkeep Hq0), Hdb. reflexivity.
        * right. split; [reflexivity|]. exists (evs ++ pre), a.
          rewrite app_assoc, count_app, Hcount, Hc. auto. }
  (* the transaction, after the wait (if any) *)
  assert (Htx : forall evs w0,
             trace w0 = trace w ++ evs ->
             count failed_user_transaction evs = 0%nat ->
             (quiet w -> quiet w0 /\ rtdb w0 = rtdb w) ->
             goal (try_catch attemptTransaction handler w0)).
  { intros evs w0 Ht0 Hc0 Hq0. unfold attemptTransaction. rewrite try_catch_bind.
    unfold transaction.
    destruct (arrive w0) as [[e|] w1] eqn:Ha; pose proof (arrive_trace _ _ _ Ha) as Ht1;
      assert (Hq1 : quiet w -> quiet w1 /\ rtdb w1 = rtdb w)
        by (intros Hq; destruct (Hq0 Hq) as [Hq0' Hdb0];
            destruct (arrive_quiet _ _ _ Hq0' Ha) as (? & Hdb1 & _);
            split; [assumption | congruence]).
    - eapply Hfail.
      + cbn [trace log]. rewrite Ht1, Ht0, <- app_assoc. reflexivity.
      + rewrite count_app, Hc0. reflexivity.
      + exact Hq1.
    - unfold userUpdate. destruct (rtdb w1 !! (users, u)) as [current|] eqn:Hcur.
      + cbn [committed]. unfold try_catch, throw. eapply Hfail.
        * cbn [trace log]. rewrite Ht1, Ht0, <- app_assoc. reflexivity.
        * rewrite count_app, Hc0. reflexivity.
        * exact Hq1.
      + cbn [committed]. unfold try_catch, ret, goal.
        eexists _, _, _. split; [reflexivity|]. split.
        * cbn [trace log set_rtdb]. rewrite Ht1, Ht0, <- app_assoc. reflexivity.
        * left. split; [reflexivity|]. split; [|split; [|split]].
          -- rewrite count_app, Hc0. cbn. lia.
          -- cbn [rtdb log set_rtdb]. apply lookup_insert_eq.
          -- apply last_snoc.
          -- intros Hq. destruct (Hq1 Hq) as [_ Hdb]. cbn [rtdb log set_rtdb].
             rewrite lookup_insert_ne by discriminate. rewrite Hdb. reflexivity. }
  fold (goal (try_catch
                ((if (1 <? attempt)%nat then sleep retryDelay else ret tt) ;; attemptTransaction)
                handler w)).
  rewrite try_catch_bind.
  destruct (1 <? attempt)%nat.
  - unfold sleep. eapply (Htx [EvSleep retryDelay]).
    + reflexivity.
    + reflexivity.
    + intros Hq. split; [exact Hq | reflexivity].
  - unfold ret. eapply (Htx []).
    + rewrite app_nil_r. reflexivity.
    + reflexivity.
    + intros Hq. split; [exact Hq | reflexivity].
Qed.

(** *** The whole registration *)

Lemma once_outcome r w :
  exists a w1,
    trace w1 = trace w ++ [EvStore Rtdb Once r a] /\
    (quiet w -> quiet w1 /\ rtdb w1 = rtdb w) /\
    ((exists e, a = Rejected e /\ once r w = (Throws (Error e), w1)) \/
     (exists v, a = Snapshot v /\ once r w = (Returns v, w1))).
Proof.
  unfold once. destruct (arrive w) as [[e|] w0] eqn:Ha; pose proof (arrive_trace _ _ _ Ha) as Ht.
  - exists (Rejected e), (log (EvStore Rtdb Once r (Rejected e)) w0).
    split; [cbn [trace log]; rewrite Ht; reflexivity|].
    split; [intros Hq; destruct (arrive_quiet _ _ _ Hq Ha) as (? & ? & _); split; assumption|].
    left. eauto.
  - exists (Snapshot (rtdb w0 !! r)), (log (EvStore Rtdb Once r (Snapshot (rtdb w0 !! r))) w0).
    split; [cbn [trace log]; rewrite Ht; reflexivity|].
    split; [intros Hq; destruct (arrive_quiet _ _ _ Hq Ha) as (? & ? & _); split; assumption|].
    right. eauto.
Qed.

Lemma registerUser_outcome u userRecord username w :
  exists res delta w',
    guard (registerUser u userRecord username) w = (res, w') /\
    trace w' = trace w ++ delta /\
    ((res = Returns (registered username u) /\
      (count failed_user_transaction delta < 3)%nat /\
      exists t,
        In (reservation_commit (usernames, username) t) delta /\
        last delta = Some (user_commit u t username userRecord) /\
        rtdb w' !! (users, u) = Some (user_doc t username userRecord) /\
        (quiet w -> rtdb w' !! (usernames, username) = Some [("created_at", JNum t)]))
     \/
     (res = Throws something_is_Wrong /\
      count failed_user_transaction delta = 3%nat /\
      exists pre a,
        delta = pre ++ [EvStore Rtdb Remove (usernames, username) a] /\
        (a = Done -> rtdb w' !! (usernames, username) = None))
     \/
     (exists e, res = Throws e /\ e <> something_is_Wrong /\
                count failed_user_transaction delta = 0%nat)).
Proof.
  unfold guard, registerUser. rewrite try_catch_bind.
  destruct (once_outcome (users, u) w) as (a1 & w1 & Ht1 & Hq1 & [(e & -> & ->) | (v & -> & ->)]).
  { (* the read of the user is rejected *)
    cbn [instanceof_HttpsError]. unfold throw. eexists _, _, _. split; [reflexivity|].
    split; [exact Ht1|]. right. right. eexists. repeat split. discriminate. }
  destruct v as [existing|]; cbn [exists_].
  { unfold try_catch, throw. cbn [instanceof_HttpsError]. eexists _, _, _.
    split; [reflexivity|]. split; [exact Ht1|]. right. right. eexists. repeat split.
    discriminate. }
  rewrite try_catch_bind.
  destruct (once_outcome (usernames, username) w1)
    as (a2 & w2 & Ht2 & Hq2 & [(e & -> & ->) | (v & -> & ->)]).
  { cbn [instanceof_HttpsError]. unfold throw. eexists _, _, _. split; [reflexivity|].
    split; [rewrite Ht2, Ht1, <- app_assoc; reflexivity|].
    right. right. eexists. repeat split. discriminate. }
  destruct v as [existing|]; cbn [exists_].
  { unfold try_catch, throw. cbn [instanceof_HttpsError]. eexists _, _, _.
    split; [reflexivity|]. split; [rewrite Ht2, Ht1, <- app_assoc; reflexivity|].
    right. right. eexists. repeat split. discriminate. }
  rewrite try_catch_bind.
  destruct (createUsername_from_reservation 3 (usernames, username) 1 3 w2 eq_refl
              (le_S _ _ (le_S _ _ (le_n 1))))
    as (res6 & delta6 & w3 & Hrun6 & Ht3 & _ & Hres & Hcommit & Hq3).
  rewrite Hrun6.
  destruct (reservation_facts _ _ _ _ _ Hres) as (_ & _ & _ & _ & Hnone); [lia|].
  specialize (Hnone ltac:(discriminate)).
  destruct res6 as [created|e].
  2:{ (* step 6 throws *)
      destruct (reservation_throws _ _ _ _ _ Hres e eq_refl) as [-> | ->];
        cbn [instanceof_HttpsError already_taken something_is_wrong]; unfold throw;
        eexists _, _, _; (split; [reflexivity|]);
        (split; [rewrite Ht3, Ht2, Ht1, <- !app_assoc; reflexivity|]);
        right; right; eexists; (split; [reflexivity|]); (split; [discriminate|]);
        rewrite !count_app, Hnone; reflexivity. }
  destruct (Hcommit created eq_refl) as (t & -> & Hdb3 & Hlast3).
  rewrite try_catch_bind.
  destruct (createUser_from_outcome 3 u username t userRecord 1 3 500 w3 eq_refl
              (le_S _ _ (le_S _ _ (le_n 1))))
    as (res7 & delta7 & w4 & Hrun7 & Ht4 & Hcases).
  rewrite Hrun7.
  assert (Htrace : trace w4
                   = trace w ++ [EvStore Rtdb Once (users, u) (Snapshot None);
                                 EvStore Rtdb Once (usernames, username) (Snapshot None)]
                              ++ delta6 ++ delta7)
    by (rewrite Ht4, Ht3, Ht2, Ht1, <- !app_assoc; reflexivity).
  destruct Hcases as [(-> & Hc & Hdoc & Hlast & Hkeep) | (-> & pre & a & -> & Hc & Hgone)].
  - cbn [negb]. unfold try_catch, ret. eexists _, _, _. split; [reflexivity|].
    split; [exact Htrace|]. left. split; [reflexivity|]. split.
    + rewrite !count_app, Hnone. exact Hc.
    + exists t. split; [|split; [|split]].
      * apply last_Some in Hlast3 as (l' & ->).
        apply in_or_app. right. apply in_or_app. left. apply in_or_app. right.
        left. reflexivity.
      * rewrite !last_app, Hlast. reflexivity.
      * exact Hdoc.
      * intros Hq. destruct (Hq1 Hq) as [Hqw1 _]. destruct (Hq2 Hqw1) as [Hqw2 _].
        rewrite (Hkeep (Hq3 Hqw2)). exact Hdb3.
  - cbn [instanceof_HttpsError something_is_Wrong]. unfold throw.
    eexists _, _, _. split; [reflexivity|]. split; [exact Htrace|].
    right. left. split; [reflexivity|]. split.
    + rewrite !count_app, Hnone, Hc. reflexivity.
    + eexists _, a. split; [|exact Hgone].
      rewrite !app_assoc. reflexivity.
Qed.

(** ** Registration over Firestore *)

Lemma createBoth_from_creation fuel :
  forall u username userRecord attempt maxRetries ms w,
    (attempt + fuel = maxRetries + 1)%nat -> (1 <= fuel)%nat ->
    exists res delta w',
      createBoth_from fuel (users, u) (usernames, username) u username userRecord
                      attempt maxRetries ms w = (res, w') /\
      trace w' = trace w ++ delta /\
      creation u username userRecord maxRetries ms attempt delta res /\
      (forall created, res = Returns created ->
         created = true /\
         exists t,
           last delta = Some (EvRunTransaction (Returns (both_docs u username userRecord t))) /\
           firestore w' !! (usernames, username) = Some (username_doc u t) /\
           firestore w' !! (users, u) = Some (user_doc t username userRecord)).
Proof.
  induction fuel as [|fuel IH];
    intros u username userRecord attempt maxRetries ms w Hfuel Hpos; [lia|].
  cbn [createBoth_from].
  replace (attempt <=? maxRetries)%nat with true by (symmetry; apply Nat.leb_le; lia).
  match goal with |- context [try_catch _ ?h] => set (handler := h) end.
  match goal with
  | |- context [bind getServerTimestamp ?k] => set (attemptBoth := bind getServerTimestamp k)
  end.
  set (goal := fun (run : result bool * World) =>
    exists res delta w',
      run = (res, w') /\
      trace w' = trace w ++ delta /\
      creation u username userRecord maxRetries ms attempt delta res /\
      (forall created, res = Returns created ->
         created = true /\
         exists t,
           last delta = Some (EvRunTransaction (Returns (both_docs u username userRecord t))) /\
           firestore w' !! (usernames, username) = Some (username_doc u t) /\
           firestore w' !! (users, u) = Some (user_doc t username userRecord))).
  assert (Hfail : forall evs w0 e,
             instanceof_HttpsError e = false ->
             trace w0 = trace w ++ evs ->
             failed_transaction attempt ms evs ->
             goal (handler e w0)).
  { intros evs w0 e He Ht Hev. unfold handler, goal. rewrite He.
    destruct (attempt =? maxRetries)%nat eqn:Hmax.
    - apply Nat.eqb_eq in Hmax. exists (Throws something_is_wrong), evs, w0.
      split; [reflexivity|]. split; [exact Ht|]. split.
      + apply creation_exhausted; auto.
      + intros created Hc. discriminate Hc.
    - apply Nat.eqb_neq in Hmax.
      destruct (IH u username userRecord (S attempt) maxRetries ms w0)
        as (res & rest & w' & Hrun & Ht' & Hres & Hcommit); [lia | lia |].
      exists res, (evs ++ rest), w'. split; [exact Hrun|]. split; [|split].
      + rewrite Ht', Ht, app_assoc. reflexivity.
      + apply creation_retry; auto. lia.
      + intros created Hc. destruct (Hcommit created Hc) as (-> & t & Hlast & Hdocs).
        split; [reflexivity|]. exists t. split; [|exact Hdocs].
        rewrite last_app, Hlast. reflexivity. }
  assert (Hboth : forall w0,
             trace w0 = trace w ++ wait attempt ms ->
             goal (try_catch attemptBoth handler w0)).
  { intros w0 Ht0. unfold attemptBoth. rewrite try_catch_bind. unfold getServerTimestamp.
    destruct (field_value w0).
    2:{ eapply Hfail; [reflexivity | exact Ht0 | apply timestamp_unavailable]. }
    rewrite try_catch_bind. unfold runTransaction.
    destruct (arrive w0) as [[e|] w1] eqn:Ha; pose proof (arrive_trace _ _ _ Ha) as Ht1.
    { eapply Hfail; [reflexivity | | apply transaction_failed].
      cbn [trace log]. rewrite Ht1, Ht0, <- app_assoc. reflexivity. }
    unfold createBoth, tbind, tx_get.
    destruct (firestore w1 !! (users, u)) as [existing|] eqn:Hu; cbn [exists_].
    { unfold tthrow, new_Error. eapply Hfail; [reflexivity | | apply transaction_failed].
      cbn [trace log]. rewrite Ht1, Ht0, <- app_assoc. reflexivity. }
    destruct (firestore w1 !! (usernames, username)) as [existing|] eqn:Hn; cbn [exists_].
    { unfold tthrow, handler, goal. cbn [instanceof_HttpsError].
      eexists _, _, _. split; [reflexivity|]. split; [|split].
      - cbn [trace log]. rewrite Ht1, Ht0, <- app_assoc. reflexivity.
      - apply creation_taken.
      - intros created Hc. discriminate Hc. }
    unfold tx_set, tret. cbn [app map fst snd resolve resolve_val].
    unfold try_catch, ret, goal.
    eexists _, _, _. split; [reflexivity|]. split; [|split].
    - cbn [trace log set_firestore]. rewrite Ht1, Ht0, <- app_assoc. reflexivity.
    - apply (creation_committed _ _ _ _ _ _ (now w1)).
    - intros created Hc. inversion Hc; subst. split; [reflexivity|]. exists (now w1).
      split; [apply last_snoc|]. cbn [firestore log set_firestore].
      change (apply_writes (now w1) _ (firestore w1))
        with (<[(users, u) := user_doc (now w1) username userRecord]>
                (<[(usernames, username) := username_doc u (now w1)]> (firestore w1))).
      split.
      + rewrite lookup_insert_ne by discriminate. apply lookup_insert_eq.
      + apply lookup_insert_eq. }
  fold (goal (try_catch ((if (1 <? attempt)%nat then sleep ms else ret tt) ;; attemptBoth)
                handler w)).
  rewrite try_catch_bind. unfold wait in Hboth.
  destruct (1 <? attempt)%nat.
  - unfold sleep. apply Hboth. reflexivity.
  - unfold ret. apply Hboth. rewrite app_nil_r. reflexivity.
Qed.

Lemma sleeps_are_app ms l1 l2 : sleeps_are ms l1 -> sleeps_are ms l2 -> sleeps_are ms (l1 ++ l2).
Proof. intros H1 H2 ev Hin. apply in_app_or in Hin as [Hin | Hin]; auto. Qed.

Lemma sleeps_are_wait attempt ms : sleeps_are ms (wait attempt ms).
Proof.
  unfold wait. destruct (1 <? attempt)%nat; intros ev Hin _.
  - destruct Hin as [<- | []]. reflexivity.
  - destruct Hin.
Qed.

Lemma sleeps_are_other ms ev : is_sleep ev = false -> sleeps_are ms [ev].
Proof. intros H ev' [<- | []] H'. congruence. Qed.

Lemma wait_facts attempt ms :
  count is_run_transaction (wait attempt ms) = 0%nat /\
  (count is_sleep (wait attempt ms) <= 1)%nat /\
  existsb transaction_taken (wait attempt ms) = false /\
  existsb transaction_committed (wait attempt ms) = false.
Proof. unfold wait. destruct (1 <? attempt)%nat; cbn; repeat split; lia. Qed.

Lemma failed_transaction_facts attempt ms evs :
  failed_transaction attempt ms evs ->
  (count is_run_transaction evs <= 1)%nat /\ (count is_sleep evs <= 1)%nat /\
  sleeps_are ms evs /\
  existsb transaction_taken evs = false /\ existsb transaction_committed evs = false.
Proof.
  destruct (wait_facts attempt ms) as (Hr & Hs & Ht & Hc).
  intros [|e].
  - rewrite Hr, Ht, Hc. repeat split; try lia. apply sleeps_are_wait.
  - rewrite !count_app, !existsb_app, Hr, Ht, Hc. cbn. repeat split; try lia.
    apply sleeps_are_app; [apply sleeps_are_wait | apply sleeps_are_other; reflexivity].
Qed.

Lemma creation_facts u username userRecord maxRetries ms attempt delta res :
  creation u username userRecord maxRetries ms attempt delta res ->
  (attempt <= maxRetries)%nat ->
  (count is_run_transaction delta <= maxRetries + 1 - attempt)%nat /\
  (count is_sleep delta <= maxRetries + 1 - attempt)%nat /\
  sleeps_are ms delta /\
  (existsb transaction_taken delta = true ->
   res = Throws (taken_in_transaction username) /\
   last delta = Some (EvRunTransaction (Throws (taken_in_transaction username)))) /\
  (existsb transaction_taken delta = false -> existsb transaction_committed delta = false ->
   res = Throws something_is_wrong) /\
  (forall e, res = Throws e -> instanceof_HttpsError e = true).
Proof.
  induction 1 as [attempt t | attempt | attempt evs Hmax Hev
                 | attempt evs rest res Hlt Hev Hrest IH]; intros Hle.
  - destruct (wait_facts attempt ms) as (Hr & Hs & Ht & Hc).
    rewrite !count_app, !existsb_app, Hr, Ht, Hc. cbn.
    split; [lia|]. split; [lia|]. split; [|split; [|split]]; try discriminate.
    apply sleeps_are_app; [apply sleeps_are_wait | apply sleeps_are_other; reflexivity].
  - destruct (wait_facts attempt ms) as (Hr & Hs & Ht & Hc).
    rewrite !count_app, !existsb_app, Hr, Ht, Hc. cbn.
    split; [lia|]. split; [lia|]. split; [|split; [|split]]; try discriminate.
    + apply sleeps_are_app; [apply sleeps_are_wait | apply sleeps_are_other; reflexivity].
    + intros _. split; [reflexivity | apply last_snoc].
    + intros e He. inversion He. reflexivity.
  - destruct (failed_transaction_facts _ _ _ Hev) as (Hr & Hs & Hms & Ht & Hc).
    split; [lia|]. split; [lia|]. split; [exact Hms|]. split; [|split].
    + intros Hex. rewrite Ht in Hex. discriminate Hex.
    + reflexivity.
    + intros e He. inversion He. reflexivity.
  - destruct (failed_transaction_facts _ _ _ Hev) as (Hr & Hs & Hms & Ht & Hc).
    destruct IH as (Hr' & Hs' & Hms' & Ht' & Hc' & Hhttps); [lia|].
    rewrite !count_app, !existsb_app, Ht, Hc. cbn [orb].
    split; [lia|]. split; [lia|]. split; [apply sleeps_are_app; assumption|].
    split; [|split; [exact Hc' | exact Hhttps]].
    intros Hex. destruct (Ht' Hex) as [-> Hlast]. split; [reflexivity|].
    rewrite last_app, Hlast. reflexivity.
Qed.

Lemma registerUserDoc_creation_fails u userRecord username w w1 e w2 :
  get (users, u) w = (Returns None, w1) ->
  createBoth_from 3 (users, u) (usernames, username) u username userRecord 1 3 500 w1
  = (Throws e, w2) ->
  instanceof_HttpsError e = true ->
  guard (registerUserDoc u userRecord username) w = (Throws e, w2).
Proof.
  intros H1 H2 He. unfold guard, try_catch, registerUserDoc, bind.
  rewrite H1. cbn [exists_]. rewrite H2, He. reflexivity.
Qed.

(** *** The time the loop takes *)

Lemma on_the_clock_refl ms w : on_the_clock ms w w.
Proof. exists []. rewrite app_nil_r. cbn. split; [reflexivity | lia]. Qed.

Lemma on_the_clock_trans ms w1 w2 w3 :
  on_the_clock ms w1 w2 -> on_the_clock ms w2 w3 -> on_the_clock ms w1 w3.
Proof.
  intros (d1 & Ht1 & Hn1) (d2 & Ht2 & Hn2). exists (d1 ++ d2). split.
  - rewrite Ht2, Ht1, app_assoc. reflexivity.
  - rewrite Hn2, Hn1, !count_app. lia.
Qed.

Lemma sleep_on_the_clock ms w res w1 : sleep ms w = (res, w1) -> on_the_clock ms w w1.
Proof.
  unfold sleep. intros H. inversion H; subst. exists [EvSleep ms].
  cbn. split; [reflexivity | lia].
Qed.

Lemma runTransaction_on_the_clock ms body w res w1 :
  runTransaction body w = (res, w1) -> on_the_clock ms w w1.
Proof.
  unfold runTransaction. destruct (arrive w) as [[e|] w0] eqn:Ha;
    pose proof (arrive_trace _ _ _ Ha) as Ht; pose proof (arrive_now _ _ _ Ha) as Hn;
    intros H.
  - inversion H; subst. eexists [_]. cbn [trace now log]. rewrite Ht, Hn.
    split; [reflexivity | cbn; lia].
  - destruct (body (firestore w0) []) as [[[]|e] ws]; inversion H; subst; eexists [_];
      cbn [trace now log set_firestore]; rewrite Ht, Hn; (split; [reflexivity | cbn; lia]).
Qed.

Lemma createBoth_from_on_the_clock fuel :
  forall userRef usernameRef uid username userRecord attempt maxRetries ms w res w',
    createBoth_from fuel userRef usernameRef uid username userRecord attempt maxRetries ms w
    = (res, w') ->
    on_the_clock ms w w'.
Proof.
  induction fuel as [|fuel IH];
    intros userRef usernameRef uid username userRecord attempt maxRetries ms w res w' Hrun;
    cbn [createBoth_from] in Hrun.
  - inversion Hrun; subst. apply on_the_clock_refl.
  - destruct (attempt <=? maxRetries)%nat; [|inversion Hrun; subst; apply on_the_clock_refl].
    assert (Hbody : forall r0 w1,
               ((if (1 <? attempt)%nat then sleep ms else ret tt) ;;
                let* timestamp := getServerTimestamp in
                runTransaction
                  (createBoth userRef usernameRef uid username userRecord timestamp) ;;
                ret true) w = (r0, w1) -> on_the_clock ms w w1).
    { intros r0 w1 H.
      apply bind_inv in H as [([] & w0 & Hwait & H) | (e & Hwait & _)].
      2:{ destruct (1 <? attempt)%nat; discriminate Hwait. }
      assert (Hw0 : on_the_clock ms w w0).
      { destruct (1 <? attempt)%nat;
          [apply (sleep_on_the_clock _ _ _ _ Hwait)
          | inversion Hwait; subst; apply on_the_clock_refl]. }
      apply (on_the_clock_trans _ _ _ _ Hw0).
      apply bind_inv in H as [(ts & w2 & Hts & H) | (e & Hts & _)].
      2:{ unfold getServerTimestamp in Hts.
          destruct (field_value w0); inversion Hts; subst. apply on_the_clock_refl. }
      unfold getServerTimestamp in Hts.
      destruct (field_value w0); inversion Hts; subst ts w2.
      apply bind_inv in H as [([] & w3 & Htx & H) | (e & Htx & _)].
      - inversion H; subst. apply (runTransaction_on_the_clock _ _ _ _ _ Htx).
      - apply (runTransaction_on_the_clock _ _ _ _ _ Htx). }
    apply try_catch_inv in Hrun as [(a & Hrun & _) | (e & w1 & Hrun & Hhandler)].
    + apply (Hbody _ _ Hrun).
    + apply (on_the_clock_trans _ _ _ _ (Hbody _ _ Hrun)).
      destruct (instanceof_HttpsError e);
        [inversion Hhandler; subst; apply on_the_clock_refl|].
      destruct (attempt =? maxRetries)%nat;
        [inversion Hhandler; subst; apply on_the_clock_refl|].
      apply (IH _ _ _ _ _ _ _ _ _ _ _ Hhandler).
Qed.

(** C6, as the code has it. The loop of step 6 of the Firestore version, as
    [createNewUserHandler] runs it (three attempts from the first). Whatever
    the world does, its run is a [creation]: each attempt after the first
    opens with a sleep of 500 ms; a transaction whose body throws the
    'already-exists' error ("username <name> already taken") ends the run at
    once with that error; a transaction that commits ends it with [true]; an
    attempt that fails otherwise is followed by the next one, and the third
    such failure ends the run with 'internal' ("Something is wrong"). So
    there are at most three transactions, every sleep is one of 500 ms, and
    [createNewUserHandler] throws the loop's error as it is. The sleeps take
    their time: the clock advances by one unit per transaction and by 500 ms
    per sleep. *)
Theorem transaction_retries_with_delay :
  forall (u username : string) (userRecord : UserRecord) (w : World)
         (res : result bool) (w' : World),
    createBoth_from 3 (users, u) (usernames, username) u username userRecord 1 3 500 w
    = (res, w') ->
    exists delta,
      trace w' = trace w ++ delta /\
      creation u username userRecord 3 500 1 delta res /\
      (count is_run_transaction delta <= 3)%nat /\
      sleeps_are 500 delta /\
      (existsb transaction_taken delta = true ->
       res = Throws (taken_in_transaction username) /\
       last delta = Some (EvRunTransaction (Throws (taken_in_transaction username)))) /\
      (existsb transaction_taken delta = false ->
       existsb transaction_committed delta = false ->
       res = Throws something_is_wrong) /\
      (forall e w0,
          res = Throws e ->
          get (users, u) w0 = (Returns None, w) ->
          guard (registerUserDoc u userRecord username) w0 = (Throws e, w')) /\
      now w' = now w + Z.of_nat (count is_run_transaction delta)
               + 500 * Z.of_nat (count is_sleep delta).
Proof.
  intros u username userRecord w res w' Hrun.
  destruct (createBoth_from_creation 3 u username userRecord 1 3 500 w eq_refl
              (le_S _ _ (le_S _ _ (le_n 1))))
    as (res0 & delta & w0 & Hrun0 & Ht & Hres & _).
  rewrite Hrun in Hrun0. inversion Hrun0; subst res0 w0. clear Hrun0.
  destruct (creation_facts _ _ _ _ _ _ _ _ Hres) as (Hr & _ & Hms & Htk & Hex & Hhttps); [lia|].
  exists delta. split; [exact Ht|]. split; [exact Hres|]. split; [exact Hr|].
  split; [exact Hms|]. split; [exact Htk|]. split; [exact Hex|]. split.
  - intros e w0 -> Hget.
    apply (registerUserDoc_creation_fails _ _ _ _ _ _ _ Hget Hrun). apply Hhttps. reflexivity.
  - destruct (createBoth_from_on_the_clock _ _ _ _ _ _ _ _ _ _ _ _ Hrun) as (delta' & Ht' & Hn).
    rewrite Ht in Ht'. apply app_inv_head in Ht'. subst delta'. exact Hn.
Qed.

Lemma transaction_retries_with_delay_witness :
  exists res w' delta,
    createBoth_from 3 (users, "uid-a") (usernames, "testuser123") "uid-a" "testuser123"
                    alice 1 3 500 (world0 [rejected "aborted" "too much contention"])
    = (res, w') /\
    trace w' = [] ++ delta /\
    creation "uid-a" "testuser123" alice 3 500 1 delta res.
Proof.
  eexists _, _.
  assert (Hrun : createBoth_from 3 (users, "uid-a") (usernames, "testuser123") "uid-a"
                   "testuser123" alice 1 3 500
                   (world0 [rejected "aborted" "too much contention"])
                 = (Returns true,
                    snd (createBoth_from 3 (users, "uid-a") (usernames, "testuser123") "uid-a"
                           "testuser123" alice 1 3 500
                           (world0 [rejected "aborted" "too much contention"]))))
    by (vm_compute; reflexivity).
  destruct (transaction_retries_with_delay _ _ _ _ _ _ Hrun) as (delta & Ht & Hres & _).
  exists delta. split; [exact Hrun|]. split; [exact Ht | exact Hres].
Defined.

(** Retries are not immediate: between the two attempts of this run the
    handler sleeps for 500 ms. *)
Lemma no_delay_counterexample :
  fst (createNewUserHandler (input "testuser123") (caller "uid-a") contention_world)
  = Returns success_response /\
  trace (snd (createNewUserHandler (input "testuser123") (caller "uid-a") contention_world))
  = [EvGetUser "uid-a";
     EvStore Firestore Get (users, "uid-a") (Snapshot None);
     EvRunTransaction (Throws (Error (mkError (Some "aborted") (Some "too much contention"))));
     EvSleep 500;
     EvRunTransaction (Returns (both_docs "uid-a" "testuser123" alice 1503))] /\
  count is_sleep
    (trace (snd (createNewUserHandler (input "testuser123") (caller "uid-a") contention_world)))
  <> 0%nat.
Proof. vm_compute. repeat split. discriminate. Qed.

(** ** The response of a successful registration *)

Lemma guard_of_returns {A} (m : M A) w a w' :
  m w = (Returns a, w') -> guard m w = (Returns a, w').
Proof. intros H. unfold guard, try_catch. rewrite H. reflexivity. Qed.

Lemma registerUser_returns u userRecord username w response w' :
  registerUser u userRecord username w = (Returns response, w') ->
  response = registered username u /\
  exists delta t,
    trace w' = trace w ++ delta /\
    In (reservation_commit (usernames, username) t) delta /\
    last delta = Some (user_commit u t username userRecord) /\
    rtdb w' !! (users, u) = Some (user_doc t username userRecord) /\
    (quiet w -> rtdb w' !! (usernames, username) = Some [("created_at", JNum t)]).
Proof.
  intros Hrun. apply guard_of_returns in Hrun.
  destruct (registerUser_outcome u userRecord username w)
    as (res & delta & w0 & Hrun0 & Ht & Hcases).
  rewrite Hrun in Hrun0. inversion Hrun0; subst res w0. clear Hrun0.
  destruct Hcases as [(Hres & _ & t & Hin & Hlast & Hdoc & Hq)
                     | [(Hres & _) | (e & Hres & _)]]; try discriminate Hres.
  inversion Hres; subst response. split; [reflexivity|]. exists delta, t. auto.
Qed.

Lemma registerUserDoc_returns u userRecord username w response w' :
  registerUserDoc u userRecord username w = (Returns response, w') ->
  response = success_response /\
  exists t,
    firestore w' !! (usernames, username) = Some (username_doc u t) /\
    firestore w' !! (users, u) = Some (user_doc t username userRecord).
Proof.
  intros Hrun. unfold registerUserDoc in Hrun.
  apply bind_returns in Hrun as (userDoc & w1 & Hget & Hrun).
  destruct (exists_ userDoc); [absurd_run Hrun|].
  apply bind_returns in Hrun as (userCreated & w2 & Hloop & Hrun).
  destruct (createBoth_from_creation 3 u username userRecord 1 3 500 w1 eq_refl
              (le_S _ _ (le_S _ _ (le_n 1))))
    as (res0 & delta & w0 & Hrun0 & _ & _ & Hcommit).
  rewrite Hloop in Hrun0. inversion Hrun0; subst res0 w0. clear Hrun0.
  destruct (Hcommit userCreated eq_refl) as (-> & t & _ & Hdocs).
  cbn [negb] in Hrun. inversion Hrun; subst. split; [reflexivity|]. exists t. exact Hdocs.
Qed.

(** C7, as the code has it. A successful call of the Realtime Database
    version returns [{success: true, username, uid}] with the trimmed
    username and the caller ID; a successful call of the Firestore version
    returns [{success: true}] and nothing else. *)
Theorem success_responses :
  forall (data : option jsobj) (context : Context) (w : World) (response : jsobj) (w' : World),
    (createNewUser data context w = (Returns response, w') ->
     exists u userRecord username,
       valid_request data context w u userRecord username /\
       response = [("success", JBool true); ("username", JStr username); ("uid", JStr u)]) /\
    (createNewUserHandler data context w = (Returns response, w') ->
     response = [("success", JBool true)]).
Proof.
  intros data context w response w'. split; intros Hrun.
  - apply createNewUser_returns in Hrun as (u & userRecord & username & Hvalid & Hrun).
    apply registerUser_returns in Hrun as [-> _]. exists u, userRecord, username. auto.
  - apply createNewUserHandler_returns in Hrun as (u & userRecord & username & _ & _ & Hrun).
    apply registerUserDoc_returns in Hrun as [-> _]. reflexivity.
Qed.

Lemma success_responses_witness :
  createNewUser (input " testuser123 ") (caller "uid-a") (world0 [])
  = (Returns (registered "testuser123" "uid-a"),
     snd (createNewUser (input " testuser123 ") (caller "uid-a") (world0 []))) /\
  exists u userRecord username,
    valid_request (input " testuser123 ") (caller "uid-a") (world0 []) u userRecord username /\
    registered "testuser123" "uid-a"
    = [("success", JBool true); ("username", JStr username); ("uid", JStr u)].
Proof.
  assert (Hrun : createNewUser (input " testuser123 ") (caller "uid-a") (world0 [])
                 = (Returns (registered "testuser123" "uid-a"),
                    snd (createNewUser (input " testuser123 ") (caller "uid-a") (world0 []))))
    by (vm_compute; reflexivity).
  split; [exact Hrun |].
  apply (proj1 (success_responses _ _ _ _ _) Hrun).
Defined.

(** The response of the Firestore version carries no username and no uid. *)
Lemma response_without_username :
  fst (createNewUserHandler (input "testuser123") (caller "uid-a") (world0 []))
  = Returns [("success", JBool true)] /\
  prop "username" [("success", JBool true)] = JUndefined /\
  [("success", JBool true)]
  <> [("success", JBool true); ("username", JStr "testuser123"); ("uid", JStr "uid-a")].
Proof. split; [vm_compute; reflexivity|]. split; [reflexivity | discriminate]. Qed.

(** ** Timestamp agreement *)

(** C2. After a successful call the two records carry the same [created_at].
    In the Realtime Database version the value [t] that the committed
    username transaction returned in its snapshot is the one written into
    the user record (the user transaction, last call of the run, commits
    [{created_at: t, username, email_address}]); the reservation still holds
    [{created_at: t}] at the end when no other client wrote meanwhile. In the
    Firestore version both documents are stored by the one transaction with
    its commit time. *)
Theorem timestamp_agreement :
  forall (data : option jsobj) (context : Context) (w : World) (response : jsobj) (w' : World),
    (createNewUser data context w = (Returns response, w') ->
     exists u userRecord username t delta,
       valid_request data context w u userRecord username /\
       trace w' = trace w ++ delta /\
       In (EvStore Rtdb Transaction (usernames, username)
             (Transacted true (Some [("created_at", JNum t)]))) delta /\
       last delta = Some (EvStore Rtdb Transaction (users, u)
                            (Transacted true (Some (user_doc t username userRecord)))) /\
       rtdb w' !! (users, u) = Some (user_doc t username userRecord) /\
       prop "created_at" (user_doc t username userRecord)
       = prop "created_at" [("created_at", JNum t)] /\
       (quiet w -> rtdb w' !! (usernames, username) = Some [("created_at", JNum t)])) /\
    (createNewUserHandler data context w = (Returns response, w') ->
     exists u userRecord username t,
       valid_request data context w u userRecord username /\
       firestore w' !! (usernames, username) = Some (username_doc u t) /\
       firestore w' !! (users, u) = Some (user_doc t username userRecord) /\
       prop "created_at" (username_doc u t)
       = prop "created_at" (user_doc t username userRecord)).
Proof.
  intros data context w response w'. split; intros Hrun.
  - apply createNewUser_returns in Hrun as (u & userRecord & username & Hvalid & Hrun).
    apply registerUser_returns in Hrun
      as (_ & delta & t & Ht & Hin & Hlast & Hdoc & Hq).
    exists u, userRecord, username, t, (EvGetUser u :: delta).
    split; [exact Hvalid|]. split; [|split; [|split; [|split; [|split]]]].
    + rewrite Ht. cbn [trace log]. rewrite <- app_assoc. reflexivity.
    + right. exact Hin.
    + change (EvGetUser u :: delta) with ([EvGetUser u] ++ delta).
      rewrite last_app. unfold user_commit in Hlast. rewrite Hlast. reflexivity.
    + exact Hdoc.
    + reflexivity.
    + exact Hq.
  - apply createNewUserHandler_returns in Hrun as (u & userRecord & username & _ & Hvalid & Hrun).
    apply registerUserDoc_returns in Hrun as (_ & t & Hname & Huser).
    exists u, userRecord, username, t. repeat split; auto; apply Hvalid.
Qed.

Lemma timestamp_agreement_witness :
  createNewUser (input "testuser123") (caller "uid-a") (world0 [])
  = (Returns (registered "testuser123" "uid-a"),
     snd (createNewUser (input "testuser123") (caller "uid-a") (world0 []))) /\
  exists u userRecord username t delta,
    valid_request (input "testuser123") (caller "uid-a") (world0 []) u userRecord username /\
    trace (snd (createNewUser (input "testuser123") (caller "uid-a") (world0 [])))
    = trace (world0 []) ++ delta /\
    In (EvStore Rtdb Transaction (usernames, username)
          (Transacted true (Some [("created_at", JNum t)]))) delta.
Proof.
  assert (Hrun : createNewUser (input "testuser123") (caller "uid-a") (world0 [])
                 = (Returns (registered "testuser123" "uid-a"),
                    snd (createNewUser (input "testuser123") (caller "uid-a") (world0 []))))
    by (vm_compute; reflexivity).
  split; [exact Hrun |].
  destruct (proj1 (timestamp_agreement _ _ _ _ _) Hrun)
    as (u & userRecord & username & t & delta & Hvalid & Ht & Hin & _).
  exists u, userRecord, username, t, delta. auto.
Defined.

(** ** Rollback *)

Lemma arrive_idle w : script w = [] -> arrive w = (None, set_now (now w + 1) w).
Proof. intros H. unfold arrive. rewrite H. reflexivity. Qed.

(** In a world whose script is over, with neither record there, a valid
    request is served. *)
Lemma createNewUser_fresh data context w u userRecord username :
  valid_request data context w u userRecord username ->
  script w = [] ->
  rtdb w !! (users, u) = None ->
  rtdb w !! (usernames, username) = None ->
  exists w', createNewUser data context w = (Returns (registered username u), w').
Proof.
  intros (Hid & Hdir & Hver & raw & Hraw & -> & Hre) Hscript Huser Hname.
  rewrite (createNewUser_valid _ _ _ _ _ _ Hid Hdir Hver Hraw Hre).
  unfold guard, registerUser. rewrite try_catch_bind.
  unfold once at 1. rewrite arrive_idle by exact Hscript.
  cbn [rtdb set_now log]. rewrite Huser. cbn [exists_]. rewrite try_catch_bind.
  unfold once at 1. rewrite arrive_idle by exact Hscript.
  cbn [rtdb set_now log]. rewrite Hname. cbn [exists_]. rewrite try_catch_bind.
  cbn [createUsername_from Nat.leb Nat.ltb]. unfold try_catch at 1. unfold bind at 1.
  unfold ret at 1. unfold bind at 1. unfold transaction at 1.
  rewrite arrive_idle by exact Hscript. unfold usernameUpdate.
  cbn [rtdb set_now log]. rewrite Hname.
  assert (Hv : forall b : bool, forall n : Z,
             resolve n [("created_at", if b then JServerTimestamp else JNum n)]
             = [("created_at", JNum n)]) by (intros []; reflexivity).
  cbn [server_value now set_now log]. rewrite Hv.
  cbn [committed snapshot created_at_of]. unfold bind at 1, ret at 1, ret at 1.
  rewrite try_catch_bind.
  cbn [createUser_from Nat.leb Nat.ltb]. unfold try_catch at 1. unfold bind at 1.
  unfold ret at 1. unfold bind at 1. unfold transaction at 1.
  rewrite arrive_idle by exact Hscript. unfold userUpdate.
  cbn [rtdb set_now log set_rtdb].
  rewrite lookup_insert_ne by discriminate. rewrite Huser.
  cbn [committed negb]. unfold ret, try_catch. eexists. reflexivity.
Qed.



(** When the cleanup itself is rejected the call still ends with "Something
    is Wrong", but the reservation stays, and the next caller asking for the
    name is turned away. *)
Lemma rollback_counterexample :
  let first := createNewUser (input "testuser123") (caller "uid-a")
                 (world0 (identity_failure (rejected "unavailable" "try again"))) in
  fst first = Throws (HttpsError "internal" "Something is Wrong") /\
  count failed_user_transaction (trace (snd first)) = 3%nat /\
  last (trace (snd first))
  = Some (EvStore Rtdb Remove (usernames, "testuser123")
            (Rejected (mkError (Some "unavailable") (Some "try again")))) /\
  script (snd first) = [] /\
  rtdb (snd first) !! (users, "uid-b") = None /\
  valid_request (input "testuser123") (caller "uid-b") (snd first) "uid-b" bob "testuser123" /\
  fst (createNewUser (input "testuser123") (caller "uid-b") (snd first))
  = Throws (HttpsError "already-exists" "username already taken").
Proof.
  cbv zeta. split; [vm_compute; reflexivity|]. split; [vm_compute; reflexivity|].
  split; [vm_compute; reflexivity|]. split; [vm_compute; reflexivity|].
  split; [vm_compute; reflexivity|]. split.
  - repeat split. exists "testuser123". repeat split.
  - vm_compute; reflexivity.
Qed.


Lemma no_store_call_refl w : no_store_call w w.
Proof. repeat split. Qed.

Lemma no_store_call_log ev w : no_store_call w (log ev w).
Proof. repeat split. Qed.

(** ** The authorization checks *)

Lemma caller_id_None context : caller_id context = None <-> no_uid context = true.
Proof.
  unfold caller_id, no_uid.
  destruct (auth context) as [[[u|]]|]; cbn; [destruct (String.eqb u "")|..];
    split; intros H; try reflexivity; try discriminate H.
Qed.

(** The runs of the checks that throw. *)
Lemma validateAuthAndEmail_throws context functionName w e w' :
  validateAuthAndEmail context functionName w = (Throws e, w') ->
  (e = app_check_failed /\ app context = false /\ w' = w) \/
  (e = authentication_required /\ app context = true /\ no_uid context = true /\ w' = w) \/
  (exists u, app context = true /\ caller_id context = Some u /\ w' = log (EvGetUser u) w /\
             ((e = lookup_failed /\ exists e0, auth_directory w u = Throws e0) \/
              (e = email_not_verified /\
               exists userRecord, auth_directory w u = Returns userRecord /\
                                  emailVerified userRecord = false))).
Proof.
  unfold validateAuthAndEmail. intros H.
  destruct (app context) eqn:Happ; cbn [negb] in H.
  2:{ inversion H; subst. left. auto. }
  destruct (no_uid context) eqn:Hno.
  { inversion H; subst. right. left. auto. }
  destruct (no_uid_caller_id _ Hno) as (u & Hid).
  rewrite (caller_id_context_uid _ _ Hid) in H. unfold bind at 1, ret at 1 in H.
  right. right. exists u. split; [reflexivity|]. split; [exact Hid|].
  destruct (auth_directory w u) as [userRecord|e0] eqn:Hdir.
  - unfold bind in H. rewrite (getUserRecord_ok _ _ _ Hdir) in H.
    destruct (emailVerified userRecord) eqn:Hver; cbn [negb] in H; inversion H; subst.
    split; [reflexivity|]. right. split; [reflexivity|]. eauto.
  - unfold bind in H. rewrite (getUserRecord_fails _ _ _ Hdir) in H. inversion H; subst.
    split; [reflexivity|]. left. split; [reflexivity|]. eauto.
Qed.

Lemma validateAuthAndEmail_returns context functionName w w' :
  validateAuthAndEmail context functionName w = (Returns tt, w') ->
  exists u, authorized w context u /\ w' = log (EvGetUser u) w.
Proof.
  unfold validateAuthAndEmail. intros H.
  destruct (app context) eqn:Happ; cbn [negb] in H; [|absurd_run H].
  destruct (no_uid context) eqn:Hno; [absurd_run H|].
  destruct (no_uid_caller_id _ Hno) as (u & Hid).
  rewrite (caller_id_context_uid _ _ Hid) in H.
  apply bind_returns in H as (u' & w1 & Hu & H). inversion Hu; subst u' w1.
  apply bind_returns in H as (userRecord & w1 & Hrec & H).
  apply getUserRecord_returns in Hrec as [Hdir ->].
  destruct (emailVerified userRecord) eqn:Hver; cbn [negb] in H; [|absurd_run H].
  inversion H; subst. exists u. split; [|reflexivity].
  split; [exact Happ|]. split; [exact Hid|]. eauto.
Qed.

(** X1. [validateAuthAndEmail] returns exactly for an authorized caller: an
    App Check token, a non-empty uid, a user record that the directory
    returns with a verified email; it has then made the one [getUser] call,
    and the name of the calling function plays no part. *)
Theorem validateAuthAndEmail_returns_iff_authorized :
  forall (context : Context) (functionName : string) (w w' : World),
    validateAuthAndEmail context functionName w = (Returns tt, w') <->
    exists u, authorized w context u /\ w' = log (EvGetUser u) w.
Proof.
  intros context functionName w w'. split.
  - apply validateAuthAndEmail_returns.
  - intros (u & Hauth & ->). apply validateAuthAndEmail_authorized. exact Hauth.
Qed.

Lemma validateAuthAndEmail_returns_iff_authorized_witness :
  authorized (world0 []) (caller "uid-a") "uid-a" /\
  validateAuthAndEmail (caller "uid-a") "quickMatch" (world0 [])
  = (Returns tt, log (EvGetUser "uid-a") (world0 [])).
Proof.
  assert (Hauth : authorized (world0 []) (caller "uid-a") "uid-a").
  { repeat split. exists alice. split; reflexivity. }
  split; [exact Hauth |].
  apply (proj2 (validateAuthAndEmail_returns_iff_authorized (caller "uid-a") "quickMatch"
                  (world0 []) (log (EvGetUser "uid-a") (world0 [])))).
  exists "uid-a". split; [exact Hauth | reflexivity].
Defined.

(** X2. Without an App Check token the three handlers that ask for one throw
    'failed-precondition' ("App Check verification failed") at once, whatever
    the credentials and the input: the world is left exactly as found, not
    even the user lookup is made. *)
Theorem app_check_comes_first :
  forall (data : option jsobj) (context : Context) (w : World),
    app context = false ->
    createNewUserHandler data context w = (Throws app_check_failed, w) /\
    quickMatchHandler data context w = (Throws app_check_failed, w) /\
    cancelQuickMatchHandler data context w = (Throws app_check_failed, w).
Proof.
  intros data context w Happ. repeat split.
  - unfold createNewUserHandler, guard, try_catch. rewrite Happ. reflexivity.
  - unfold quickMatchHandler, guard, try_catch, bind, validateAuthAndEmail.
    rewrite Happ. reflexivity.
  - unfold cancelQuickMatchHandler, guard, try_catch, bind, validateAuthAndEmail.
    rewrite Happ. reflexivity.
Qed.

Lemma app_check_comes_first_witness :
  app anonymous = false /\
  quickMatchHandler None anonymous (world0 []) = (Throws app_check_failed, world0 []).
Proof.
  split; [reflexivity |].
  apply (proj1 (proj2 (app_check_comes_first None anonymous (world0 []) eq_refl))).
Defined.

(** X3. A context with no [auth], or whose [uid] is missing or the empty
    string, is turned away with 'unauthenticated' ("Authentication required")
    by all four handlers, before the user lookup and before any store call:
    the world is left exactly as found. The Realtime Database version of
    createNewUser does so even without an App Check token. *)
Theorem unauthenticated_is_rejected :
  forall (data : option jsobj) (context : Context) (w : World),
    no_uid context = true ->
    createNewUser data context w = (Throws authentication_required, w) /\
    (app context = true ->
     createNewUserHandler data context w = (Throws authentication_required, w) /\
     quickMatchHandler data context w = (Throws authentication_required, w) /\
     cancelQuickMatchHandler data context w = (Throws authentication_required, w)).
Proof.
  intros data context w Hno. split.
  - unfold createNewUser, guard, try_catch. rewrite Hno. reflexivity.
  - intros Happ. repeat split.
    + unfold createNewUserHandler, guard, try_catch. rewrite Happ, Hno. reflexivity.
    + unfold quickMatchHandler, guard, try_catch, bind, validateAuthAndEmail.
      rewrite Happ, Hno. reflexivity.
    + unfold cancelQuickMatchHandler, guard, try_catch, bind, validateAuthAndEmail.
      rewrite Happ, Hno. reflexivity.
Qed.

Lemma unauthenticated_is_rejected_witness :
  no_uid (mkContext true (Some (mkAuth (Some "")))) = true /\
  createNewUser (input "testuser123") (mkContext true (Some (mkAuth (Some ""))))
                (world0 [])
  = (Throws authentication_required, world0 []).
Proof.
  split; [reflexivity |].
  apply (proj1 (unauthenticated_is_rejected (input "testuser123")
                  (mkContext true (Some (mkAuth (Some "")))) (world0 []) eq_refl)).
Defined.

(** X4. A caller whose user record has an unverified email is turned away
    with 'failed-precondition' ("use a verified email address to continue")
    by all four handlers, whatever the input; the user lookup is the only
    call made. *)
Theorem unverified_email_is_rejected :
  forall (data : option jsobj) (context : Context) (w : World) (u : string)
         (userRecord : UserRecord),
    caller_id context = Some u ->
    auth_directory w u = Returns userRecord ->
    emailVerified userRecord = false ->
    stopped_after_lookup (createNewUser data context w) w u email_not_verified /\
    (app context = true ->
     stopped_after_lookup (createNewUserHandler data context w) w u email_not_verified /\
     stopped_after_lookup (quickMatchHandler data context w) w u email_not_verified /\
     stopped_after_lookup (cancelQuickMatchHandler data context w) w u email_not_verified).
Proof.
  intros data context w u userRecord Hid Hdir Hver. unfold stopped_after_lookup.
  assert (Hval : app context = true ->
                 forall fn, validateAuthAndEmail context fn w
                            = (Throws email_not_verified, log (EvGetUser u) w)).
  { intros Happ fn. unfold validateAuthAndEmail.
    rewrite Happ, (caller_id_no_uid _ _ Hid), (caller_id_context_uid _ _ Hid).
    unfold bind, ret. cbn [negb]. rewrite (getUserRecord_ok _ _ _ Hdir), Hver. reflexivity. }
  split.
  - unfold createNewUser, guard.
    rewrite (caller_id_no_uid _ _ Hid), (caller_id_context_uid _ _ Hid).
    unfold try_catch, bind, ret. rewrite (getUserRecord_ok _ _ _ Hdir), Hver. reflexivity.
  - intros Happ. repeat split.
    + unfold createNewUserHandler, guard.
      rewrite Happ, (caller_id_no_uid _ _ Hid), (caller_id_context_uid _ _ Hid).
      unfold try_catch, bind, ret. cbn [negb].
      rewrite (getUserRecord_ok _ _ _ Hdir), Hver. reflexivity.
    + unfold quickMatchHandler, guard, try_catch, bind. rewrite (Hval Happ). reflexivity.
    + unfold cancelQuickMatchHandler, guard, try_catch, bind. rewrite (Hval Happ). reflexivity.
Qed.

Lemma unverified_email_is_rejected_witness :
  caller_id (caller "uid-c") = Some "uid-c" /\
  auth_directory carol_world "uid-c" = Returns carol /\
  emailVerified carol = false /\
  stopped_after_lookup (createNewUser (input "testuser123") (caller "uid-c") carol_world)
                       carol_world "uid-c" email_not_verified.
Proof.
  repeat (split; [reflexivity |]).
  apply (proj1 (unverified_email_is_rejected (input "testuser123") (caller "uid-c")
                  carol_world "uid-c" carol eq_refl eq_refl eq_refl)).
Defined.

(** ** The queue *)

Lemma get_quiet r w res w1 :
  quiet w -> get r w = (res, w1) ->
  quiet w1 /\ rtdb w1 = rtdb w /\ firestore w1 = firestore w /\
  (forall v, res = Returns v -> v = firestore w !! r).
Proof.
  unfold get. intros Hq. destruct (arrive w) as [[e|] w0] eqn:Ha;
    destruct (arrive_quiet _ _ _ Hq Ha) as (Hq0 & Hr & Hf); intros H; inversion H; subst;
    repeat split; auto; try discriminate.
  intros v Hv. inversion Hv. rewrite Hf. reflexivity.
Qed.

Lemma delete_doc_quiet r w res w1 :
  quiet w -> delete_doc r w = (res, w1) ->
  quiet w1 /\ rtdb w1 = rtdb w /\
  firestore w1 = match res with
                 | Returns _ => delete r (firestore w)
                 | Throws _ => firestore w
                 end.
Proof.
  unfold delete_doc. intros Hq. destruct (arrive w) as [[e|] w0] eqn:Ha;
    destruct (arrive_quiet _ _ _ Hq Ha) as (Hq0 & Hr & Hf); intros H; inversion H; subst;
    repeat split; auto.
  cbn [firestore log set_firestore]. rewrite Hf. reflexivity.
Qed.

Lemma set_quiet r data w res w1 :
  quiet w -> set r data w = (res, w1) ->
  quiet w1 /\ rtdb w1 = rtdb w /\
  firestore w1 = match res with
                 | Returns _ => <[r := resolve (now w1) data]> (firestore w)
                 | Throws _ => firestore w
                 end.
Proof.
  unfold set. intros Hq. destruct (arrive w) as [[e|] w0] eqn:Ha;
    destruct (arrive_quiet _ _ _ Hq Ha) as (Hq0 & Hr & Hf); intros H; inversion H; subst;
    repeat split; auto.
  cbn [firestore log set_firestore now]. rewrite Hf. reflexivity.
Qed.

Lemma once_quiet r w res w1 :
  quiet w -> once r w = (res, w1) ->
  quiet w1 /\ rtdb w1 = rtdb w /\ firestore w1 = firestore w /\
  (forall v, res = Returns v -> v = rtdb w !! r).
Proof.
  unfold once. intros Hq. destruct (arrive w) as [[e|] w0] eqn:Ha;
    destruct (arrive_quiet _ _ _ Hq Ha) as (Hq0 & Hr & Hf); intros H; inversion H; subst;
    repeat split; auto; try discriminate.
  intros v Hv. inversion Hv. rewrite Hr. reflexivity.
Qed.

(** What a run of the delete loop leaves behind when no other client writes. *)
Lemma deleteWithRetry_from_quiet fuel :
  forall docRef attempt maxRetries ms w deleted w',
    quiet w ->
    deleteWithRetry_from fuel docRef attempt maxRetries ms w = (Returns deleted, w') ->
    quiet w' /\ rtdb w' = rtdb w /\
    firestore w' = (if deleted then delete docRef (firestore w) else firestore w).
Proof.
  induction fuel as [|fuel IH]; intros r attempt maxRetries ms w deleted w' Hq Hrun;
    cbn [deleteWithRetry_from] in Hrun.
  - inversion Hrun; subst. auto.
  - destruct (attempt <=? maxRetries)%nat; [|inversion Hrun; subst; auto].
    apply try_catch_inv in Hrun as [(a & Hbody & Ha) | (e & w1 & Hbody & Hhandler)].
    + inversion Ha; subst a. clear Ha.
      apply bind_inv in Hbody as [(doc & w1 & Hget & Hrest) | (e & _ & He)]; [|discriminate He].
      destruct (get_quiet _ _ _ _ Hq Hget) as (Hq1 & Hr1 & Hf1 & Hdoc).
      specialize (Hdoc doc eq_refl). destruct doc as [doc|].
      * apply bind_inv in Hrest as [([] & w2 & Hdel & Hret) | (e & _ & He)]; [|discriminate He].
        destruct (delete_doc_quiet _ _ _ _ Hq1 Hdel) as (Hq2 & Hr2 & Hf2).
        inversion Hret; subst. rewrite Hr2, Hr1, Hf2, Hf1. auto.
      * inversion Hrest; subst. rewrite Hr1, Hf1.
        rewrite delete_id by (symmetry; exact Hdoc). auto.
    + assert (Hsame : quiet w1 /\ rtdb w1 = rtdb w /\ firestore w1 = firestore w).
      { apply bind_inv in Hbody as [(doc & w0 & Hget & Hrest) | (e0 & Hget & _)].
        - destruct (get_quiet _ _ _ _ Hq Hget) as (Hq0 & Hr0 & Hf0 & _).
          destruct doc as [doc|]; [|discriminate Hrest].
          apply bind_inv in Hrest as [([] & w2 & Hdel & Hret) | (e0 & Hdel & _)];
            [discriminate Hret|].
          destruct (delete_doc_quiet _ _ _ _ Hq0 Hdel) as (Hq2 & Hr2 & Hf2).
          rewrite Hr2, Hf2, Hr0, Hf0. auto.
        - destruct (get_quiet _ _ _ _ Hq Hget) as (Hq0 & Hr0 & Hf0 & _). auto. }
      destruct Hsame as (Hq1 & Hr1 & Hf1).
      destruct (isLockedError e && (attempt <? maxRetries)%nat).
      * apply bind_inv in Hhandler as [([] & w2 & Hsleep & Hrec) | (e0 & Hsleep & _)];
          [|discriminate Hsleep].
        inversion Hsleep; subst w2. clear Hsleep.
        destruct (IH _ _ _ _ (log (EvSleep ms) (set_now (now w1 + timeout_delay ms) w1)) _ _ Hq1 Hrec)
          as (Hq' & Hr' & Hf').
        cbn [rtdb firestore log set_now] in Hr', Hf'. rewrite Hr', Hf', Hr1, Hf1. auto.
      * inversion Hhandler; subst. auto.
Qed.

(** X5. When no other client writes, [deleteWithRetry] returns [true] only
    with the document gone (deleted, or absent from the start) and every
    other document as it was, and [false] only with Firestore exactly as
    found; the Realtime Database is never touched. *)
Theorem deleteWithRetry_result_meaning :
  forall (docRef : ref) (maxRetries : nat) (retryDelayMs : Z) (w : World)
         (deleted : bool) (w' : World),
    quiet w ->
    deleteWithRetry docRef maxRetries retryDelayMs w = (Returns deleted, w') ->
    rtdb w' = rtdb w /\
    (deleted = true ->
     firestore w' !! docRef = None /\
     forall r, r <> docRef -> firestore w' !! r = firestore w !! r) /\
    (deleted = false -> firestore w' = firestore w).
Proof.
  intros r maxRetries ms w deleted w' Hq Hrun.
  destruct (deleteWithRetry_from_quiet _ _ _ _ _ _ _ _ Hq Hrun) as (_ & Hr & Hf).
  split; [exact Hr|]. split; intros ->; [|exact Hf].
  rewrite Hf. split; [apply lookup_delete_eq|].
  intros r' Hne. apply lookup_delete_ne. congruence.
Qed.

Lemma deleteWithRetry_result_meaning_witness :
  quiet (cancel_world [rejected "aborted" "transaction conflict"]) /\
  firestore (snd (deleteWithRetry (quick_matchmaking_queue, "uid-a") 10 500
                    (cancel_world [rejected "aborted" "transaction conflict"])))
  !! (quick_matchmaking_queue, "uid-a") = None.
Proof.
  assert (Hq : quiet (cancel_world [rejected "aborted" "transaction conflict"])).
  { repeat constructor. }
  split; [exact Hq |].
  apply (deleteWithRetry_result_meaning (quick_matchmaking_queue, "uid-a") 10 500
           (cancel_world [rejected "aborted" "transaction conflict"]) true _ Hq).
  - vm_compute. reflexivity.
  - reflexivity.
Defined.

Lemma sleeps_are_nil ms : sleeps_are ms [].
Proof. intros ev []. Qed.

Lemma sleeps_are_cons_sleep ms delta : sleeps_are ms delta -> sleeps_are ms (EvSleep ms :: delta).
Proof. intros H ev [<- | Hin] Hs; [reflexivity | auto]. Qed.

Lemma sleeps_are_cons_other ms ev delta :
  is_sleep ev = false -> sleeps_are ms delta -> sleeps_are ms (ev :: delta).
Proof. intros Hev H ev' [<- | Hin] Hs; [congruence | auto]. Qed.

(** The calls of any run of the delete loop, and the time it takes. *)
Lemma deleteWithRetry_from_bounds fuel :
  forall docRef attempt maxRetries ms w,
    exists deleted delta w',
      deleteWithRetry_from fuel docRef attempt maxRetries ms w = (Returns deleted, w') /\
      trace w' = trace w ++ delta /\
      (count is_get delta <= S maxRetries - attempt)%nat /\
      (count is_delete delta <= count is_get delta)%nat /\
      (count is_sleep delta <= maxRetries - attempt)%nat /\
      sleeps_are ms delta /\
      now w' = now w + Z.of_nat (count is_get delta + count is_delete delta)
               + timeout_delay ms * Z.of_nat (count is_sleep delta).
Proof.
  induction fuel as [|fuel IH]; intros r attempt maxRetries ms w; cbn [deleteWithRetry_from].
  - exists false, [], w. rewrite app_nil_r. cbn. repeat split; try lia. apply sleeps_are_nil.
  - destruct (attempt <=? maxRetries)%nat eqn:Hle.
    2:{ exists false, [], w. rewrite app_nil_r. cbn. repeat split; try lia.
        apply sleeps_are_nil. }
    assert (Hretry : forall e w1 pre,
               trace w1 = trace w ++ pre ->
               count is_get pre = 1%nat -> (count is_delete pre <= 1)%nat ->
               count is_sleep pre = 0%nat -> sleeps_are ms pre ->
               now w1 = now w + Z.of_nat (count is_get pre + count is_delete pre) ->
               exists deleted delta w',
                 (if isLockedError e && (attempt <? maxRetries)%nat
                  then sleep ms ;; deleteWithRetry_from fuel r (S attempt) maxRetries ms
                  else ret false) w1 = (Returns deleted, w') /\
                 trace w' = trace w ++ delta /\
                 (count is_get delta <= S maxRetries - attempt)%nat /\
                 (count is_delete delta <= count is_get delta)%nat /\
                 (count is_sleep delta <= maxRetries - attempt)%nat /\
                 sleeps_are ms delta /\
                 now w' = now w + Z.of_nat (count is_get delta + count is_delete delta)
                          + timeout_delay ms * Z.of_nat (count is_sleep delta)).
    { intros e w1 pre Ht Hg Hd Hs Hms Hn.
      destruct (isLockedError e && (attempt <? maxRetries)%nat) eqn:Hgo.
      - apply andb_prop in Hgo as [_ Hlt]. apply Nat.ltb_lt in Hlt. apply Nat.leb_le in Hle.
        unfold bind, sleep.
        destruct (IH r (S attempt) maxRetries ms (log (EvSleep ms) (set_now (now w1 + timeout_delay ms) w1)))
          as (deleted & rest & w' & Hrun & Ht' & Hg' & Hd' & Hs' & Hms' & Hn').
        exists deleted, (pre ++ EvSleep ms :: rest), w'. split; [exact Hrun|].
        cbn [trace now log set_now] in Ht', Hn'.
        rewrite !count_app. cbn [count is_get is_delete is_sleep]. rewrite Hg, Hs.
        split; [rewrite Ht', Ht, <- !app_assoc; reflexivity|].
        split; [lia|split; [lia|split; [lia|split]]].
        + apply sleeps_are_app; [exact Hms | apply sleeps_are_cons_sleep; exact Hms'].
        + rewrite Hn', Hn, Hg. lia.
      - apply Nat.leb_le in Hle.
        exists false, pre, w1. unfold ret. split; [reflexivity|]. split; [exact Ht|].
        rewrite Hg, Hs. repeat split; auto; try lia. }
    pose proof (proj1 (Nat.leb_le _ _) Hle) as Hle'.
    unfold try_catch, bind, get.
    destruct (arrive w) as [[e|] w0] eqn:Ha; pose proof (arrive_trace _ _ _ Ha) as Ht0;
      pose proof (arrive_now _ _ _ Ha) as Hn0.
    + eapply (Hretry _ _ [_]).
      * cbn [trace log]. rewrite Ht0. reflexivity.
      * reflexivity.
      * cbn. lia.
      * reflexivity.
      * apply sleeps_are_other. reflexivity.
      * cbn [now log count is_get is_delete]. rewrite Hn0. reflexivity.
    + destruct (firestore w0 !! r) as [doc|].
      * unfold delete_doc.
        destruct (arrive (log _ w0)) as [[e|] w1] eqn:Ha1;
          pose proof (arrive_trace _ _ _ Ha1) as Ht1; pose proof (arrive_now _ _ _ Ha1) as Hn1;
          cbn [trace now log] in Ht1, Hn1.
        -- eapply (Hretry _ _ [_; _]).
           ++ cbn [trace log]. rewrite Ht1, Ht0, <- app_assoc. reflexivity.
           ++ reflexivity.
           ++ cbn. lia.
           ++ reflexivity.
           ++ apply sleeps_are_cons_other; [reflexivity | apply sleeps_are_other; reflexivity].
           ++ cbn [now log count is_get is_delete]. rewrite Hn1, Hn0. cbn. lia.
        -- eexists true, [_; _], _. unfold ret. split; [reflexivity|]. split.
           ++ cbn [trace log set_firestore]. rewrite Ht1, Ht0, <- app_assoc. reflexivity.
           ++ cbn [now log set_firestore count is_get is_delete is_sleep].
              rewrite Hn1, Hn0.
              split; [lia|split; [lia|split; [lia|split; [|cbn; lia]]]].
              apply sleeps_are_cons_other; [reflexivity | apply sleeps_are_other; reflexivity].
      * eexists true, [_], _. unfold ret. split; [reflexivity|]. split.
        -- cbn [trace log]. rewrite Ht0. reflexivity.
        -- cbn [now log count is_get is_delete is_sleep]. rewrite Hn0.
           split; [lia|split; [lia|split; [lia|split; [|cbn; lia]]]].
           apply sleeps_are_other. reflexivity.
Qed.

(** X6. [deleteWithRetry] always returns a boolean, whatever the store answers,
    and its calls are bounded by [maxRetries]: at most [maxRetries] reads of the
    document, never more deletes than reads, at most [maxRetries - 1] sleeps,
    each called with [retryDelayMs].  The time it takes is one unit per store
    call plus, per sleep, the delay that [setTimeout] waits for:
    [retryDelayMs] itself when it is between 1 and 2^31-1, and 1 ms
    otherwise. *)
Theorem deleteWithRetry_bounds :
  forall (docRef : ref) (maxRetries : nat) (retryDelayMs : Z) (w : World),
    exists deleted delta w',
      deleteWithRetry docRef maxRetries retryDelayMs w = (Returns deleted, w') /\
      trace w' = trace w ++ delta /\
      (count is_get delta <= maxRetries)%nat /\
      (count is_delete delta <= count is_get delta)%nat /\
      (count is_sleep delta <= maxRetries - 1)%nat /\
      sleeps_are retryDelayMs delta /\
      now w' = now w + Z.of_nat (count is_get delta + count is_delete delta)
               + timeout_delay retryDelayMs * Z.of_nat (count is_sleep delta) /\
      (1 <= retryDelayMs <= 2147483647 ->
       now w' = now w + Z.of_nat (count is_get delta + count is_delete delta)
                + retryDelayMs * Z.of_nat (count is_sleep delta)) /\
      (retryDelayMs < 1 \/ 2147483647 < retryDelayMs ->
       now w' = now w + Z.of_nat (count is_get delta + count is_delete delta)
                + Z.of_nat (count is_sleep delta)).
Proof.
  intros docRef maxRetries ms w. unfold deleteWithRetry.
  destruct (deleteWithRetry_from_bounds maxRetries docRef 1 maxRetries ms w)
    as (deleted & delta & w' & Hrun & Ht & Hg & Hd & Hs & Hms & Hn).
  exists deleted, delta, w'.
  split; [exact Hrun|]. split; [exact Ht|]. split; [lia|]. split; [exact Hd|].
  split; [lia|]. split; [exact Hms|]. split; [exact Hn|]. split.
  - intros Hrange. rewrite Hn. unfold timeout_delay.
    destruct (Z.ltb_spec ms 1), (Z.ltb_spec 2147483647 ms); cbn [orb]; lia.
  - intros Hrange. rewrite Hn. unfold timeout_delay.
    destruct (Z.ltb_spec ms 1), (Z.ltb_spec 2147483647 ms); cbn [orb]; lia.
Qed.
(** *** Every run of the delete loop *)

Lemma fails_contended_event ev : contended_event ev = true -> fails_contended ev.
Proof.
  destruct ev as [|[] [] r [e| | |]| |]; cbn; try discriminate; try tauto.
  - destruct v; [tauto | discriminate].
  - apply isLockedError_spec.
Qed.

Lemma contended_event_fails ev : fails_contended ev -> contended_event ev = true.
Proof.
  destruct ev as [|[] [] r [e| | |]| |]; cbn; try tauto.
  - destruct v; tauto.
  - apply isLockedError_spec.
Qed.

Lemma Forall_fails_contended delta :
  Forall fails_contended delta <-> forallb contended_event delta = true.
Proof.
  rewrite forallb_forall, List.Forall_forall. split; intros H ev Hin.
  - apply contended_event_fails, H, Hin.
  - apply fails_contended_event, H, Hin.
Qed.

Lemma deleteWithRetry_from_deletion fuel :
  forall docRef attempt maxRetries ms w,
    (attempt + fuel = maxRetries + 1)%nat -> (1 <= fuel)%nat ->
    exists deleted delta w',
      deleteWithRetry_from fuel docRef attempt maxRetries ms w = (Returns deleted, w') /\
      trace w' = trace w ++ delta /\
      deletion docRef maxRetries ms attempt delta deleted.
Proof.
  induction fuel as [|fuel IH]; intros r attempt maxRetries ms w Hfuel Hpos; [lia|].
  cbn [deleteWithRetry_from].
  replace (attempt <=? maxRetries)%nat with true by (symmetry; apply Nat.leb_le; lia).
  assert (Hfailed : forall e w1 evs,
             trace w1 = trace w ++ evs -> failed_deletion r evs e ->
             exists deleted delta w',
               (if isLockedError (Error e) && (attempt <? maxRetries)%nat
                then sleep ms ;; deleteWithRetry_from fuel r (S attempt) maxRetries ms
                else ret false) w1 = (Returns deleted, w') /\
               trace w' = trace w ++ delta /\
               deletion r maxRetries ms attempt delta deleted).
  { intros e w1 evs Ht Hevs.
    destruct (isLockedError (Error e)) eqn:Hlocked; cbn [andb].
    - assert (Hcont : contended (Error e)) by (apply isLockedError_spec; exact Hlocked).
      destruct (attempt <? maxRetries)%nat eqn:Hlt.
      + apply Nat.ltb_lt in Hlt. unfold bind, sleep.
        destruct (IH r (S attempt) maxRetries ms
                    (log (EvSleep ms) (set_now (now w1 + timeout_delay ms) w1)))
          as (deleted & rest & w' & Hrun & Ht' & Hrest); [lia | lia |].
        exists deleted, (evs ++ EvSleep ms :: rest), w'. split; [exact Hrun|]. split.
        * rewrite Ht'. cbn [trace log set_now]. rewrite Ht, <- !app_assoc. reflexivity.
        * eapply deletion_retry; eassumption.
      + apply Nat.ltb_ge in Hlt.
        exists false, evs, w1. split; [reflexivity|]. split; [exact Ht|].
        eapply deletion_exhausted; [lia | eassumption | exact Hcont].
    - exists false, evs, w1. split; [reflexivity|]. split; [exact Ht|].
      eapply deletion_other; [eassumption|].
      intros Hcont. apply isLockedError_spec in Hcont. congruence. }
  unfold try_catch, bind, get.
  destruct (arrive w) as [[e|] w0] eqn:Ha; pose proof (arrive_trace _ _ _ Ha) as Ht0.
  - apply Hfailed with (evs := [EvStore Firestore Get r (Rejected e)]).
    + cbn [trace log]. rewrite Ht0. reflexivity.
    + constructor.
  - destruct (firestore w0 !! r) as [doc|] eqn:Hdoc.
    + unfold delete_doc.
      destruct (arrive (log _ w0)) as [[e|] w1] eqn:Ha1;
        pose proof (arrive_trace _ _ _ Ha1) as Ht1; cbn [trace log] in Ht1.
      * apply Hfailed with (evs := [EvStore Firestore Get r (Snapshot (Some doc));
                                    EvStore Firestore Delete r (Rejected e)]).
        -- cbn [trace log]. rewrite Ht1, Ht0, <- app_assoc. reflexivity.
        -- constructor.
      * eexists true, [_; _], _. unfold ret. split; [reflexivity|]. split.
        -- cbn [trace log set_firestore]. rewrite Ht1, Ht0, <- app_assoc. reflexivity.
        -- apply deletion_done.
    + eexists true, [_], _. unfold ret. split; [reflexivity|]. split.
      * cbn [trace log]. rewrite Ht0. reflexivity.
      * apply deletion_absent.
Qed.

Lemma failed_deletion_facts r evs e :
  failed_deletion r evs e ->
  count is_get evs = 1%nat /\ (count is_delete evs <= 1)%nat /\ count is_sleep evs = 0%nat /\
  evs <> [] /\
  forall ev, In ev evs -> fails_otherwise ev -> ~ contended (Error e).
Proof.
  intros [e0 | doc e0]; cbn [count is_get is_delete is_sleep];
    (split; [lia|]); (split; [lia|]); (split; [lia|]); (split; [discriminate|]).
  - intros ev [<- | []] H. exact H.
  - intros ev [<- | [<- | []]] H; [destruct H | exact H].
Qed.

(** What the grammar of the runs says of their calls. *)
Lemma deletion_facts r maxRetries ms attempt delta deleted :
  deletion r maxRetries ms attempt delta deleted ->
  (attempt <= maxRetries)%nat ->
  (count is_get delta <= maxRetries + 1 - attempt)%nat /\
  (count is_sleep delta + 1 = count is_get delta)%nat /\
  (count is_delete delta <= count is_get delta)%nat /\
  delta <> [] /\
  (Exists fails_otherwise delta ->
   deleted = false /\ exists ev, last delta = Some ev /\ fails_otherwise ev).
Proof.
  induction 1 as [attempt | attempt doc | attempt evs e Hevs Hother
                 | attempt evs e Hmax Hevs Hcont
                 | attempt evs e rest deleted Hlt Hevs Hcont Hrest IH]; intros Hle.
  - cbn [count is_get is_delete is_sleep].
    split; [lia|]. split; [lia|]. split; [lia|]. split; [discriminate|].
    intros Hex. exfalso. inversion Hex as [? ? H | ? ? H]; [exact H | inversion H].
  - cbn [count is_get is_delete is_sleep].
    split; [lia|]. split; [lia|]. split; [lia|]. split; [discriminate|].
    intros Hex. exfalso. inversion Hex as [? ? H | ? ? H]; [exact H|].
    inversion H as [? ? H' | ? ? H']; [exact H' | inversion H'].
  - destruct (failed_deletion_facts _ _ _ Hevs) as (Hg & Hd & Hs & Hne & _).
    rewrite Hg, Hs. split; [lia|]. split; [lia|]. split; [lia|]. split; [exact Hne|].
    intros Hex. split; [reflexivity|].
    destruct Hevs as [e0 | doc e0]; cbn [last]; eexists; (split; [reflexivity|]); exact Hother.
  - destruct (failed_deletion_facts _ _ _ Hevs) as (Hg & Hd & Hs & Hne & Hno).
    rewrite Hg, Hs. split; [lia|]. split; [lia|]. split; [lia|]. split; [exact Hne|].
    intros Hex. apply List.Exists_exists in Hex as (ev & Hin & Hev).
    destruct (Hno ev Hin Hev Hcont).
  - destruct (failed_deletion_facts _ _ _ Hevs) as (Hg & Hd & Hs & Hne & Hno).
    destruct IH as (Hg' & Hs' & Hd' & Hne' & Hlast); [lia|].
    rewrite !count_app. cbn [count is_get is_delete is_sleep]. rewrite Hg, Hs.
    split; [lia|]. split; [lia|]. split; [lia|]. split; [destruct evs; discriminate|].
    intros Hex. apply List.Exists_app in Hex as [Hex | Hex].
    { apply List.Exists_exists in Hex as (ev & Hin & Hev). destruct (Hno ev Hin Hev Hcont). }
    inversion Hex as [? ? H | ? ? H]; [destruct H|]. subst.
    destruct (Hlast H) as (-> & ev & Hl & Hev). split; [reflexivity|].
    exists ev. split; [|exact Hev].
    rewrite last_app. cbn [last]. destruct rest as [|x rest']; [discriminate Hl|].
    cbn [last] in Hl |- *. rewrite Hl. reflexivity.
Qed.

Lemma count_steps (p : event -> bool) (q : step -> bool) delta :
  (forall ev, p ev = q (step_of ev)) -> count p delta = count q (map step_of delta).
Proof.
  intros Hpq. induction delta as [|ev delta IH]; [reflexivity|].
  cbn [map count]. rewrite IH, Hpq. reflexivity.
Qed.

Lemma count_is_get_steps delta : count is_get delta = count is_Read (map step_of delta).
Proof. apply count_steps. intros [|[] [] ? ?| |]; reflexivity. Qed.

Lemma count_is_sleep_steps delta : count is_sleep delta = count is_Wait (map step_of delta).
Proof. apply count_steps. intros [|[] [] ? ?| |]; reflexivity. Qed.

(** C5. The delete loop of leaveQueue, as [cancelQuickMatchHandler] runs it
    (ten attempts, 500 ms). Whatever Firestore answers, the loop returns, and
    its run is a [deletion]: an attempt is a read and, when the read finds
    the document, a delete; a rejected call whose error is contended (code
    'aborted', 'failed-precondition' or 'unavailable', or a message that
    includes 'concurrent' or 'locked') is followed by a sleep of 500 ms and
    the next attempt, unless it was the tenth attempt; a rejected call whose
    error is not contended ends the run with [false]. The sleeps take their
    time: the clock advances by one unit per store call and 500 ms per sleep,
    and there is exactly one sleep between two attempts.
    - When every attempt fails contended (each read finds the entry, each
      delete is rejected with a contended error), the run is ten attempts:
      ten delete calls, nine sleeps of 500 ms, 4520 ms in all, and the result
      is [false].
    - A call rejected with an error that is not contended is the last call
      of the run, wherever it occurs, and the result is [false]; when it is
      the first delete, the run is one read and one delete.
    - When the entry is absent, the run is the one read, with no delete call,
      and the result is [true]. *)
Theorem deleteWithRetry_attempts :
  forall (docRef : ref) (w : World),
    exists deleted delta w',
      deleteWithRetry docRef 10 500 w = (Returns deleted, w') /\
      trace w' = trace w ++ delta /\
      deletion docRef 10 500 1 delta deleted /\
      now w' = now w + Z.of_nat (count is_get delta + count is_delete delta)
               + 500 * Z.of_nat (count is_sleep delta) /\
      (count is_get delta <= 10)%nat /\
      (count is_delete delta <= count is_get delta)%nat /\
      (count is_sleep delta + 1 = count is_get delta)%nat /\
      sleeps_are 500 delta /\
      (Forall fails_contended delta ->
       map step_of delta = contended_shape 10 500 /\
       count is_delete delta = 10%nat /\ count is_sleep delta = 9%nat /\
       deleted = false /\ now w' = now w + 4520) /\
      (Exists fails_otherwise delta ->
       deleted = false /\ exists ev, last delta = Some ev /\ fails_otherwise ev) /\
      (forall doc w1 error w2,
          get docRef w = (Returns (Some doc), w1) ->
          delete_doc docRef w1 = (Throws error, w2) ->
          ~ contended error ->
          deleted = false /\ w' = w2 /\ map step_of delta = [Read; Del] /\
          count is_delete delta = 1%nat) /\
      (forall w1,
          get docRef w = (Returns None, w1) ->
          deleted = true /\ w' = w1 /\ map step_of delta = [Read] /\
          count is_delete delta = 0%nat).
Proof.
  intros docRef w.
  destruct (deleteWithRetry_from_deletion 10 docRef 1 10 500 w eq_refl)
    as (deleted & delta & w' & Hrun & Ht & Hdel); [lia|].
  exists deleted, delta, w'. unfold deleteWithRetry.
  split; [exact Hrun|]. split; [exact Ht|]. split; [exact Hdel|].
  destruct (deleteWithRetry_from_bounds 10 docRef 1 10 500 w)
    as (deleted1 & delta1 & w1 & Hrun1 & Ht1 & _ & _ & _ & Hms & Hnow).
  rewrite Hrun in Hrun1. inversion Hrun1; subst deleted1 w1. clear Hrun1.
  rewrite Ht in Ht1. apply app_inv_head in Ht1. subst delta1.
  change (timeout_delay 500) with 500 in Hnow.
  destruct (deletion_facts _ _ _ _ _ _ Hdel) as (Hg & Hs & Hd & _ & Hother); [lia|].
  split; [exact Hnow|]. split; [lia|]. split; [exact Hd|]. split; [exact Hs|].
  split; [exact Hms|]. split; [|split; [exact Hother|split]].
  - intros Hall. apply Forall_fails_contended in Hall.
    destruct (deleteWithRetry_from_contended 10 docRef 1 10 500 w eq_refl)
      as (b & delta0 & w0 & Hrun0 & Ht0 & Hshape).
    rewrite Hrun in Hrun0. inversion Hrun0; subst b w0. clear Hrun0.
    rewrite Ht in Ht0. apply app_inv_head in Ht0. subst delta0.
    destruct (Hshape Hall) as [Hmap ->].
    assert (Hdels : count is_delete delta = 10%nat)
      by (rewrite count_is_delete_steps, Hmap; reflexivity).
    assert (Hgets : count is_get delta = 10%nat)
      by (rewrite count_is_get_steps, Hmap; reflexivity).
    assert (Hsleeps : count is_sleep delta = 9%nat)
      by (rewrite count_is_sleep_steps, Hmap; reflexivity).
    split; [exact Hmap|]. split; [exact Hdels|]. split; [exact Hsleeps|].
    split; [reflexivity|]. rewrite Hnow, Hgets, Hdels, Hsleeps. lia.
  - intros doc w1 error w2 Hget Hfail Hother'.
    assert (Hlocked : isLockedError error = false).
    { destruct (isLockedError error) eqn:Hl; [|reflexivity].
      destruct Hother'. apply isLockedError_spec. exact Hl. }
    destruct (get_trace _ _ _ _ Hget) as (a1 & Ht1).
    destruct (delete_doc_trace _ _ _ _ Hfail) as (a2 & Ht2).
    cbn [deleteWithRetry_from Nat.leb] in Hrun. unfold try_catch, bind in Hrun.
    rewrite Hget, Hfail, Hlocked in Hrun. inversion Hrun; subst deleted w'.
    rewrite Ht2, Ht1, <- app_assoc in Ht. apply app_inv_head in Ht. subst delta.
    repeat split.
  - intros w1 Hget. destruct (get_trace _ _ _ _ Hget) as (a1 & Ht1).
    cbn [deleteWithRetry_from Nat.leb] in Hrun. unfold try_catch, bind in Hrun.
    rewrite Hget in Hrun. inversion Hrun; subst deleted w'.
    rewrite Ht1 in Ht. apply app_inv_head in Ht. subst delta. repeat split.
Qed.

Lemma deleteWithRetry_attempts_witness :
  let w' := snd (deleteWithRetry (quick_matchmaking_queue, "uid-a") 10 500
                   (cancel_world contended_script)) in
  Forall fails_contended (trace w') /\
  count is_delete (trace w') = 10%nat /\
  now w' = now (cancel_world contended_script) + 4520.
Proof.
  intros w'.
  assert (Hall : Forall fails_contended (trace w')).
  { apply Forall_fails_contended. vm_compute. reflexivity. }
  split; [exact Hall |].
  destruct (deleteWithRetry_attempts (quick_matchmaking_queue, "uid-a")
              (cancel_world contended_script))
    as (deleted & delta & w1 & Hrun & Ht & _ & _ & _ & _ & _ & _ & Hcontended & _).
  assert (Hw : w1 = w') by (unfold w'; rewrite Hrun; reflexivity).
  subst w1. change (trace w' = delta) in Ht. rewrite <- Ht in Hcontended.
  destruct (Hcontended Hall) as (_ & Hdels & _ & _ & Hnow).
  split; [exact Hdels | exact Hnow].
Defined.
(** A run of the authorization checks that throws: the error, and what it means. *)
Lemma validateAuthAndEmail_rejection context functionName w e w' :
  validateAuthAndEmail context functionName w = (Throws e, w') ->
  (e = app_check_failed \/ e = authentication_required \/
   e = lookup_failed \/ e = email_not_verified) /\
  instanceof_HttpsError e = true /\
  no_store_call w w' /\
  forall u, ~ authorized w context u.
Proof.
  intros H.
  assert (Hno : forall u, ~ authorized w context u).
  { intros u Hauth. rewrite (validateAuthAndEmail_authorized _ _ _ functionName Hauth) in H.
    discriminate H. }
  apply validateAuthAndEmail_throws in H
    as [(-> & _ & ->) | [(-> & _ & _ & ->) | (u & _ & _ & -> & [(-> & _) | (-> & _)])]];
    (split; [tauto|]); (split; [reflexivity|]); (split; [|exact Hno]);
    try apply no_store_call_refl; apply no_store_call_log.
Qed.

(** X7. [cancelQuickMatchHandler] throws only from the authorization checks: one
    of their four errors, for a caller who is not authorized, and before any
    call to a database.  No answer of Firestore makes it throw. *)
Theorem cancelQuickMatchHandler_errors :
  forall (data : option jsobj) (context : Context) (w : World) (e : exn) (w' : World),
    cancelQuickMatchHandler data context w = (Throws e, w') ->
    (e = app_check_failed \/ e = authentication_required \/
     e = lookup_failed \/ e = email_not_verified) /\
    no_store_call w w' /\
    forall u, ~ authorized w context u.
Proof.
  intros data context w e w' H. unfold cancelQuickMatchHandler in H.
  apply guard_throws in H as (e0 & Hbody & ->).
  apply bind_inv in Hbody as [([] & w1 & Hval & Hrest) | (e1 & Hval & He)].
  - exfalso. apply validateAuthAndEmail_returns in Hval as (u & (_ & Hid & _) & ->).
    rewrite (caller_id_context_uid _ _ Hid) in Hrest. unfold bind at 1, ret at 1 in Hrest.
    unfold deleteWithRetry, bind in Hrest.
    destruct (deleteWithRetry_from_returns 10 (quick_matchmaking_queue, u) 1 10 500
                (log (EvGetUser u) w)) as (deleted & w2 & Hdel).
    rewrite Hdel in Hrest. discriminate Hrest.
  - inversion He; subst e1.
    destruct (validateAuthAndEmail_rejection _ _ _ _ _ Hval) as (Herr & -> & Hcalls & Hno).
    auto.
Qed.

Lemma cancelQuickMatchHandler_errors_witness :
  cancelQuickMatchHandler None (caller "uid-c") carol_world
  = (Throws email_not_verified, log (EvGetUser "uid-c") carol_world) /\
  no_store_call carol_world (log (EvGetUser "uid-c") carol_world).
Proof.
  assert (Hrun : cancelQuickMatchHandler None (caller "uid-c") carol_world
                 = (Throws email_not_verified, log (EvGetUser "uid-c") carol_world))
    by reflexivity.
  split; [exact Hrun |].
  exact (proj1 (proj2 (cancelQuickMatchHandler_errors None (caller "uid-c") carol_world
                         email_not_verified (log (EvGetUser "uid-c") carol_world) Hrun))).
Defined.

(** X8. With no other client writing, [cancelQuickMatchHandler] never touches the
    Realtime Database, and in Firestore it leaves everything as it was or
    removes exactly the caller's own queue document. *)
Theorem cancelQuickMatchHandler_store_effect :
  forall (data : option jsobj) (context : Context) (w : World)
         (res : result jsobj) (w' : World),
    quiet w ->
    cancelQuickMatchHandler data context w = (res, w') ->
    rtdb w' = rtdb w /\
    (firestore w' = firestore w \/
     exists u, authorized w context u /\ res = Returns success_response /\
               firestore w' = delete (quick_matchmaking_queue, u) (firestore w)).
Proof.
  intros data context w res w' Hq H. unfold cancelQuickMatchHandler in H.
  apply guard_inv in H as [(a & Hbody & ->) | (e0 & Hbody & ->)].
  - apply bind_inv in Hbody as [([] & w1 & Hval & Hrest) | (e1 & _ & He)]; [|discriminate He].
    apply validateAuthAndEmail_returns in Hval as (u & Hauth & ->).
    pose proof Hauth as (_ & Hid & _).
    rewrite (caller_id_context_uid _ _ Hid) in Hrest. unfold bind at 1, ret at 1 in Hrest.
    apply bind_inv in Hrest as [(deleted & w2 & Hdel & Hret) | (e1 & _ & He)];
      [|discriminate He].
    inversion Hret; subst a w2. unfold deleteWithRetry in Hdel.
    apply deleteWithRetry_from_quiet in Hdel as (_ & Hr & Hf); [|exact Hq].
    cbn [rtdb firestore log] in Hr, Hf. split; [exact Hr|].
    destruct deleted; [right; exists u; auto | left; exact Hf].
  - apply bind_inv in Hbody as [([] & w1 & Hval & Hrest) | (e1 & Hval & He)].
    + exfalso. apply validateAuthAndEmail_returns in Hval as (u & (_ & Hid & _) & ->).
      rewrite (caller_id_context_uid _ _ Hid) in Hrest. unfold bind at 1, ret at 1 in Hrest.
      unfold deleteWithRetry, bind in Hrest.
      destruct (deleteWithRetry_from_returns 10 (quick_matchmaking_queue, u) 1 10 500
                  (log (EvGetUser u) w)) as (deleted & w2 & Hdel).
      rewrite Hdel in Hrest. discriminate Hrest.
    + destruct (validateAuthAndEmail_rejection _ _ _ _ _ Hval)
        as (_ & _ & (Hr & Hf & _) & _). auto.
Qed.

Lemma cancelQuickMatchHandler_store_effect_witness :
  quiet (cancel_world [rejected "aborted" "transaction conflict"]) /\
  let w' := snd (cancelQuickMatchHandler None (caller "uid-a")
                   (cancel_world [rejected "aborted" "transaction conflict"])) in
  rtdb w' = rtdb (cancel_world [rejected "aborted" "transaction conflict"]).
Proof.
  assert (Hq : quiet (cancel_world [rejected "aborted" "transaction conflict"])).
  { repeat constructor. }
  split; [exact Hq |]. intros w'.
  assert (Hrun : cancelQuickMatchHandler None (caller "uid-a")
                   (cancel_world [rejected "aborted" "transaction conflict"])
                 = (Returns success_response, w')) by (vm_compute; reflexivity).
  exact (proj1 (cancelQuickMatchHandler_store_effect _ _ _ _ _ Hq Hrun)).
Defined.

(** The steps of [quickMatchHandler] after the authorization checks. *)
Lemma quickMatchHandler_authorized data context w u :
  authorized w context u ->
  quickMatchHandler data context w
  = guard (let* presenceSnapshot := once (presence, u) in
           if negb (exists_ presenceSnapshot) then throw user_not_online
           else
             let* queueDoc := get (quick_matchmaking_queue, u) in
             if exists_ queueDoc then throw already_waiting
             else
               let* timestamp := getServerTimestamp in
               set (quick_matchmaking_queue, u) (waiting_entry u timestamp) ;;
               ret success_response)
          (log (EvGetUser u) w).
Proof.
  intros Hauth. unfold quickMatchHandler, guard, try_catch.
  unfold bind at 1. rewrite (validateAuthAndEmail_authorized _ _ _ _ Hauth).
  destruct Hauth as (_ & Hid & _). rewrite (caller_id_context_uid _ _ Hid).
  reflexivity.
Qed.

Lemma quickMatchHandler_rejected data context w e w' :
  validateAuthAndEmail context "quickMatch" w = (Throws e, w') ->
  quickMatchHandler data context w = (Throws e, w').
Proof.
  intros H. destruct (validateAuthAndEmail_rejection _ _ _ _ _ H) as (_ & Hhttps & _).
  unfold quickMatchHandler, guard, try_catch, bind. rewrite H.
  destruct e; [reflexivity | discriminate Hhttps].
Qed.

Lemma validateAuthAndEmail_cases context functionName w :
  (exists u, authorized w context u) \/
  (exists e w', validateAuthAndEmail context functionName w = (Throws e, w')).
Proof.
  destruct (validateAuthAndEmail context functionName w) as [[[]|e] w'] eqn:H.
  - left. apply validateAuthAndEmail_returns in H as (u & Hauth & _). eauto.
  - right. eauto.
Qed.

(** X9. The errors of [quickMatchHandler] are the four of the authorization
    checks, "User Not Online", "User Already Waiting to be matched" and
    'internal' "An unexpected error occurred"; nothing else is ever thrown. *)
Theorem quickMatchHandler_errors :
  forall (data : option jsobj) (context : Context) (w : World) (e : exn) (w' : World),
    quickMatchHandler data context w = (Throws e, w') ->
    e = app_check_failed \/ e = authentication_required \/
    e = lookup_failed \/ e = email_not_verified \/
    e = user_not_online \/ e = already_waiting \/ e = unexpected_error.
Proof.
  intros data context w e w' H.
  destruct (validateAuthAndEmail_cases context "quickMatch" w) as [(u & Hauth) | (e0 & w0 & Hval)].
  - rewrite (quickMatchHandler_authorized _ _ _ _ Hauth) in H.
    apply guard_throws in H as (e0 & Hbody & ->).
    apply bind_inv in Hbody as [(presenceSnapshot & w1 & Honce & Hrest) | (e1 & Honce & He)].
    2:{ inversion He; subst e1. unfold once in Honce.
        destruct (arrive _) as [[err|] w1]; inversion Honce; subst. cbn. tauto. }
    destruct (exists_ presenceSnapshot); cbn [negb] in Hrest.
    2:{ inversion Hrest; subst. cbn. tauto. }
    apply bind_inv in Hrest as [(queueDoc & w2 & Hget & Hrest) | (e1 & Hget & He)].
    2:{ inversion He; subst e1. unfold get in Hget.
        destruct (arrive _) as [[err|] w2]; inversion Hget; subst. cbn. tauto. }
    destruct (exists_ queueDoc).
    { inversion Hrest; subst. cbn. tauto. }
    apply bind_inv in Hrest as [(timestamp & w3 & Hts & Hrest) | (e1 & Hts & He)].
    2:{ inversion He; subst e1. unfold getServerTimestamp in Hts.
        destruct (field_value w2); inversion Hts; subst. cbn. tauto. }
    apply bind_inv in Hrest as [([] & w4 & Hset & Hrest) | (e1 & Hset & He)].
    { inversion Hrest. }
    inversion He; subst e1. unfold set in Hset.
    destruct (arrive _) as [[err|] w4]; inversion Hset; subst. cbn. tauto.
  - rewrite (quickMatchHandler_rejected _ _ _ _ _ Hval) in H. inversion H; subst e0 w0.
    destruct (validateAuthAndEmail_rejection _ _ _ _ _ Hval) as (Herr & _). tauto.
Qed.

Lemma quickMatchHandler_errors_witness :
  quickMatchHandler None (caller "uid-a") (world0 [])
  = (Throws user_not_online,
     log (EvStore Rtdb Once (presence, "uid-a") (Snapshot None))
       (set_now 1001 (log (EvGetUser "uid-a") (world0 [])))) /\
  (user_not_online = app_check_failed \/ user_not_online = authentication_required \/
   user_not_online = lookup_failed \/ user_not_online = email_not_verified \/
   user_not_online = user_not_online \/ user_not_online = already_waiting \/
   user_not_online = unexpected_error).
Proof.
  assert (Hrun : quickMatchHandler None (caller "uid-a") (world0 [])
                 = (Throws user_not_online,
                    log (EvStore Rtdb Once (presence, "uid-a") (Snapshot None))
                      (set_now 1001 (log (EvGetUser "uid-a") (world0 [])))))
    by reflexivity.
  split; [exact Hrun |].
  exact (quickMatchHandler_errors None (caller "uid-a") (world0 []) _ _ Hrun).
Defined.

(** X10. With no other client writing, [quickMatchHandler] never writes to the
    Realtime Database; a call that throws leaves Firestore as it was, and a
    call that returns answers [{success: true}] for an authorized caller who is
    online and had no queue document, and adds exactly that caller's queue
    document [{uid, created_at, status: 'waiting'}], stamped with the time of
    the write. *)
Theorem quickMatchHandler_store_effect :
  forall (data : option jsobj) (context : Context) (w : World)
         (res : result jsobj) (w' : World),
    quiet w ->
    quickMatchHandler data context w = (res, w') ->
    rtdb w' = rtdb w /\
    match res with
    | Throws _ => firestore w' = firestore w
    | Returns response =>
        response = success_response /\
        exists u, authorized w context u /\
                  exists_ (rtdb w !! (presence, u)) = true /\
                  firestore w !! (quick_matchmaking_queue, u) = None /\
                  firestore w'
                  = <[(quick_matchmaking_queue, u) := waiting_entry u (JNum (now w'))]>
                      (firestore w)
    end.
Proof.
  intros data context w res w' Hq H.
  destruct (validateAuthAndEmail_cases context "quickMatch" w) as [(u & Hauth) | (e0 & w0 & Hval)].
  2:{ rewrite (quickMatchHandler_rejected _ _ _ _ _ Hval) in H. inversion H; subst res w0.
      destruct (validateAuthAndEmail_rejection _ _ _ _ _ Hval) as (_ & _ & (Hr & Hf & _) & _).
      auto. }
  rewrite (quickMatchHandler_authorized _ _ _ _ Hauth) in H.
  assert (Hq0 : quiet (log (EvGetUser u) w)) by exact Hq.
  set (w0 := log (EvGetUser u) w) in *.
  assert (Hr0 : rtdb w0 = rtdb w) by reflexivity.
  assert (Hf0 : firestore w0 = firestore w) by reflexivity.
  clearbody w0.
  apply guard_inv in H as [(a & Hbody & ->) | (e0 & Hbody & ->)].
  - apply bind_inv in Hbody as [(presenceSnapshot & w1 & Honce & Hrest) | (e1 & _ & He)];
      [|discriminate He].
    destruct (once_quiet _ _ _ _ Hq0 Honce) as (Hq1 & Hr1 & Hf1 & Hv1).
    specialize (Hv1 _ eq_refl).
    destruct (exists_ presenceSnapshot) eqn:Hpres; cbn [negb] in Hrest; [|discriminate Hrest].
    apply bind_inv in Hrest as [(queueDoc & w2 & Hget & Hrest) | (e1 & _ & He)];
      [|discriminate He].
    destruct (get_quiet _ _ _ _ Hq1 Hget) as (Hq2 & Hr2 & Hf2 & Hv2).
    specialize (Hv2 _ eq_refl).
    destruct queueDoc as [entry|]; cbn [exists_] in Hrest; [discriminate Hrest|].
    apply bind_inv in Hrest as [(timestamp & w3 & Hts & Hrest) | (e1 & _ & He)];
      [|discriminate He].
    unfold getServerTimestamp in Hts. destruct (field_value w2); inversion Hts; subst timestamp w3.
    apply bind_inv in Hrest as [([] & w4 & Hset & Hrest) | (e1 & _ & He)]; [|discriminate He].
    inversion Hrest; subst a w4.
    destruct (set_quiet _ _ _ _ _ Hq2 Hset) as (_ & Hr3 & Hf3).
    split; [congruence|]. split; [reflexivity|].
    exists u. split; [exact Hauth|]. split; [congruence|]. split; [congruence|].
    rewrite Hf3, Hf2, Hf1, Hf0. reflexivity.
  - apply bind_inv in Hbody as [(presenceSnapshot & w1 & Honce & Hrest) | (e1 & Honce & He)].
    2:{ destruct (once_quiet _ _ _ _ Hq0 Honce) as (_ & Hr1 & Hf1 & _).
        split; congruence. }
    destruct (once_quiet _ _ _ _ Hq0 Honce) as (Hq1 & Hr1 & Hf1 & _).
    destruct (exists_ presenceSnapshot); cbn [negb] in Hrest.
    2:{ inversion Hrest; subst. split; congruence. }
    apply bind_inv in Hrest as [(queueDoc & w2 & Hget & Hrest) | (e1 & Hget & He)].
    2:{ destruct (get_quiet _ _ _ _ Hq1 Hget) as (_ & Hr2 & Hf2 & _). split; congruence. }
    destruct (get_quiet _ _ _ _ Hq1 Hget) as (Hq2 & Hr2 & Hf2 & _).
    destruct (exists_ queueDoc).
    { inversion Hrest; subst. split; congruence. }
    apply bind_inv in Hrest as [(timestamp & w3 & Hts & Hrest) | (e1 & Hts & He)].
    2:{ unfold getServerTimestamp in Hts. destruct (field_value w2); inversion Hts; subst.
        split; congruence. }
    unfold getServerTimestamp in Hts. destruct (field_value w2); inversion Hts; subst timestamp w3.
    apply bind_inv in Hrest as [([] & w4 & Hset & Hrest) | (e1 & Hset & He)].
    { inversion Hrest. }
    destruct (set_quiet _ _ _ _ _ Hq2 Hset) as (_ & Hr3 & Hf3). split; congruence.
Qed.

Lemma quickMatchHandler_store_effect_witness :
  quiet online_world /\
  let w' := snd (quickMatchHandler None (caller "uid-a") online_world) in
  firestore w'
  = <[(quick_matchmaking_queue, "uid-a") := waiting_entry "uid-a" (JNum (now w'))]>
      (firestore online_world).
Proof.
  assert (Hq : quiet online_world) by constructor.
  split; [exact Hq |]. intros w'.
  assert (Hrun : quickMatchHandler None (caller "uid-a") online_world
                 = (Returns success_response, w')) by (vm_compute; reflexivity).
  destruct (proj2 (quickMatchHandler_store_effect _ _ _ _ _ Hq Hrun))
    as (_ & u & (_ & Hid & _) & _ & _ & Hf).
  inversion Hid; subst u. exact Hf.
Defined.

(** ** The queue when nothing else happens *)

Lemma once_idle r w :
  idle w ->
  once r w = (Returns (rtdb w !! r),
              log (EvStore Rtdb Once r (Snapshot (rtdb w !! r))) (set_now (now w + 1) w)).
Proof. intros H. unfold once. rewrite (arrive_idle _ H). reflexivity. Qed.

Lemma get_idle r w :
  idle w ->
  get r w = (Returns (firestore w !! r),
             log (EvStore Firestore Get r (Snapshot (firestore w !! r))) (set_now (now w + 1) w)).
Proof. intros H. unfold get. rewrite (arrive_idle _ H). reflexivity. Qed.

Lemma set_idle r data w :
  idle w ->
  set r data w = (Returns tt,
                  log (EvStore Firestore Set_ r Done)
                    (set_firestore (<[r := resolve (now w + 1) data]> (firestore w))
                       (set_now (now w + 1) w))).
Proof. intros H. unfold set. rewrite (arrive_idle _ H). reflexivity. Qed.

Lemma delete_doc_idle r w :
  idle w ->
  delete_doc r w = (Returns tt,
                    log (EvStore Firestore Delete r Done)
                      (set_firestore (delete r (firestore w)) (set_now (now w + 1) w))).
Proof. intros H. unfold delete_doc. rewrite (arrive_idle _ H). reflexivity. Qed.

(** An online caller with no queue document joins the queue. *)
Lemma quickMatchHandler_idle data context w u :
  authorized w context u -> idle w -> field_value w = true ->
  exists_ (rtdb w !! (presence, u)) = true ->
  firestore w !! (quick_matchmaking_queue, u) = None ->
  exists w1,
    quickMatchHandler data context w = (Returns success_response, w1) /\
    same_service w w1 /\ rtdb w1 = rtdb w /\
    firestore w1
    = <[(quick_matchmaking_queue, u) := waiting_entry u (JNum (now w + 3))]> (firestore w).
Proof.
  intros Hauth Hidle Hfv Hpres Hqueue.
  rewrite (quickMatchHandler_authorized _ _ _ _ Hauth).
  unfold guard, try_catch. unfold bind at 1. rewrite once_idle by exact Hidle.
  cbn [rtdb log]. rewrite Hpres. cbn [negb].
  unfold bind at 1. rewrite get_idle by exact Hidle.
  cbn [firestore log set_now]. rewrite Hqueue. cbn [exists_].
  unfold bind at 1. unfold getServerTimestamp. cbn [field_value log set_now]. rewrite Hfv.
  unfold bind at 1. rewrite set_idle by exact Hidle.
  eexists. split; [reflexivity|]. cbn.
  split; [repeat split; exact Hidle|]. split; [reflexivity|].
  replace (now w + 1 + 1 + 1) with (now w + 3) by lia. reflexivity.
Qed.

(** An online caller who has a queue document is refused. *)
Lemma quickMatchHandler_idle_waiting data context w u entry :
  authorized w context u -> idle w ->
  exists_ (rtdb w !! (presence, u)) = true ->
  firestore w !! (quick_matchmaking_queue, u) = Some entry ->
  exists w1,
    quickMatchHandler data context w = (Throws already_waiting, w1) /\
    same_service w w1 /\ rtdb w1 = rtdb w /\ firestore w1 = firestore w.
Proof.
  intros Hauth Hidle Hpres Hqueue.
  rewrite (quickMatchHandler_authorized _ _ _ _ Hauth).
  unfold guard, try_catch. unfold bind at 1. rewrite once_idle by exact Hidle.
  cbn [rtdb log]. rewrite Hpres. cbn [negb].
  unfold bind at 1. rewrite get_idle by exact Hidle.
  cbn [firestore log set_now]. rewrite Hqueue. cbn [exists_].
  eexists. split; [reflexivity|]. cbn. repeat split; exact Hidle.
Qed.

(** The caller's queue document is gone after a call of [cancelQuickMatchHandler]. *)
Lemma cancelQuickMatchHandler_idle data context w u :
  authorized w context u -> idle w ->
  exists w1,
    cancelQuickMatchHandler data context w = (Returns success_response, w1) /\
    same_service w w1 /\ rtdb w1 = rtdb w /\
    firestore w1 = delete (quick_matchmaking_queue, u) (firestore w).
Proof.
  intros Hauth Hidle.
  unfold cancelQuickMatchHandler, guard, try_catch. unfold bind at 1.
  rewrite (validateAuthAndEmail_authorized _ _ _ _ Hauth).
  pose proof Hauth as (_ & Hid & _). rewrite (caller_id_context_uid _ _ Hid).
  unfold bind at 1, ret at 1. unfold bind at 1.
  unfold deleteWithRetry. cbn [deleteWithRetry_from Nat.leb].
  unfold try_catch, bind at 1. rewrite get_idle by exact Hidle.
  cbn [firestore log set_now].
  destruct (firestore w !! (quick_matchmaking_queue, u)) as [entry|] eqn:Hqueue; cbn [exists_ negb].
  - unfold bind. rewrite delete_doc_idle by exact Hidle.
    eexists. split; [reflexivity|]. cbn. repeat split; exact Hidle.
  - eexists. split; [reflexivity|]. cbn.
    split; [repeat split; exact Hidle|]. split; [reflexivity|].
    symmetry. apply delete_id. exact Hqueue.
Qed.

Lemma authorized_same_service w w' context u :
  same_service w w' -> authorized w context u -> authorized w' context u.
Proof.
  intros (Hdir & _) (Happ & Hid & Hrec). unfold authorized. rewrite Hdir. auto.
Qed.

(** X11. When nothing else happens, a caller who joins the queue and calls
    [quickMatchHandler] again is refused with 'already-exists' ("User Already
    Waiting to be matched"), and the second call changes neither database. *)
Theorem join_twice_is_refused :
  forall (data data' : option jsobj) (context : Context) (w : World) (u : string),
    authorized w context u -> idle w -> field_value w = true ->
    exists_ (rtdb w !! (presence, u)) = true ->
    firestore w !! (quick_matchmaking_queue, u) = None ->
    exists w1 w2,
      quickMatchHandler data context w = (Returns success_response, w1) /\
      quickMatchHandler data' context w1 = (Throws already_waiting, w2) /\
      rtdb w2 = rtdb w1 /\ firestore w2 = firestore w1.
Proof.
  intros data data' context w u Hauth Hidle Hfv Hpres Hqueue.
  destruct (quickMatchHandler_idle data _ _ _ Hauth Hidle Hfv Hpres Hqueue)
    as (w1 & Hjoin & Hsame & Hr1 & Hf1).
  assert (Hentry : firestore w1 !! (quick_matchmaking_queue, u)
                   = Some (waiting_entry u (JNum (now w + 3)))).
  { rewrite Hf1. apply lookup_insert_eq. }
  assert (Hpres1 : exists_ (rtdb w1 !! (presence, u)) = true) by (rewrite Hr1; exact Hpres).
  destruct (quickMatchHandler_idle_waiting data' _ _ _ _
              (authorized_same_service _ _ _ _ Hsame Hauth) (proj2 (proj2 Hsame)) Hpres1 Hentry)
    as (w2 & Hagain & _ & Hr2 & Hf2).
  exists w1, w2. auto.
Qed.

Lemma join_twice_is_refused_witness :
  authorized online_world (caller "uid-a") "uid-a" /\
  exists w1 w2,
    quickMatchHandler None (caller "uid-a") online_world = (Returns success_response, w1) /\
    quickMatchHandler None (caller "uid-a") w1 = (Throws already_waiting, w2) /\
    rtdb w2 = rtdb w1 /\ firestore w2 = firestore w1.
Proof.
  assert (Hauth : authorized online_world (caller "uid-a") "uid-a").
  { repeat split. exists alice. split; reflexivity. }
  split; [exact Hauth |].
  apply (join_twice_is_refused None None (caller "uid-a") online_world "uid-a" Hauth);
    reflexivity.
Defined.

(** X12. When nothing else happens, joining the queue and then leaving it
    brings both databases back to what they were: [cancelQuickMatchHandler]
    undoes [quickMatchHandler]. *)
Theorem join_then_leave_round_trip :
  forall (data data' : option jsobj) (context : Context) (w : World) (u : string),
    authorized w context u -> idle w -> field_value w = true ->
    exists_ (rtdb w !! (presence, u)) = true ->
    firestore w !! (quick_matchmaking_queue, u) = None ->
    exists w1 w2,
      quickMatchHandler data context w = (Returns success_response, w1) /\
      cancelQuickMatchHandler data' context w1 = (Returns success_response, w2) /\
      rtdb w2 = rtdb w /\ firestore w2 = firestore w.
Proof.
  intros data data' context w u Hauth Hidle Hfv Hpres Hqueue.
  destruct (quickMatchHandler_idle data _ _ _ Hauth Hidle Hfv Hpres Hqueue)
    as (w1 & Hjoin & Hsame & Hr1 & Hf1).
  destruct (cancelQuickMatchHandler_idle data' _ _ _
              (authorized_same_service _ _ _ _ Hsame Hauth) (proj2 (proj2 Hsame)))
    as (w2 & Hleave & _ & Hr2 & Hf2).
  exists w1, w2. split; [exact Hjoin|]. split; [exact Hleave|].
  split; [congruence|]. rewrite Hf2, Hf1. apply delete_insert_id. exact Hqueue.
Qed.

Lemma join_then_leave_round_trip_witness :
  authorized online_world (caller "uid-a") "uid-a" /\
  exists w1 w2,
    quickMatchHandler None (caller "uid-a") online_world = (Returns success_response, w1) /\
    cancelQuickMatchHandler None (caller "uid-a") w1 = (Returns success_response, w2) /\
    rtdb w2 = rtdb online_world /\ firestore w2 = firestore online_world.
Proof.
  assert (Hauth : authorized online_world (caller "uid-a") "uid-a").
  { repeat split. exists alice. split; reflexivity. }
  split; [exact Hauth |].
  apply (join_then_leave_round_trip None None (caller "uid-a") online_world "uid-a" Hauth);
    reflexivity.
Defined.

(** ** What no call changes *)

Lemma settled_refl w : settled w w.
Proof. repeat split; auto. Qed.

Lemma settled_trans w1 w2 w3 : settled w1 w2 -> settled w2 w3 -> settled w1 w3.
Proof.
  intros (Ha & Hs & Hf & Hi & Hq) (Ha' & Hs' & Hf' & Hi' & Hq').
  repeat split; try congruence; auto.
Qed.

Lemma settled_log ev w : settled w (log ev w).
Proof. repeat split; auto. Qed.

Lemma apply_mutations_settled ms :
  forall w, auth_directory (apply_mutations ms w) = auth_directory w /\
            server_value (apply_mutations ms w) = server_value w /\
            field_value (apply_mutations ms w) = field_value w /\
            script (apply_mutations ms w) = script w.
Proof.
  unfold apply_mutations. induction ms as [|m ms IH]; intros w; cbn [fold_left]; [auto|].
  destruct (IH (apply_mutation m w)) as (Ha & Hs & Hf & Hsc).
  rewrite Ha, Hs, Hf, Hsc. destruct m as [[] ? ?|[] ?]; auto.
Qed.

Lemma arrive_settled w f w1 : arrive w = (f, w1) -> settled w w1.
Proof.
  unfold arrive, settled, idle, quiet. destruct (script w) as [|s rest] eqn:Hsc;
    intros H; inversion H; subst; cbn.
  - rewrite Hsc. repeat split; auto.
  - destruct (apply_mutations_settled (interference s) (set_script rest w))
      as (Ha & Hs & Hf & Hsc').
    rewrite Ha, Hs, Hf, Hsc'. cbn. repeat split; auto; try discriminate.
    intros Hq. inversion Hq; assumption.
Qed.

Lemma settles_ret {A} (a : A) : settles (ret a).
Proof. intros w res w' H. inversion H; subst. apply settled_refl. Qed.

Lemma settles_throw {A} e : settles (throw (A := A) e).
Proof. intros w res w' H. inversion H; subst. apply settled_refl. Qed.

Lemma settles_bind {A B} (m : M A) (k : A -> M B) :
  settles m -> (forall a, settles (k a)) -> settles (bind m k).
Proof.
  intros Hm Hk w res w' H.
  apply bind_inv in H as [(a & w1 & H1 & H2) | (e & H1 & _)].
  - eapply settled_trans; [eapply Hm, H1 | eapply Hk, H2].
  - eapply Hm, H1.
Qed.

Lemma settles_try_catch {A} (m : M A) (h : exn -> M A) :
  settles m -> (forall e, settles (h e)) -> settles (try_catch m h).
Proof.
  intros Hm Hh w res w' H.
  apply try_catch_inv in H as [(a & H1 & _) | (e & w1 & H1 & H2)].
  - eapply Hm, H1.
  - eapply settled_trans; [eapply Hm, H1 | eapply Hh, H2].
Qed.

Lemma settles_once r : settles (once r).
Proof.
  intros w res w' H. unfold once in H. destruct (arrive w) as [[e|] w1] eqn:Ha;
    pose proof (arrive_settled _ _ _ Ha) as Hs; inversion H; subst; exact Hs.
Qed.

Lemma settles_get r : settles (get r).
Proof.
  intros w res w' H. unfold get in H. destruct (arrive w) as [[e|] w1] eqn:Ha;
    pose proof (arrive_settled _ _ _ Ha) as Hs; inversion H; subst; exact Hs.
Qed.

Lemma settles_set r data : settles (set r data).
Proof.
  intros w res w' H. unfold set in H. destruct (arrive w) as [[e|] w1] eqn:Ha;
    pose proof (arrive_settled _ _ _ Ha) as Hs; inversion H; subst; exact Hs.
Qed.

Lemma settles_delete_doc r : settles (delete_doc r).
Proof.
  intros w res w' H. unfold delete_doc in H. destruct (arrive w) as [[e|] w1] eqn:Ha;
    pose proof (arrive_settled _ _ _ Ha) as Hs; inversion H; subst; exact Hs.
Qed.

Lemma settles_remove r : settles (remove r).
Proof.
  intros w res w' H. unfold remove in H. destruct (arrive w) as [[e|] w1] eqn:Ha;
    pose proof (arrive_settled _ _ _ Ha) as Hs; inversion H; subst; exact Hs.
Qed.

Lemma settles_transaction r update : settles (transaction r update).
Proof.
  intros w res w' H. unfold transaction in H. destruct (arrive w) as [[e|] w1] eqn:Ha;
    pose proof (arrive_settled _ _ _ Ha) as Hs; [inversion H; subst; exact Hs|].
  destruct (update w1 (rtdb w1 !! r)); inversion H; subst; exact Hs.
Qed.

Lemma settles_runTransaction body : settles (runTransaction body).
Proof.
  intros w res w' H. unfold runTransaction in H. destruct (arrive w) as [[e|] w1] eqn:Ha;
    pose proof (arrive_settled _ _ _ Ha) as Hs; [inversion H; subst; exact Hs|].
  destruct (body (firestore w1) []) as [[[]|e] ws]; inversion H; subst; exact Hs.
Qed.

Lemma settles_sleep ms : settles (sleep ms).
Proof. intros w res w' H. inversion H; subst. repeat split; auto. Qed.

Lemma settles_getServerTimestamp : settles getServerTimestamp.
Proof.
  intros w res w' H. unfold getServerTimestamp in H.
  destruct (field_value w); inversion H; subst; apply settled_refl.
Qed.

Lemma settles_getUserRecord u : settles (getUserRecord u).
Proof.
  intros w res w' H. unfold getUserRecord, try_catch, getUser, throw in H.
  destruct (auth_directory w u); inversion H; subst; apply settled_log.
Qed.

Lemma settles_context_uid context : settles (context_uid context).
Proof.
  unfold context_uid. destruct (auth context) as [[[u|]]|];
    first [apply settles_ret | apply settles_throw].
Qed.

Lemma settles_created_at_of snapshot : settles (created_at_of snapshot).
Proof. destruct snapshot; [apply settles_ret | apply settles_throw]. Qed.

Ltac settle :=
  repeat first
    [ assumption
    | apply settles_ret | apply settles_throw
    | apply settles_once | apply settles_get | apply settles_set | apply settles_delete_doc
    | apply settles_remove | apply settles_transaction | apply settles_runTransaction
    | apply settles_sleep | apply settles_getServerTimestamp | apply settles_getUserRecord
    | apply settles_context_uid | apply settles_created_at_of
    | apply settles_bind; [|intros ?]
    | apply settles_try_catch; [|intros ?]
    | match goal with
      | |- settles (if ?b then _ else _) => destruct b
      | |- settles (match ?x with _ => _ end) => destruct x
      end ].

Lemma settles_guard {A} (m : M A) : settles m -> settles (guard m).
Proof. intros H. unfold guard. settle. Qed.

Lemma settles_validateAuthAndEmail context functionName :
  settles (validateAuthAndEmail context functionName).
Proof. unfold validateAuthAndEmail. settle. Qed.

Lemma settles_deleteWithRetry_from fuel :
  forall docRef attempt maxRetries ms,
    settles (deleteWithRetry_from fuel docRef attempt maxRetries ms).
Proof.
  induction fuel as [|fuel IH]; intros r attempt maxRetries ms; cbn [deleteWithRetry_from];
    [apply settles_ret|].
  specialize (IH r (S attempt) maxRetries ms). settle.
Qed.

Lemma settles_createUsername_from fuel :
  forall usernameRef attempt maxRetries,
    settles (createUsername_from fuel usernameRef attempt maxRetries).
Proof.
  induction fuel as [|fuel IH]; intros r attempt maxRetries; cbn [createUsername_from];
    [apply settles_ret|].
  specialize (IH r (S attempt) maxRetries). settle.
Qed.

Lemma settles_cleanupUsername r : settles (cleanupUsername r).
Proof. unfold cleanupUsername. settle. Qed.

Lemma settles_createUser_from fuel :
  forall userRef usernameRef createdTimestamp username userRecord attempt maxRetries retryDelay,
    settles (createUser_from fuel userRef usernameRef createdTimestamp username userRecord
               attempt maxRetries retryDelay).
Proof.
  induction fuel as [|fuel IH];
    intros userRef usernameRef ts username userRecord attempt maxRetries retryDelay;
    cbn [createUser_from]; [apply settles_ret|].
  specialize (IH userRef usernameRef ts username userRecord (S attempt) maxRetries retryDelay).
  pose proof (settles_cleanupUsername usernameRef). settle.
Qed.

Lemma settles_createBoth_from fuel :
  forall userRef usernameRef uid username userRecord attempt maxRetries retryDelay,
    settles (createBoth_from fuel userRef usernameRef uid username userRecord
               attempt maxRetries retryDelay).
Proof.
  induction fuel as [|fuel IH];
    intros userRef usernameRef uid username userRecord attempt maxRetries retryDelay;
    cbn [createBoth_from]; [apply settles_ret|].
  specialize (IH userRef usernameRef uid username userRecord (S attempt) maxRetries retryDelay).
  settle.
Qed.

Lemma settles_registerUser u userRecord username : settles (registerUser u userRecord username).
Proof.
  unfold registerUser.
  pose proof (settles_createUsername_from 3 (usernames, username) 1 3).
  pose proof (fun ts => settles_createUser_from 3 (users, u) (usernames, username) ts username
                          userRecord 1 3 500).
  pose proof (settles_cleanupUsername (usernames, username)).
  settle.
Qed.

Lemma settles_registerUserDoc u userRecord username :
  settles (registerUserDoc u userRecord username).
Proof.
  unfold registerUserDoc.
  pose proof (settles_createBoth_from 3 (users, u) (usernames, username) u username
                userRecord 1 3 500).
  settle.
Qed.

Lemma settles_createNewUser data context : settles (createNewUser data context).
Proof.
  unfold createNewUser. apply settles_guard.
  pose proof (fun u r n => settles_registerUser u r n). settle.
Qed.

Lemma settles_createNewUserHandler data context : settles (createNewUserHandler data context).
Proof.
  unfold createNewUserHandler. apply settles_guard.
  pose proof (fun u r n => settles_registerUserDoc u r n). settle.
Qed.

(** ** The errors of the two registrations *)

Ltac refused :=
  cbn; split; [reflexivity | split; [reflexivity | split; [reflexivity | auto 10]]].

(** A request passes the checks of [createNewUser], or is refused by them. *)
Lemma createNewUser_cases data context w :
  (exists u userRecord raw,
      valid_request data context w u userRecord (trim raw) /\
      username_of data = Some raw /\
      createNewUser data context w
      = guard (registerUser u userRecord (trim raw)) (log (EvGetUser u) w)) \/
  (exists e w',
      createNewUser data context w = (Throws e, w') /\
      rtdb w' = rtdb w /\ firestore w' = firestore w /\
      (e = authentication_required \/ e = lookup_failed \/ e = email_not_verified \/
       e = username_required \/ e = username_rules_failed)).
Proof.
  destruct (no_uid context) eqn:Hno.
  { right. exists authentication_required, w. unfold createNewUser, guard, try_catch.
    rewrite Hno. refused. }
  destruct (no_uid_caller_id _ Hno) as (u & Hid).
  destruct (auth_directory w u) as [userRecord|e0] eqn:Hdir.
  2:{ right. exists lookup_failed, (log (EvGetUser u) w).
      unfold createNewUser, guard, try_catch, bind.
      rewrite Hno, (caller_id_context_uid _ _ Hid). unfold ret at 1.
      rewrite (getUserRecord_fails _ _ _ Hdir). refused. }
  destruct (emailVerified userRecord) eqn:Hver.
  2:{ right. exists email_not_verified, (log (EvGetUser u) w).
      unfold createNewUser, guard, try_catch, bind.
      rewrite Hno, (caller_id_context_uid _ _ Hid). unfold ret at 1.
      rewrite (getUserRecord_ok _ _ _ Hdir), Hver. refused. }
  destruct (username_of data) as [raw|] eqn:Hraw.
  2:{ right. exists username_required, (log (EvGetUser u) w).
      unfold createNewUser, guard, try_catch, bind.
      rewrite Hno, (caller_id_context_uid _ _ Hid). unfold ret at 1.
      rewrite (getUserRecord_ok _ _ _ Hdir), Hver, Hraw. refused. }
  destruct (usernameRegex_test (trim raw)) eqn:Hre.
  2:{ right. exists username_rules_failed, (log (EvGetUser u) w).
      unfold createNewUser, guard, try_catch, bind.
      rewrite Hno, (caller_id_context_uid _ _ Hid). unfold ret at 1.
      rewrite (getUserRecord_ok _ _ _ Hdir), Hver, Hraw, Hre. refused. }
  left. exists u, userRecord, raw. split; [|split; [reflexivity|]].
  - repeat split; auto. exists raw. auto.
  - apply createNewUser_valid; assumption.
Qed.

(** The same for [createNewUserHandler], whose first check is App Check. *)
Lemma createNewUserHandler_cases data context w :
  (exists u userRecord raw,
      app context = true /\
      valid_request data context w u userRecord (trim raw) /\
      username_of data = Some raw /\
      createNewUserHandler data context w
      = guard (registerUserDoc u userRecord (trim raw)) (log (EvGetUser u) w)) \/
  (exists e w',
      createNewUserHandler data context w = (Throws e, w') /\
      rtdb w' = rtdb w /\ firestore w' = firestore w /\
      (e = app_check_failed \/ e = authentication_required \/ e = lookup_failed \/
       e = email_not_verified \/ e = username_required \/ e = username_rules_failed)).
Proof.
  destruct (app context) eqn:Happ.
  2:{ right. exists app_check_failed, w. unfold createNewUserHandler, guard, try_catch.
      rewrite Happ. refused. }
  destruct (no_uid context) eqn:Hno.
  { right. exists authentication_required, w. unfold createNewUserHandler, guard, try_catch.
    rewrite Happ, Hno. refused. }
  destruct (no_uid_caller_id _ Hno) as (u & Hid).
  destruct (auth_directory w u) as [userRecord|e0] eqn:Hdir.
  2:{ right. exists lookup_failed, (log (EvGetUser u) w).
      unfold createNewUserHandler, guard, try_catch, bind.
      rewrite Happ, Hno, (caller_id_context_uid _ _ Hid). unfold ret at 1. cbn [negb].
      rewrite (getUserRecord_fails _ _ _ Hdir). refused. }
  destruct (emailVerified userRecord) eqn:Hver.
  2:{ right. exists email_not_verified, (log (EvGetUser u) w).
      unfold createNewUserHandler, guard, try_catch, bind.
      rewrite Happ, Hno, (caller_id_context_uid _ _ Hid). unfold ret at 1. cbn [negb].
      rewrite (getUserRecord_ok _ _ _ Hdir), Hver. refused. }
  destruct (username_of data) as [raw|] eqn:Hraw.
  2:{ right. exists username_required, (log (EvGetUser u) w).
      unfold createNewUserHandler, guard, try_catch, bind.
      rewrite Happ, Hno, (caller_id_context_uid _ _ Hid). unfold ret at 1. cbn [negb].
      rewrite (getUserRecord_ok _ _ _ Hdir), Hver, Hraw. refused. }
  destruct (usernameRegex_test (trim raw)) eqn:Hre.
  2:{ right. exists username_rules_failed, (log (EvGetUser u) w).
      unfold createNewUserHandler, guard, try_catch, bind.
      rewrite Happ, Hno, (caller_id_context_uid _ _ Hid). unfold ret at 1. cbn [negb].
      rewrite (getUserRecord_ok _ _ _ Hdir), Hver, Hraw, Hre. refused. }
  left. exists u, userRecord, raw. split; [reflexivity|]. split; [|split; [reflexivity|]].
  - repeat split; auto. exists raw. auto.
  - apply createNewUserHandler_valid; assumption.
Qed.

Lemma once_throws r w e w' : once r w = (Throws e, w') -> instanceof_HttpsError e = false.
Proof.
  unfold once. destruct (arrive w) as [[err|] w1]; intros H; inversion H; reflexivity.
Qed.

Lemma get_throws r w e w' : get r w = (Throws e, w') -> instanceof_HttpsError e = false.
Proof.
  unfold get. destruct (arrive w) as [[err|] w1]; intros H; inversion H; reflexivity.
Qed.

Lemma cleanupUsername_returns r w : exists w', cleanupUsername r w = (Returns tt, w').
Proof.
  unfold cleanupUsername, try_catch, remove, ret.
  destruct (arrive w) as [[err|] w1]; eexists; reflexivity.
Qed.

(** The errors of steps 4 to 8 of the Realtime Database version. *)
Lemma registerUser_throws u userRecord username w e w' :
  registerUser u userRecord username w = (Throws e, w') ->
  e = user_already_exists \/ e = already_taken \/ e = something_is_wrong \/
  e = something_is_Wrong \/ instanceof_HttpsError e = false.
Proof.
  unfold registerUser. intros H.
  apply bind_inv in H as [(userSnapshot & w1 & H1 & H) | (e1 & H1 & He)].
  2:{ inversion He; subst e1. apply once_throws in H1. auto 6. }
  destruct (exists_ userSnapshot); [inversion H; auto|].
  apply bind_inv in H as [(usernameSnapshot & w2 & H2 & H) | (e1 & H2 & He)].
  2:{ inversion He; subst e1. apply once_throws in H2. auto 6. }
  destruct (exists_ usernameSnapshot); [inversion H; auto|].
  destruct (createUsername_from_reservation 3 (usernames, username) 1 3 w2 eq_refl
              (le_S _ _ (le_S _ _ (le_n 1))))
    as (res & delta & w3 & Hrun & _ & _ & Hres & Hcommit & _).
  apply bind_inv in H as [(created & w3' & H3 & H) | (e1 & H3 & He)].
  2:{ inversion He; subst e1. rewrite H3 in Hrun. inversion Hrun; subst res w3.
      destruct (reservation_throws _ _ _ _ _ Hres e eq_refl); auto. }
  rewrite H3 in Hrun. inversion Hrun; subst res w3'. clear Hrun.
  destruct (Hcommit created eq_refl) as (t & -> & _).
  destruct (createUser_from_outcome 3 u username t userRecord 1 3 500 w3 eq_refl
              (le_S _ _ (le_S _ _ (le_n 1))))
    as (res & delta' & w4 & Hrun & _ & [(-> & _) | (-> & _)]).
  - apply bind_inv in H as [(userCreated & w4' & H4 & H) | (e1 & H4 & He)].
    + rewrite H4 in Hrun. inversion Hrun; subst userCreated w4'. discriminate H.
    + rewrite H4 in Hrun. discriminate Hrun.
  - apply bind_inv in H as [(userCreated & w4' & H4 & H) | (e1 & H4 & He)].
    + rewrite H4 in Hrun. discriminate Hrun.
    + rewrite H4 in Hrun. inversion Hrun; subst. inversion He; auto.
Qed.

Lemma creation_throws u username userRecord maxRetries ms attempt delta res :
  creation u username userRecord maxRetries ms attempt delta res ->
  forall e, res = Throws e -> e = taken_in_transaction username \/ e = something_is_wrong.
Proof.
  induction 1 as [attempt t | attempt | attempt evs Hmax Hev
                 | attempt evs rest res Hlt Hev Hrest IH]; intros e He.
  - discriminate He.
  - left. congruence.
  - right. congruence.
  - apply IH, He.
Qed.

(** The errors of steps 5 and 6 of the Firestore version. *)
Lemma registerUserDoc_throws u userRecord username w e w' :
  registerUserDoc u userRecord username w = (Throws e, w') ->
  e = user_already_exists \/ e = taken_in_transaction username \/ e = something_is_wrong \/
  instanceof_HttpsError e = false.
Proof.
  unfold registerUserDoc. intros H.
  apply bind_inv in H as [(userDoc & w1 & H1 & H) | (e1 & H1 & He)].
  2:{ inversion He; subst e1. apply get_throws in H1. auto. }
  destruct (exists_ userDoc); [inversion H; auto|].
  destruct (createBoth_from_creation 3 u username userRecord 1 3 500 w1 eq_refl
              (le_S _ _ (le_S _ _ (le_n 1))))
    as (res & delta & w2 & Hrun & _ & Hres & Hcommit).
  apply bind_inv in H as [(userCreated & w2' & H2 & H) | (e1 & H2 & He)].
  - rewrite H2 in Hrun. inversion Hrun; subst res w2'.
    destruct (Hcommit userCreated eq_refl) as (-> & _). discriminate H.
  - inversion He; subst e1. rewrite H2 in Hrun. inversion Hrun; subst res w2.
    destruct (creation_throws _ _ _ _ _ _ _ _ Hres e eq_refl); auto.
Qed.

(** X13. The errors of [createNewUser] over the Realtime Database are these
    ten and no other: 'unauthenticated', the failed lookup, the unverified
    email, the two 'invalid-argument' errors, "user already exists", "username
    already taken", "Something is wrong" (step 6), "Something is Wrong"
    (step 7) and "An unexpected error occurred". *)
Theorem createNewUser_errors :
  forall (data : option jsobj) (context : Context) (w : World) (e : exn) (w' : World),
    createNewUser data context w = (Throws e, w') ->
    In e [authentication_required; lookup_failed; email_not_verified;
          username_required; username_rules_failed;
          user_already_exists; already_taken; something_is_wrong; something_is_Wrong;
          unexpected_error].
Proof.
  intros data context w e w' H.
  destruct (createNewUser_cases data context w)
    as [(u & userRecord & raw & _ & _ & Hrun) | (e0 & w0 & Hrun & _ & _ & He)].
  - rewrite Hrun in H. apply guard_throws in H as (e0 & Hbody & ->).
    apply registerUser_throws in Hbody as [-> | [-> | [-> | [-> | ->]]]]; cbn; auto 11.
  - rewrite Hrun in H. inversion H; subst e0 w0.
    destruct He as [-> | [-> | [-> | [-> | ->]]]]; cbn; auto 11.
Qed.

Lemma createNewUser_errors_witness :
  createNewUser (input "ab") (caller "uid-a") (world0 [])
  = (Throws username_rules_failed, log (EvGetUser "uid-a") (world0 [])) /\
  In username_rules_failed
     [authentication_required; lookup_failed; email_not_verified;
      username_required; username_rules_failed;
      user_already_exists; already_taken; something_is_wrong; something_is_Wrong;
      unexpected_error].
Proof.
  assert (Hrun : createNewUser (input "ab") (caller "uid-a") (world0 [])
                 = (Throws username_rules_failed, log (EvGetUser "uid-a") (world0 [])))
    by reflexivity.
  split; [exact Hrun |].
  exact (createNewUser_errors _ _ _ _ _ Hrun).
Defined.

(** X14. The errors of [createNewUserHandler] over Firestore are these ten and
    no other: the App Check failure, 'unauthenticated', the failed lookup, the
    unverified email, the two 'invalid-argument' errors, "user already exists",
    "username <name> already taken" with the trimmed name of the request,
    "Something is wrong" and "An unexpected error occurred". *)
Theorem createNewUserHandler_errors :
  forall (data : option jsobj) (context : Context) (w : World) (e : exn) (w' : World),
    createNewUserHandler data context w = (Throws e, w') ->
    In e [app_check_failed; authentication_required; lookup_failed; email_not_verified;
          username_required; username_rules_failed;
          user_already_exists; something_is_wrong; unexpected_error] \/
    exists raw, username_of data = Some raw /\ e = taken_in_transaction (trim raw).
Proof.
  intros data context w e w' H.
  destruct (createNewUserHandler_cases data context w)
    as [(u & userRecord & raw & _ & _ & Hraw & Hrun) | (e0 & w0 & Hrun & _ & _ & He)].
  - rewrite Hrun in H. apply guard_throws in H as (e0 & Hbody & ->).
    apply registerUserDoc_throws in Hbody as [-> | [-> | [-> | ->]]];
      try (left; cbn; auto 11; fail).
    right. exists raw. auto.
  - rewrite Hrun in H. inversion H; subst e0 w0. left.
    destruct He as [-> | [-> | [-> | [-> | [-> | ->]]]]]; cbn; auto 11.
Qed.

Lemma createNewUserHandler_errors_witness :
  createNewUserHandler None (caller "uid-a") (world0 [])
  = (Throws username_required, log (EvGetUser "uid-a") (world0 [])) /\
  (In username_required
      [app_check_failed; authentication_required; lookup_failed; email_not_verified;
       username_required; username_rules_failed;
       user_already_exists; something_is_wrong; unexpected_error] \/
   exists raw, username_of None = Some raw /\ username_required = taken_in_transaction (trim raw)).
Proof.
  assert (Hrun : createNewUserHandler None (caller "uid-a") (world0 [])
                 = (Throws username_required, log (EvGetUser "uid-a") (world0 [])))
    by reflexivity.
  split; [exact Hrun |].
  exact (createNewUserHandler_errors _ _ _ _ _ Hrun).
Defined.

(** ** Registration over the Realtime Database when no other client writes *)

Lemma remove_quiet r w res w1 :
  quiet w -> remove r w = (res, w1) ->
  firestore w1 = firestore w /\
  rtdb w1 = match res with
            | Returns _ => delete r (rtdb w)
            | Throws _ => rtdb w
            end.
Proof.
  unfold remove. intros Hq. destruct (arrive w) as [[e|] w0] eqn:Ha;
    destruct (arrive_quiet _ _ _ Hq Ha) as (Hq0 & Hr & Hf); intros H; inversion H; subst;
    split; auto.
  cbn [rtdb log set_rtdb]. rewrite Hr. reflexivity.
Qed.

Lemma transaction_quiet r update w res w1 :
  quiet w -> transaction r update w = (res, w1) ->
  firestore w1 = firestore w /\
  match res with
  | Throws e => rtdb w1 = rtdb w /\ instanceof_HttpsError e = false
  | Returns tx =>
      exists w0,
        match update w0 (rtdb w !! r) with
        | None => tx = mkTx false (rtdb w !! r) /\ rtdb w1 = rtdb w
        | Some v => tx = mkTx true (Some (resolve (now w1) v)) /\
                    rtdb w1 = <[r := resolve (now w1) v]> (rtdb w)
        end
  end.
Proof.
  unfold transaction. intros Hq. destruct (arrive w) as [[e|] w0] eqn:Ha;
    destruct (arrive_quiet _ _ _ Hq Ha) as (Hq0 & Hr & Hf); intros H.
  - inversion H; subst. auto.
  - rewrite Hr in H. destruct (update w0 (rtdb w !! r)) as [v|] eqn:Hup;
      inversion H; subst; (split; [exact Hf|]); exists w0; rewrite Hup; cbn; auto.
Qed.

Lemma cleanupUsername_quiet r w res w1 :
  quiet w -> cleanupUsername r w = (res, w1) ->
  res = Returns tt /\ firestore w1 = firestore w /\
  (rtdb w1 = delete r (rtdb w) \/ rtdb w1 = rtdb w).
Proof.
  unfold cleanupUsername. intros Hq H.
  apply try_catch_inv in H as [([] & H & ->) | (e & w0 & H & Hret)].
  - destruct (remove_quiet _ _ _ _ Hq H) as (Hf & Hr). auto.
  - destruct (remove_quiet _ _ _ _ Hq H) as (Hf & Hr). inversion Hret; subst. auto.
Qed.

(** Step 6 on a free username: the reservation is made, or nothing is written. *)
Lemma createUsername_from_quiet fuel :
  forall usernameRef attempt maxRetries w res w',
    quiet w -> rtdb w !! usernameRef = None ->
    createUsername_from fuel usernameRef attempt maxRetries w = (res, w') ->
    firestore w' = firestore w /\
    match res with
    | Returns (Some timestamp) =>
        exists t, timestamp = JNum t /\
                  rtdb w' = <[usernameRef := [("created_at", JNum t)]]> (rtdb w)
    | Returns None => rtdb w' = rtdb w
    | Throws e => rtdb w' = rtdb w
    end.
Proof.
  induction fuel as [|fuel IH]; intros r attempt maxRetries w res w' Hq Hfree Hrun;
    cbn [createUsername_from] in Hrun.
  - inversion Hrun; subst. auto.
  - destruct (attempt <=? maxRetries)%nat; [|inversion Hrun; subst; auto].
    apply try_catch_inv in Hrun as [(a & Hbody & ->) | (e & w1 & Hbody & Hhandler)].
    + apply bind_inv in Hbody as [([] & w1 & Hread & Hbody) | (e & _ & He)];
        [|discriminate He].
      assert (Hw1 : quiet w1 /\ rtdb w1 = rtdb w /\ firestore w1 = firestore w).
      { destruct (1 <? attempt)%nat; [|inversion Hread; subst; auto].
        apply bind_inv in Hread as [(s & w0 & Honce & Hrest) | (e & _ & He)];
          [|discriminate He].
        destruct (once_quiet _ _ _ _ Hq Honce) as (Hq0 & Hr0 & Hf0 & _).
        destruct (exists_ s); inversion Hrest; subst. auto. }
      destruct Hw1 as (Hq1 & Hr1 & Hf1).
      apply bind_inv in Hbody as [(tx & w2 & Htx & Hbody) | (e & _ & He)]; [|discriminate He].
      destruct (transaction_quiet _ _ _ _ _ Hq1 Htx) as (Hf2 & w0 & Hup).
      rewrite Hr1, Hfree in Hup. cbn [usernameUpdate] in Hup. destruct Hup as (-> & Hr2).
      cbn [committed snapshot created_at_of] in Hbody. unfold bind, ret in Hbody.
      destruct (server_value w0); cbn in Hbody, Hr2; inversion Hbody; subst;
        (split; [congruence|]); eexists; (split; [reflexivity|]); exact Hr2.
    + assert (Hw1 : quiet w1 /\ rtdb w1 = rtdb w /\ firestore w1 = firestore w).
      { apply bind_inv in Hbody as [([] & w0 & Hread & Hbody) | (e0 & Hread & He)].
        - assert (Hw0 : quiet w0 /\ rtdb w0 = rtdb w /\ firestore w0 = firestore w).
          { destruct (1 <? attempt)%nat; [|inversion Hread; subst; auto].
            apply bind_inv in Hread as [(s & w00 & Honce & Hrest) | (e0 & _ & He)];
              [|discriminate He].
            destruct (once_quiet _ _ _ _ Hq Honce) as (Hq0 & Hr0 & Hf0 & _).
            destruct (exists_ s); inversion Hrest; subst. auto. }
          destruct Hw0 as (Hq0 & Hr0 & Hf0).
          apply bind_inv in Hbody as [(tx & w2 & Htx & Hbody) | (e0 & Htx & He)].
          + destruct (transaction_quiet _ _ _ _ _ Hq0 Htx) as (Hf2 & w00 & Hup).
            rewrite Hr0, Hfree in Hup. cbn [usernameUpdate] in Hup. destruct Hup as (-> & Hr2).
            cbn [committed snapshot created_at_of] in Hbody. discriminate Hbody.
          + destruct (transaction_quiet _ _ _ _ _ Hq0 Htx) as (Hf2 & Hr2 & _).
            pose proof (settles_transaction _ _ _ _ _ Htx) as (_ & _ & _ & _ & Hq2).
            split; [auto|]. split; congruence.
        - destruct (1 <? attempt)%nat; [|discriminate Hread].
          apply bind_inv in Hread as [(s & w00 & Honce & Hrest) | (e1 & Honce & He1)].
          + destruct (once_quiet _ _ _ _ Hq Honce) as (Hq0 & Hr0 & Hf0 & _).
            destruct (exists_ s); inversion Hrest; subst. auto.
          + destruct (once_quiet _ _ _ _ Hq Honce) as (Hq0 & Hr0 & Hf0 & _). auto. }
      destruct Hw1 as (Hq1 & Hr1 & Hf1).
      destruct (instanceof_HttpsError e).
      { inversion Hhandler; subst. auto. }
      destruct (attempt =? maxRetries)%nat.
      { inversion Hhandler; subst. auto. }
      apply IH in Hhandler; [|exact Hq1|congruence].
      destruct Hhandler as (Hf & Hres). split; [congruence|].
      destruct res as [[ts|]|e']; [|congruence..].
      destruct Hres as (t & -> & Hr). exists t. split; [reflexivity|]. congruence.
Qed.

(** Step 7 when the caller has no record: the record is written, or step 8 runs. *)
Lemma createUser_from_quiet fuel :
  forall u usernameRef t username userRecord attempt maxRetries retryDelay w res w',
    quiet w -> rtdb w !! (users, u) = None ->
    createUser_from fuel (users, u) usernameRef (JNum t) username userRecord
                    attempt maxRetries retryDelay w = (res, w') ->
    firestore w' = firestore w /\
    match res with
    | Returns true => rtdb w' = <[(users, u) := user_doc t username userRecord]> (rtdb w)
    | Returns false => rtdb w' = rtdb w
    | Throws e => e = something_is_Wrong /\
                  (rtdb w' = delete usernameRef (rtdb w) \/ rtdb w' = rtdb w)
    end.
Proof.
  induction fuel as [|fuel IH];
    intros u usernameRef t username userRecord attempt maxRetries retryDelay w res w'
           Hq Hfree Hrun; cbn [createUser_from] in Hrun.
  - inversion Hrun; subst. auto.
  - destruct (attempt <=? maxRetries)%nat; [|inversion Hrun; subst; auto].
    assert (Hwait : forall r0 w1,
               (if (1 <? attempt)%nat then sleep retryDelay else ret tt) w = (r0, w1) ->
               r0 = Returns tt /\ quiet w1 /\ rtdb w1 = rtdb w /\ firestore w1 = firestore w).
    { intros r0 w1 Hw. destruct (1 <? attempt)%nat; inversion Hw; subst; auto. }
    apply try_catch_inv in Hrun as [(a & Hbody & ->) | (e & w1 & Hbody & Hhandler)].
    + apply bind_inv in Hbody as [([] & w1 & Hw & Hbody) | (e & _ & He)]; [|discriminate He].
      destruct (Hwait _ _ Hw) as (_ & Hq1 & Hr1 & Hf1).
      apply bind_inv in Hbody as [(tx & w2 & Htx & Hbody) | (e & _ & He)]; [|discriminate He].
      destruct (transaction_quiet _ _ _ _ _ Hq1 Htx) as (Hf2 & w0 & Hup).
      rewrite Hr1, Hfree in Hup. cbn [userUpdate] in Hup. destruct Hup as (-> & Hr2).
      cbn [committed] in Hbody. inversion Hbody; subst. split; [congruence|].
      exact Hr2.
    + assert (Hw1 : quiet w1 /\ rtdb w1 = rtdb w /\ firestore w1 = firestore w).
      { apply bind_inv in Hbody as [([] & w0 & Hw & Hbody) | (e0 & Hw & He)].
        - destruct (Hwait _ _ Hw) as (_ & Hq0 & Hr0 & Hf0).
          apply bind_inv in Hbody as [(tx & w2 & Htx & Hbody) | (e0 & Htx & He)].
          + destruct (transaction_quiet _ _ _ _ _ Hq0 Htx) as (Hf2 & w00 & Hup).
            rewrite Hr0, Hfree in Hup. cbn [userUpdate] in Hup. destruct Hup as (-> & Hr2).
            cbn [committed] in Hbody. discriminate Hbody.
          + destruct (transaction_quiet _ _ _ _ _ Hq0 Htx) as (Hf2 & Hr2 & _).
            pose proof (settles_transaction _ _ _ _ _ Htx) as (_ & _ & _ & _ & Hq2).
            split; [auto|]. split; congruence.
        - destruct (Hwait _ _ Hw) as (Habs & _). discriminate Habs. }
      destruct Hw1 as (Hq1 & Hr1 & Hf1).
      destruct (attempt =? maxRetries)%nat.
      * apply bind_inv in Hhandler as [([] & w2 & Hclean & Hthrow) | (e0 & Hclean & _)].
        -- destruct (cleanupUsername_quiet _ _ _ _ Hq1 Hclean) as (_ & Hf2 & Hr2).
           inversion Hthrow; subst. split; [congruence|]. split; [reflexivity|].
           rewrite <- Hr1. exact Hr2.
        -- destruct (cleanupUsername_quiet _ _ _ _ Hq1 Hclean) as (Habs & _). discriminate Habs.
      * apply IH in Hhandler; [|exact Hq1|congruence].
        destruct Hhandler as (Hf & Hres). split; [congruence|].
        rewrite <- Hr1. exact Hres.
Qed.

(** Steps 4 to 8: both records are written where neither was, or the database
    is as it was, but for a reservation that step 8 could not remove. *)
Lemma registerUser_quiet u userRecord username w res w' :
  quiet w -> registerUser u userRecord username w = (res, w') ->
  firestore w' = firestore w /\
  match res with
  | Returns response =>
      response = registered username u /\
      rtdb w !! (users, u) = None /\ rtdb w !! (usernames, username) = None /\
      exists t, rtdb w' = <[(users, u) := user_doc t username userRecord]>
                            (<[(usernames, username) := [("created_at", JNum t)]]> (rtdb w))
  | Throws e =>
      rtdb w' = rtdb w \/
      (e = something_is_Wrong /\
       rtdb w !! (users, u) = None /\ rtdb w !! (usernames, username) = None /\
       exists t, rtdb w' = <[(usernames, username) := [("created_at", JNum t)]]> (rtdb w))
  end.
Proof.
  intros Hq H. unfold registerUser in H.
  apply bind_inv in H as [(userSnapshot & w1 & H1 & H) | (e1 & H1 & ->)].
  2:{ destruct (once_quiet _ _ _ _ Hq H1) as (_ & Hr1 & Hf1 & _). auto. }
  destruct (once_quiet _ _ _ _ Hq H1) as (Hq1 & Hr1 & Hf1 & Hv1). specialize (Hv1 _ eq_refl).
  destruct userSnapshot as [existing|]; cbn [exists_] in H.
  { inversion H; subst. auto. }
  apply bind_inv in H as [(usernameSnapshot & w2 & H2 & H) | (e1 & H2 & ->)].
  2:{ destruct (once_quiet _ _ _ _ Hq1 H2) as (_ & Hr2 & Hf2 & _). split; [|left]; congruence. }
  destruct (once_quiet _ _ _ _ Hq1 H2) as (Hq2 & Hr2 & Hf2 & Hv2). specialize (Hv2 _ eq_refl).
  destruct usernameSnapshot as [existing|]; cbn [exists_] in H.
  { inversion H; subst. split; [|left]; congruence. }
  assert (Huser : rtdb w !! (users, u) = None) by congruence.
  assert (Hname : rtdb w !! (usernames, username) = None) by congruence.
  assert (Hname2 : rtdb w2 !! (usernames, username) = None) by congruence.
  apply bind_inv in H as [(created & w3 & H3 & H) | (e1 & H3 & ->)].
  2:{ destruct (createUsername_from_quiet _ _ _ _ _ _ _ Hq2 Hname2 H3) as (Hf3 & Hr3).
      split; [|left]; congruence. }
  destruct (createUsername_from_quiet _ _ _ _ _ _ _ Hq2 Hname2 H3) as (Hf3 & Hr3).
  pose proof (settles_createUsername_from _ _ _ _ _ _ _ H3) as (_ & _ & _ & _ & Hq3).
  specialize (Hq3 Hq2).
  destruct created as [timestamp|].
  2:{ inversion H; subst. split; [|left]; congruence. }
  destruct Hr3 as (t & -> & Hr3).
  assert (Hr3' : rtdb w3 = <[(usernames, username) := [("created_at", JNum t)]]> (rtdb w))
    by congruence.
  assert (Huser3 : rtdb w3 !! (users, u) = None).
  { rewrite Hr3'. rewrite lookup_insert_ne by discriminate. exact Huser. }
  assert (Hundo : delete (usernames, username) (rtdb w3) = rtdb w).
  { rewrite Hr3'. apply delete_insert_id. exact Hname. }
  apply bind_inv in H as [(userCreated & w4 & H4 & H) | (e1 & H4 & ->)].
  2:{ destruct (createUser_from_quiet _ _ _ _ _ _ _ _ _ _ _ _ Hq3 Huser3 H4)
        as (Hf4 & -> & [Hr4 | Hr4]).
      - split; [|left]; congruence.
      - split; [congruence|]. right. split; [reflexivity|]. split; [exact Huser|].
        split; [exact Hname|]. exists t. congruence. }
  destruct (createUser_from_quiet _ _ _ _ _ _ _ _ _ _ _ _ Hq3 Huser3 H4) as (Hf4 & Hr4).
  pose proof (settles_createUser_from _ _ _ _ _ _ _ _ _ _ _ _ H4) as (_ & _ & _ & _ & Hq4).
  specialize (Hq4 Hq3).
  destruct userCreated; cbn [negb] in H.
  - inversion H; subst. split; [congruence|]. split; [reflexivity|].
    split; [exact Huser|]. split; [exact Hname|]. exists t. congruence.
  - apply bind_inv in H as [([] & w5 & Hclean & Hthrow) | (e0 & Hclean & _)].
    + destruct (cleanupUsername_quiet _ _ _ _ Hq4 Hclean) as (_ & Hf5 & Hr5).
      inversion Hthrow; subst. split; [congruence|].
      destruct Hr5 as [Hr5 | Hr5].
      * left. congruence.
      * right. split; [reflexivity|]. split; [exact Huser|]. split; [exact Hname|].
        exists t. congruence.
    + destruct (cleanupUsername_quiet _ _ _ _ Hq4 Hclean) as (Habs & _). discriminate Habs.
Qed.

(** X15. With no other client writing, [createNewUser] never touches
    Firestore.  A call that returns has written exactly two records of the
    Realtime Database, the reservation [usernames/{username}] and the profile
    [users/{uid}], both absent before and both stamped with the same time.  A
    call that throws leaves the database as it was, with one exception: after
    "Something is Wrong" the reservation may stay behind, and nothing else. *)
Theorem createNewUser_store_effect :
  forall (data : option jsobj) (context : Context) (w : World)
         (res : result jsobj) (w' : World),
    quiet w ->
    createNewUser data context w = (res, w') ->
    firestore w' = firestore w /\
    match res with
    | Returns response =>
        exists u userRecord username t,
          valid_request data context w u userRecord username /\
          response = registered username u /\
          rtdb w !! (users, u) = None /\ rtdb w !! (usernames, username) = None /\
          rtdb w' = <[(users, u) := user_doc t username userRecord]>
                      (<[(usernames, username) := [("created_at", JNum t)]]> (rtdb w))
    | Throws e =>
        rtdb w' = rtdb w \/
        (e = something_is_Wrong /\
         exists u userRecord username t,
           valid_request data context w u userRecord username /\
           rtdb w !! (usernames, username) = None /\
           rtdb w' = <[(usernames, username) := [("created_at", JNum t)]]> (rtdb w))
    end.
Proof.
  intros data context w res w' Hq H.
  destruct (createNewUser_cases data context w)
    as [(u & userRecord & raw & Hvalid & _ & Hrun) | (e0 & w0 & Hrun & Hr & Hf & _)].
  2:{ rewrite Hrun in H. inversion H; subst res w0. auto. }
  rewrite Hrun in H.
  apply guard_inv in H as [(response & Hbody & ->) | (e0 & Hbody & ->)].
  - destruct (registerUser_quiet _ _ _ (log (EvGetUser u) w) _ _ Hq Hbody)
      as (Hf & -> & Huser & Hname & t & Hr).
    split; [exact Hf|]. exists u, userRecord, (trim raw), t. auto.
  - destruct (registerUser_quiet _ _ _ (log (EvGetUser u) w) _ _ Hq Hbody)
      as (Hf & [Hr | (-> & Huser & Hname & t & Hr)]).
    + split; [exact Hf|]. left. exact Hr.
    + split; [exact Hf|]. right. split; [reflexivity|].
      exists u, userRecord, (trim raw), t. auto.
Qed.

Lemma valid_alice w name :
  auth_directory w = directory -> usernameRegex_test name = true -> trim name = name ->
  valid_request (input name) (caller "uid-a") w "uid-a" alice name.
Proof.
  intros Hdir Hre Htrim. split; [reflexivity|]. split; [rewrite Hdir; reflexivity|].
  split; [reflexivity|]. exists name. rewrite Htrim. auto.
Qed.

Lemma createNewUser_store_effect_witness :
  quiet (world0 []) /\
  let w' := snd (createNewUser (input "testuser123") (caller "uid-a") (world0 [])) in
  firestore w' = firestore (world0 []).
Proof.
  assert (Hq : quiet (world0 [])) by constructor.
  split; [exact Hq |]. intros w'.
  assert (Hrun : createNewUser (input "testuser123") (caller "uid-a") (world0 [])
                 = (Returns (registered "testuser123" "uid-a"), w'))
    by (vm_compute; reflexivity).
  exact (proj1 (createNewUser_store_effect _ _ _ _ _ Hq Hrun)).
Defined.

(** ** Registration over the Realtime Database when nothing else happens *)

Lemma createNewUser_existing_user data context w u userRecord username existing :
  valid_request data context w u userRecord username ->
  idle w ->
  rtdb w !! (users, u) = Some existing ->
  exists w',
    createNewUser data context w = (Throws user_already_exists, w') /\
    trace w' = trace w ++ [EvGetUser u; EvStore Rtdb Once (users, u) (Snapshot (Some existing))] /\
    rtdb w' = rtdb w /\ firestore w' = firestore w.
Proof.
  intros (Hid & Hdir & Hver & raw & Hraw & -> & Hre) Hidle Huser.
  rewrite (createNewUser_valid _ _ _ _ _ _ Hid Hdir Hver Hraw Hre).
  unfold guard, registerUser. rewrite try_catch_bind.
  rewrite once_idle by exact Hidle. cbn [rtdb set_now log]. rewrite Huser. cbn [exists_].
  eexists. split; [reflexivity|]. cbn. rewrite <- app_assoc. auto.
Qed.

Lemma createNewUser_taken_username data context w u userRecord username existing :
  valid_request data context w u userRecord username ->
  idle w ->
  rtdb w !! (users, u) = None ->
  rtdb w !! (usernames, username) = Some existing ->
  exists w',
    createNewUser data context w = (Throws already_taken, w') /\
    trace w' = trace w ++ [EvGetUser u;
                           EvStore Rtdb Once (users, u) (Snapshot None);
                           EvStore Rtdb Once (usernames, username) (Snapshot (Some existing))] /\
    rtdb w' = rtdb w /\ firestore w' = firestore w.
Proof.
  intros (Hid & Hdir & Hver & raw & Hraw & -> & Hre) Hidle Huser Hname.
  rewrite (createNewUser_valid _ _ _ _ _ _ Hid Hdir Hver Hraw Hre).
  unfold guard, registerUser. rewrite try_catch_bind.
  rewrite once_idle by exact Hidle. cbn [rtdb set_now log]. rewrite Huser. cbn [exists_].
  rewrite try_catch_bind.
  rewrite once_idle by exact Hidle. cbn [rtdb set_now log]. rewrite Hname. cbn [exists_].
  eexists. split; [reflexivity|]. cbn. rewrite <- !app_assoc. auto.
Qed.

(** X16. When nothing else happens, [createNewUser] refuses a valid request of
    a caller who has a record with "user already exists" after reading only
    [users/{uid}], whether the username is free or not; and it refuses a
    username that is reserved with "username already taken" after the two
    reads, without a transaction.  Neither refusal writes anything. *)
Theorem createNewUser_refuses_duplicates :
  forall (data : option jsobj) (context : Context) (w : World) (u : string)
         (userRecord : UserRecord) (username : string),
    valid_request data context w u userRecord username ->
    idle w ->
    (forall existing,
        rtdb w !! (users, u) = Some existing ->
        exists w',
          createNewUser data context w = (Throws user_already_exists, w') /\
          trace w' = trace w ++ [EvGetUser u;
                                 EvStore Rtdb Once (users, u) (Snapshot (Some existing))] /\
          rtdb w' = rtdb w /\ firestore w' = firestore w) /\
    (forall existing,
        rtdb w !! (users, u) = None ->
        rtdb w !! (usernames, username) = Some existing ->
        exists w',
          createNewUser data context w = (Throws already_taken, w') /\
          trace w' = trace w ++ [EvGetUser u;
                                 EvStore Rtdb Once (users, u) (Snapshot None);
                                 EvStore Rtdb Once (usernames, username)
                                         (Snapshot (Some existing))] /\
          rtdb w' = rtdb w /\ firestore w' = firestore w).
Proof.
  intros data context w u userRecord username Hvalid Hidle. split.
  - intros existing Huser. eapply createNewUser_existing_user; eassumption.
  - intros existing Huser Hname. eapply createNewUser_taken_username; eassumption.
Qed.

Lemma createNewUser_refuses_duplicates_witness :
  valid_request (input "testuser123") (caller "uid-a") reserved_world "uid-a" alice
                "testuser123" /\
  exists w',
    createNewUser (input "testuser123") (caller "uid-a") reserved_world
    = (Throws already_taken, w') /\
    rtdb w' = rtdb reserved_world.
Proof.
  assert (Hvalid : valid_request (input "testuser123") (caller "uid-a") reserved_world
                                 "uid-a" alice "testuser123").
  { apply valid_alice; reflexivity. }
  split; [exact Hvalid |].
  destruct (proj2 (createNewUser_refuses_duplicates _ _ _ _ _ _ Hvalid eq_refl)
              [("created_at", JNum 7)] eq_refl eq_refl) as (w' & Hrun & _ & Hr & _).
  exists w'. split; [exact Hrun | exact Hr].
Defined.

Lemma idle_quiet w : idle w -> quiet w.
Proof. unfold idle, quiet. intros ->. constructor. Qed.

Lemma valid_request_settled data context w w' u userRecord username :
  settled w w' ->
  valid_request data context w u userRecord username ->
  valid_request data context w' u userRecord username.
Proof.
  intros (Hdir & _) (Hid & Hrec & Hrest). unfold valid_request. rewrite Hdir. auto.
Qed.

(** X17. When nothing else happens, a registration over the Realtime Database
    is made once: after [createNewUser] has served a caller, any further valid
    request of that caller is refused with "user already exists", whatever
    username it asks for, and a valid request of another caller for the same
    username is refused with "username already taken"; the refused calls
    write nothing. *)
Theorem createNewUser_registers_once :
  forall (data : option jsobj) (context : Context) (w : World) (u : string)
         (userRecord : UserRecord) (username : string),
    valid_request data context w u userRecord username ->
    idle w ->
    rtdb w !! (users, u) = None ->
    rtdb w !! (usernames, username) = None ->
    exists w1,
      createNewUser data context w = (Returns (registered username u), w1) /\
      (forall data2 userRecord2 username2,
          valid_request data2 context w u userRecord2 username2 ->
          exists w2,
            createNewUser data2 context w1 = (Throws user_already_exists, w2) /\
            rtdb w2 = rtdb w1) /\
      (forall data2 context2 u2 userRecord2,
          valid_request data2 context2 w u2 userRecord2 username ->
          u2 <> u ->
          rtdb w !! (users, u2) = None ->
          exists w2,
            createNewUser data2 context2 w1 = (Throws already_taken, w2) /\
            rtdb w2 = rtdb w1).
Proof.
  intros data context w u userRecord username Hvalid Hidle Huser Hname.
  destruct (createNewUser_fresh _ _ _ _ _ _ Hvalid Hidle Huser Hname) as (w1 & Hrun).
  exists w1. split; [exact Hrun|].
  pose proof (settles_createNewUser _ _ _ _ _ Hrun) as Hsettled.
  pose proof Hsettled as (_ & _ & _ & Hidle1 & _). specialize (Hidle1 Hidle).
  assert (Hstore : exists t,
             rtdb w1 = <[(users, u) := user_doc t username userRecord]>
                         (<[(usernames, username) := [("created_at", JNum t)]]> (rtdb w))).
  { pose proof Hvalid as (Hid & Hdir & Hver & raw & Hraw & -> & Hre).
    rewrite (createNewUser_valid _ _ _ _ _ _ Hid Hdir Hver Hraw Hre) in Hrun.
    apply guard_returns in Hrun.
    destruct (registerUser_quiet _ _ _ (log (EvGetUser u) w) _ _ (idle_quiet _ Hidle) Hrun)
      as (_ & _ & _ & _ & t & Hr).
    exists t. exact Hr. }
  destruct Hstore as (t & Hr1). split.
  - intros data2 userRecord2 username2 Hvalid2.
    apply (valid_request_settled _ _ _ _ _ _ _ Hsettled) in Hvalid2.
    assert (Huser1 : rtdb w1 !! (users, u) = Some (user_doc t username userRecord)).
    { rewrite Hr1. apply lookup_insert_eq. }
    destruct (createNewUser_existing_user _ _ _ _ _ _ _ Hvalid2 Hidle1 Huser1)
      as (w2 & Hrun2 & _ & Hr2 & _).
    exists w2. auto.
  - intros data2 context2 u2 userRecord2 Hvalid2 Hother Huser2.
    apply (valid_request_settled _ _ _ _ _ _ _ Hsettled) in Hvalid2.
    assert (Huser1 : rtdb w1 !! (users, u2) = None).
    { rewrite Hr1. rewrite lookup_insert_ne by congruence.
      rewrite lookup_insert_ne by discriminate. exact Huser2. }
    assert (Hname1 : rtdb w1 !! (usernames, username) = Some [("created_at", JNum t)]).
    { rewrite Hr1. rewrite lookup_insert_ne by discriminate. apply lookup_insert_eq. }
    destruct (createNewUser_taken_username _ _ _ _ _ _ _ Hvalid2 Hidle1 Huser1 Hname1)
      as (w2 & Hrun2 & _ & Hr2 & _).
    exists w2. auto.
Qed.

Lemma createNewUser_registers_once_witness :
  valid_request (input "testuser123") (caller "uid-a") (world0 []) "uid-a" alice "testuser123" /\
  exists w1 w2,
    createNewUser (input "testuser123") (caller "uid-a") (world0 [])
    = (Returns (registered "testuser123" "uid-a"), w1) /\
    createNewUser (input "otheruser99") (caller "uid-a") w1 = (Throws user_already_exists, w2) /\
    rtdb w2 = rtdb w1.
Proof.
  assert (Hvalid : valid_request (input "testuser123") (caller "uid-a") (world0 [])
                                 "uid-a" alice "testuser123").
  { apply valid_alice; reflexivity. }
  split; [exact Hvalid |].
  destruct (createNewUser_registers_once _ _ _ _ _ _ Hvalid eq_refl eq_refl eq_refl)
    as (w1 & Hrun & Hsame & _).
  destruct (Hsame (input "otheruser99") alice "otheruser99"
              (valid_alice (world0 []) "otheruser99" eq_refl eq_refl eq_refl))
    as (w2 & Hrun2 & Hr2).
  exists w1, w2. auto.
Defined.

(** ** Registration over Firestore when no other client writes *)

(** What the body of the transaction does with a snapshot of the store. *)
Lemma createBoth_run userRef usernameRef uid username userRecord timestamp s :
  createBoth userRef usernameRef uid username userRecord timestamp s []
  = if exists_ (s !! userRef) then (Throws (new_Error "User already exists"), [])
    else if exists_ (s !! usernameRef) then (Throws (taken_in_transaction username), [])
    else (Returns tt,
          [(usernameRef, [("uid", JStr uid); ("created_at", timestamp)]);
           (userRef, [("created_at", timestamp); ("username", JStr username);
                      ("email_address", JStr (email userRecord))])]).
Proof.
  unfold createBoth, tbind, tx_get, tx_set, tthrow.
  destruct (s !! userRef); cbn; [reflexivity|]. destruct (s !! usernameRef); reflexivity.
Qed.

Lemma transaction_both_quiet u username userRecord w res w1 :
  quiet w ->
  runTransaction (createBoth (users, u) (usernames, username) u username userRecord
                    JServerTimestamp) w = (res, w1) ->
  rtdb w1 = rtdb w /\
  match res with
  | Returns _ =>
      firestore w !! (users, u) = None /\ firestore w !! (usernames, username) = None /\
      firestore w1 = <[(users, u) := user_doc (now w1) username userRecord]>
                       (<[(usernames, username) := username_doc u (now w1)]> (firestore w))
  | Throws e => firestore w1 = firestore w
  end.
Proof.
  unfold runTransaction. intros Hq. destruct (arrive w) as [[e|] w0] eqn:Ha;
    destruct (arrive_quiet _ _ _ Hq Ha) as (Hq0 & Hr & Hf); intros H.
  - inversion H; subst. auto.
  - rewrite createBoth_run, Hf in H.
    destruct (firestore w !! (users, u)) as [doc|] eqn:Huser; cbn [exists_] in H.
    { inversion H; subst. auto. }
    destruct (firestore w !! (usernames, username)) as [doc|] eqn:Hname; cbn [exists_] in H.
    { inversion H; subst. auto. }
    inversion H; subst. cbn. auto.
Qed.

(** Step 6 of the Firestore version: both documents are written where neither
    was, or nothing is. *)
Lemma createBoth_from_quiet fuel :
  forall u username userRecord attempt maxRetries retryDelay w res w',
    quiet w ->
    createBoth_from fuel (users, u) (usernames, username) u username userRecord
                    attempt maxRetries retryDelay w = (res, w') ->
    rtdb w' = rtdb w /\
    match res with
    | Returns true =>
        firestore w !! (users, u) = None /\ firestore w !! (usernames, username) = None /\
        exists t, firestore w' = <[(users, u) := user_doc t username userRecord]>
                                   (<[(usernames, username) := username_doc u t]> (firestore w))
    | Returns false => firestore w' = firestore w
    | Throws e => firestore w' = firestore w
    end.
Proof.
  induction fuel as [|fuel IH];
    intros u username userRecord attempt maxRetries retryDelay w res w' Hq Hrun;
    cbn [createBoth_from] in Hrun.
  - inversion Hrun; subst. auto.
  - destruct (attempt <=? maxRetries)%nat; [|inversion Hrun; subst; auto].
    assert (Hwait : forall r0 w1,
               (if (1 <? attempt)%nat then sleep retryDelay else ret tt) w = (r0, w1) ->
               r0 = Returns tt /\ quiet w1 /\ rtdb w1 = rtdb w /\ firestore w1 = firestore w).
    { intros r0 w1 Hw. destruct (1 <? attempt)%nat; inversion Hw; subst; auto. }
    assert (Hts : forall r0 w0 w1,
               getServerTimestamp w0 = (r0, w1) ->
               w1 = w0 /\ forall ts, r0 = Returns ts -> ts = JServerTimestamp).
    { intros r0 w0 w1 H. unfold getServerTimestamp in H.
      destruct (field_value w0); inversion H; subst; split; auto; intros ts Hts;
        inversion Hts; reflexivity. }
    apply try_catch_inv in Hrun as [(a & Hbody & ->) | (e & w1 & Hbody & Hhandler)].
    + apply bind_inv in Hbody as [([] & w1 & Hw & Hbody) | (e & _ & He)]; [|discriminate He].
      destruct (Hwait _ _ Hw) as (_ & Hq1 & Hr1 & Hf1).
      apply bind_inv in Hbody as [(ts & w2 & Hstamp & Hbody) | (e & _ & He)];
        [|discriminate He].
      destruct (Hts _ _ _ Hstamp) as (-> & Hval). rewrite (Hval ts eq_refl) in Hbody.
      apply bind_inv in Hbody as [([] & w3 & Htx & Hbody) | (e & _ & He)]; [|discriminate He].
      inversion Hbody; subst a w3.
      destruct (transaction_both_quiet _ _ _ _ _ _ Hq1 Htx) as (Hr3 & Huser & Hname & Hf3).
      split; [congruence|]. split; [congruence|]. split; [congruence|].
      exists (now w'). congruence.
    + assert (Hw1 : quiet w1 /\ rtdb w1 = rtdb w /\ firestore w1 = firestore w).
      { apply bind_inv in Hbody as [([] & w0 & Hw & Hbody) | (e0 & Hw & He)].
        2:{ destruct (Hwait _ _ Hw) as (Habs & _). discriminate Habs. }
        destruct (Hwait _ _ Hw) as (_ & Hq0 & Hr0 & Hf0).
        apply bind_inv in Hbody as [(ts & w2 & Hstamp & Hbody) | (e0 & Hstamp & He)].
        2:{ destruct (Hts _ _ _ Hstamp) as (-> & _). auto. }
        destruct (Hts _ _ _ Hstamp) as (-> & Hval). rewrite (Hval ts eq_refl) in Hbody.
        apply bind_inv in Hbody as [([] & w3 & Htx & Hbody) | (e0 & Htx & He)];
          [discriminate Hbody|].
        destruct (transaction_both_quiet _ _ _ _ _ _ Hq0 Htx) as (Hr3 & Hf3).
        pose proof (settles_runTransaction _ _ _ _ Htx) as (_ & _ & _ & _ & Hq3).
        split; [auto|]. split; congruence. }
      destruct Hw1 as (Hq1 & Hr1 & Hf1).
      destruct (instanceof_HttpsError e).
      { inversion Hhandler; subst. auto. }
      destruct (attempt =? maxRetries)%nat.
      { inversion Hhandler; subst. auto. }
      apply IH in Hhandler; [|exact Hq1].
      destruct Hhandler as (Hr & Hres). split; [congruence|].
      rewrite <- Hf1. exact Hres.
Qed.

Lemma registerUserDoc_quiet u userRecord username w res w' :
  quiet w -> registerUserDoc u userRecord username w = (res, w') ->
  rtdb w' = rtdb w /\
  match res with
  | Returns response =>
      response = success_response /\
      firestore w !! (users, u) = None /\ firestore w !! (usernames, username) = None /\
      exists t, firestore w' = <[(users, u) := user_doc t username userRecord]>
                                 (<[(usernames, username) := username_doc u t]> (firestore w))
  | Throws e => firestore w' = firestore w
  end.
Proof.
  intros Hq H. unfold registerUserDoc in H.
  apply bind_inv in H as [(userDoc & w1 & H1 & H) | (e1 & H1 & ->)].
  2:{ destruct (get_quiet _ _ _ _ Hq H1) as (_ & Hr1 & Hf1 & _). auto. }
  destruct (get_quiet _ _ _ _ Hq H1) as (Hq1 & Hr1 & Hf1 & _).
  destruct (exists_ userDoc).
  { inversion H; subst. auto. }
  apply bind_inv in H as [(userCreated & w2 & H2 & H) | (e1 & H2 & ->)].
  2:{ destruct (createBoth_from_quiet _ _ _ _ _ _ _ _ _ _ Hq1 H2) as (Hr2 & Hf2).
      split; congruence. }
  destruct (createBoth_from_quiet _ _ _ _ _ _ _ _ _ _ Hq1 H2) as (Hr2 & Hf2).
  destruct userCreated; cbn [negb] in H; inversion H; subst.
  - destruct Hf2 as (Huser & Hname & t & Hf2).
    split; [congruence|]. split; [reflexivity|]. split; [congruence|]. split; [congruence|].
    exists t. congruence.
  - split; congruence.
Qed.

(** X18. With no other client writing, [createNewUserHandler] never touches the
    Realtime Database and its two documents are written together or not at
    all: a call that returns has added exactly [usernames/{username}] and
    [users/{uid}] to Firestore, both absent before and stamped with the same
    commit time, and a call that throws leaves Firestore as it was. *)
Theorem createNewUserHandler_store_effect :
  forall (data : option jsobj) (context : Context) (w : World)
         (res : result jsobj) (w' : World),
    quiet w ->
    createNewUserHandler data context w = (res, w') ->
    rtdb w' = rtdb w /\
    match res with
    | Returns response =>
        exists u userRecord username t,
          valid_request data context w u userRecord username /\
          response = success_response /\
          firestore w !! (users, u) = None /\ firestore w !! (usernames, username) = None /\
          firestore w' = <[(users, u) := user_doc t username userRecord]>
                           (<[(usernames, username) := username_doc u t]> (firestore w))
    | Throws e => firestore w' = firestore w
    end.
Proof.
  intros data context w res w' Hq H.
  destruct (createNewUserHandler_cases data context w)
    as [(u & userRecord & raw & _ & Hvalid & _ & Hrun) | (e0 & w0 & Hrun & Hr & Hf & _)].
  2:{ rewrite Hrun in H. inversion H; subst res w0. auto. }
  rewrite Hrun in H.
  apply guard_inv in H as [(response & Hbody & ->) | (e0 & Hbody & ->)].
  - destruct (registerUserDoc_quiet _ _ _ (log (EvGetUser u) w) _ _ Hq Hbody)
      as (Hr & -> & Huser & Hname & t & Hf).
    split; [exact Hr|]. exists u, userRecord, (trim raw), t. auto.
  - destruct (registerUserDoc_quiet _ _ _ (log (EvGetUser u) w) _ _ Hq Hbody) as (Hr & Hf).
    auto.
Qed.

Lemma createNewUserHandler_store_effect_witness :
  quiet (world0 [rejected "unavailable" "try again"]) /\
  firestore (snd (createNewUserHandler (input "testuser123") (caller "uid-a")
                    (world0 [rejected "unavailable" "try again"])))
  = firestore (world0 [rejected "unavailable" "try again"]).
Proof.
  assert (Hq : quiet (world0 [rejected "unavailable" "try again"])).
  { repeat constructor. }
  split; [exact Hq |].
  assert (Hrun : createNewUserHandler (input "testuser123") (caller "uid-a")
                   (world0 [rejected "unavailable" "try again"])
                 = (Throws unexpected_error,
                    snd (createNewUserHandler (input "testuser123") (caller "uid-a")
                           (world0 [rejected "unavailable" "try again"]))))
    by (vm_compute; reflexivity).
  exact (proj2 (createNewUserHandler_store_effect _ _ _ _ _ Hq Hrun)).
Defined.

(** ** Registration over Firestore when nothing else happens *)

Lemma runTransaction_idle body w :
  idle w ->
  runTransaction body w
  = match body (firestore w) [] with
    | (Returns _, ws) =>
        (Returns tt,
         log (EvRunTransaction
                (Returns (map (fun x => (fst x, resolve (now w + 1) (snd x))) ws)))
           (set_firestore (apply_writes (now w + 1) ws (firestore w)) (set_now (now w + 1) w)))
    | (Throws e, _) => (Throws e, log (EvRunTransaction (Throws e)) (set_now (now w + 1) w))
    end.
Proof. intros H. unfold runTransaction. rewrite (arrive_idle _ H). reflexivity. Qed.

Lemma createNewUserHandler_existing_user data context w u userRecord username existing :
  app context = true ->
  valid_request data context w u userRecord username ->
  idle w ->
  firestore w !! (users, u) = Some existing ->
  exists w',
    createNewUserHandler data context w = (Throws user_already_exists, w') /\
    trace w' = trace w ++ [EvGetUser u;
                           EvStore Firestore Get (users, u) (Snapshot (Some existing))] /\
    rtdb w' = rtdb w /\ firestore w' = firestore w.
Proof.
  intros Happ (Hid & Hdir & Hver & raw & Hraw & -> & Hre) Hidle Huser.
  rewrite (createNewUserHandler_valid _ _ _ _ _ _ Happ Hid Hdir Hver Hraw Hre).
  unfold guard, registerUserDoc. rewrite try_catch_bind.
  rewrite get_idle by exact Hidle. cbn [firestore set_now log]. rewrite Huser. cbn [exists_].
  eexists. split; [reflexivity|]. cbn. rewrite <- app_assoc. auto.
Qed.

Lemma createNewUserHandler_taken_username data context w u userRecord username existing :
  app context = true ->
  valid_request data context w u userRecord username ->
  idle w -> field_value w = true ->
  firestore w !! (users, u) = None ->
  firestore w !! (usernames, username) = Some existing ->
  exists w',
    createNewUserHandler data context w = (Throws (taken_in_transaction username), w') /\
    trace w' = trace w ++ [EvGetUser u;
                           EvStore Firestore Get (users, u) (Snapshot None);
                           EvRunTransaction (Throws (taken_in_transaction username))] /\
    rtdb w' = rtdb w /\ firestore w' = firestore w.
Proof.
  intros Happ (Hid & Hdir & Hver & raw & Hraw & -> & Hre) Hidle Hfv Huser Hname.
  rewrite (createNewUserHandler_valid _ _ _ _ _ _ Happ Hid Hdir Hver Hraw Hre).
  unfold guard, registerUserDoc. rewrite try_catch_bind.
  rewrite get_idle by exact Hidle. cbn [firestore set_now log]. rewrite Huser. cbn [exists_].
  rewrite try_catch_bind. cbn [createBoth_from Nat.leb Nat.ltb].
  rewrite try_catch_bind. unfold ret at 1. rewrite try_catch_bind.
  unfold getServerTimestamp at 1. cbn [field_value log set_now]. rewrite Hfv.
  rewrite try_catch_bind. rewrite runTransaction_idle by exact Hidle.
  rewrite createBoth_run. cbn [firestore log set_now]. rewrite Huser, Hname. cbn [exists_].
  eexists. split; [reflexivity|]. cbn. rewrite <- !app_assoc. auto.
Qed.

Lemma createNewUserHandler_fresh data context w u userRecord username :
  app context = true ->
  valid_request data context w u userRecord username ->
  idle w -> field_value w = true ->
  firestore w !! (users, u) = None ->
  firestore w !! (usernames, username) = None ->
  exists w', createNewUserHandler data context w = (Returns success_response, w').
Proof.
  intros Happ (Hid & Hdir & Hver & raw & Hraw & -> & Hre) Hidle Hfv Huser Hname.
  rewrite (createNewUserHandler_valid _ _ _ _ _ _ Happ Hid Hdir Hver Hraw Hre).
  unfold guard, registerUserDoc. rewrite try_catch_bind.
  rewrite get_idle by exact Hidle. cbn [firestore set_now log]. rewrite Huser. cbn [exists_].
  rewrite try_catch_bind. cbn [createBoth_from Nat.leb Nat.ltb].
  rewrite try_catch_bind. unfold ret at 1. rewrite try_catch_bind.
  unfold getServerTimestamp at 1. cbn [field_value log set_now]. rewrite Hfv.
  rewrite try_catch_bind. rewrite runTransaction_idle by exact Hidle.
  rewrite createBoth_run. cbn [firestore log set_now]. rewrite Huser, Hname. cbn [exists_].
  eexists. reflexivity.
Qed.

(** X19. When nothing else happens, a registration over Firestore is made
    once: [createNewUserHandler] serves a valid request of a caller with no
    profile for a free username; after that any valid request of the same
    caller is refused with "user already exists" after one read, and a valid
    request of another caller for the same username is refused by the
    transaction with "username <name> already taken"; the refused calls write
    nothing. *)
Theorem createNewUserHandler_registers_once :
  forall (data : option jsobj) (context : Context) (w : World) (u : string)
         (userRecord : UserRecord) (username : string),
    app context = true ->
    valid_request data context w u userRecord username ->
    idle w -> field_value w = true ->
    firestore w !! (users, u) = None ->
    firestore w !! (usernames, username) = None ->
    exists w1,
      createNewUserHandler data context w = (Returns success_response, w1) /\
      (forall data2 userRecord2 username2,
          valid_request data2 context w u userRecord2 username2 ->
          exists w2,
            createNewUserHandler data2 context w1 = (Throws user_already_exists, w2) /\
            firestore w2 = firestore w1) /\
      (forall data2 context2 u2 userRecord2,
          app context2 = true ->
          valid_request data2 context2 w u2 userRecord2 username ->
          u2 <> u ->
          firestore w !! (users, u2) = None ->
          exists w2,
            createNewUserHandler data2 context2 w1
            = (Throws (taken_in_transaction username), w2) /\
            firestore w2 = firestore w1).
Proof.
  intros data context w u userRecord username Happ Hvalid Hidle Hfv Huser Hname.
  destruct (createNewUserHandler_fresh _ _ _ _ _ _ Happ Hvalid Hidle Hfv Huser Hname)
    as (w1 & Hrun).
  exists w1. split; [exact Hrun|].
  pose proof (settles_createNewUserHandler _ _ _ _ _ Hrun) as Hsettled.
  pose proof Hsettled as (_ & _ & Hfv1 & Hidle1 & _). specialize (Hidle1 Hidle).
  assert (Hstore : exists t,
             firestore w1 = <[(users, u) := user_doc t username userRecord]>
                              (<[(usernames, username) := username_doc u t]> (firestore w))).
  { pose proof Hvalid as (Hid & Hdir & Hver & raw & Hraw & -> & Hre).
    rewrite (createNewUserHandler_valid _ _ _ _ _ _ Happ Hid Hdir Hver Hraw Hre) in Hrun.
    apply guard_returns in Hrun.
    destruct (registerUserDoc_quiet _ _ _ (log (EvGetUser u) w) _ _ (idle_quiet _ Hidle) Hrun)
      as (_ & _ & _ & _ & t & Hf).
    exists t. exact Hf. }
  destruct Hstore as (t & Hf1). split.
  - intros data2 userRecord2 username2 Hvalid2.
    apply (valid_request_settled _ _ _ _ _ _ _ Hsettled) in Hvalid2.
    assert (Huser1 : firestore w1 !! (users, u) = Some (user_doc t username userRecord)).
    { rewrite Hf1. apply lookup_insert_eq. }
    destruct (createNewUserHandler_existing_user _ _ _ _ _ _ _ Happ Hvalid2 Hidle1 Huser1)
      as (w2 & Hrun2 & _ & _ & Hf2).
    exists w2. auto.
  - intros data2 context2 u2 userRecord2 Happ2 Hvalid2 Hother Huser2.
    apply (valid_request_settled _ _ _ _ _ _ _ Hsettled) in Hvalid2.
    assert (Huser1 : firestore w1 !! (users, u2) = None).
    { rewrite Hf1. rewrite lookup_insert_ne by congruence.
      rewrite lookup_insert_ne by discriminate. exact Huser2. }
    assert (Hname1 : firestore w1 !! (usernames, username) = Some (username_doc u t)).
    { rewrite Hf1. rewrite lookup_insert_ne by discriminate. apply lookup_insert_eq. }
    assert (Hfv1' : field_value w1 = true) by congruence.
    destruct (createNewUserHandler_taken_username _ _ _ _ _ _ _ Happ2 Hvalid2 Hidle1 Hfv1'
                Huser1 Hname1) as (w2 & Hrun2 & _ & _ & Hf2).
    exists w2. auto.
Qed.

Lemma valid_bob w name :
  auth_directory w = directory -> usernameRegex_test name = true -> trim name = name ->
  valid_request (input name) (caller "uid-b") w "uid-b" bob name.
Proof.
  intros Hdir Hre Htrim. split; [reflexivity|]. split; [rewrite Hdir; reflexivity|].
  split; [reflexivity|]. exists name. rewrite Htrim. auto.
Qed.

Lemma createNewUserHandler_registers_once_witness :
  valid_request (input "testuser123") (caller "uid-a") (world0 []) "uid-a" alice "testuser123" /\
  exists w1 w2,
    createNewUserHandler (input "testuser123") (caller "uid-a") (world0 [])
    = (Returns success_response, w1) /\
    createNewUserHandler (input "testuser123") (caller "uid-b") w1
    = (Throws (taken_in_transaction "testuser123"), w2) /\
    firestore w2 = firestore w1.
Proof.
  assert (Hvalid : valid_request (input "testuser123") (caller "uid-a") (world0 [])
                                 "uid-a" alice "testuser123").
  { apply valid_alice; reflexivity. }
  split; [exact Hvalid |].
  destruct (createNewUserHandler_registers_once
              (input "testuser123") (caller "uid-a") (world0 []) "uid-a" alice "testuser123"
              eq_refl Hvalid eq_refl eq_refl eq_refl eq_refl) as (w1 & Hrun & _ & Hother).
  destruct (Hother (input "testuser123") (caller "uid-b") "uid-b" bob eq_refl
              (valid_bob (world0 []) "testuser123" eq_refl eq_refl eq_refl))
    as (w2 & Hrun2 & Hf2); [discriminate | reflexivity |].
  exists w1, w2. auto.
Defined.

(** ** A profile that appears while the Firestore registration runs *)

Lemma arrive_step w s rest :
  script w = s :: rest ->
  arrive w = (fault s, set_now (now w + 1) (apply_mutations (interference s) (set_script rest w))).
Proof. intros H. unfold arrive. rewrite H. reflexivity. Qed.

Lemma createBoth_from_S fuel userRef usernameRef uid username userRecord attempt maxRetries
    retryDelay :
  createBoth_from (S fuel) userRef usernameRef uid username userRecord attempt maxRetries
                  retryDelay
  = if (attempt <=? maxRetries)%nat then
      try_catch
        ((if (1 <? attempt)%nat then sleep retryDelay else ret tt) ;;
         let* timestamp := getServerTimestamp in
         runTransaction (createBoth userRef usernameRef uid username userRecord timestamp) ;;
         ret true)
        (fun error =>
           if instanceof_HttpsError error then throw error
           else if (attempt =? maxRetries)%nat then
             throw (HttpsError "internal" "Something is wrong")
           else
             createBoth_from fuel userRef usernameRef uid username userRecord
                             (S attempt) maxRetries retryDelay)
    else ret false.
Proof. reflexivity. Qed.

(** The loop of step 6 on a caller whose document is there: every attempt
    left is spent on "User already exists". *)
Lemma createBoth_from_profile_exists fuel :
  forall u username userRecord doc attempt maxRetries ms w,
    (attempt + fuel = maxRetries + 1)%nat -> (1 <= fuel)%nat -> (2 <= attempt)%nat ->
    field_value w = true -> idle w ->
    firestore w !! (users, u) = Some doc ->
    exists delta w',
      createBoth_from fuel (users, u) (usernames, username) u username userRecord
                      attempt maxRetries ms w = (Throws something_is_wrong, w') /\
      trace w' = trace w ++ delta /\
      count is_run_transaction delta = fuel /\
      count is_sleep delta = fuel /\
      sleeps_are ms delta /\
      existsb transaction_committed delta = false /\
      rtdb w' = rtdb w /\ firestore w' = firestore w.
Proof.
  induction fuel as [|fuel IH];
    intros u username userRecord doc attempt maxRetries ms w Hfuel Hpos Hatt Hfv Hidle Huser;
    [lia|].
  cbn [createBoth_from].
  replace (attempt <=? maxRetries)%nat with true by (symmetry; apply Nat.leb_le; lia).
  replace (1 <? attempt)%nat with true by (symmetry; apply Nat.ltb_lt; lia).
  rewrite try_catch_bind. unfold sleep at 1. rewrite try_catch_bind.
  unfold getServerTimestamp at 1. cbn [field_value log set_now]. rewrite Hfv.
  rewrite try_catch_bind. rewrite runTransaction_idle by exact Hidle.
  rewrite createBoth_run. cbn [firestore log set_now]. rewrite Huser.
  cbn [exists_ new_Error instanceof_HttpsError].
  destruct (attempt =? maxRetries)%nat eqn:Hlast.
  - apply Nat.eqb_eq in Hlast. assert (fuel = 0)%nat as -> by lia.
    eexists [_; _], _. split; [reflexivity|]. cbn. rewrite <- app_assoc.
    repeat split; auto.
    apply sleeps_are_cons_sleep, sleeps_are_other. reflexivity.
  - apply Nat.eqb_neq in Hlast.
    match goal with
    | |- context [createBoth_from fuel _ _ _ _ _ _ _ _ ?w1] =>
        destruct (IH u username userRecord doc (S attempt) maxRetries ms w1)
          as (delta & w' & Hrun & Ht & Hn & Hs & Hms & Hc & Hr & Hf);
          [lia | lia | lia | exact Hfv | exact Hidle | exact Huser |]
    end.
    eexists (_ :: _ :: delta), w'. split; [exact Hrun|].
    cbn [trace log set_now] in Ht. rewrite Ht, <- !app_assoc.
    cbn [count is_run_transaction is_sleep existsb transaction_committed orb app].
    rewrite Hn, Hs, Hc. repeat split; auto.
    apply sleeps_are_cons_sleep, sleeps_are_cons_other; [reflexivity | exact Hms].
Qed.

(** X20. A profile document that another client writes under the caller's uid
    between the read of step 5 and the first transaction is not reported as
    'already-exists': inside the transaction "User already exists" is a plain
    [Error], so [createNewUserHandler] spends its three attempts, sleeping 500
    ms before the second and the third, and throws 'internal' ("Something is
    wrong") 1004 ms after the call (four store calls and the two sleeps); it
    writes nothing itself. *)
Theorem concurrent_profile_is_internal_error :
  forall (data : option jsobj) (context : Context) (w : World) (u : string)
         (userRecord : UserRecord) (username : string) (doc : jsobj),
    app context = true ->
    valid_request data context w u userRecord username ->
    field_value w = true ->
    firestore w !! (users, u) = None ->
    script w = [quiet_step; mkStep [OtherSet Firestore (users, u) doc] None] ->
    exists delta w',
      createNewUserHandler data context w = (Throws something_is_wrong, w') /\
      trace w' = trace w ++ delta /\
      count is_run_transaction delta = 3%nat /\
      count is_sleep delta = 2%nat /\
      sleeps_are 500 delta /\
      existsb transaction_committed delta = false /\
      firestore w' = <[(users, u) := doc]> (firestore w) /\
      now w' = now w + 1004.
Proof.
  intros data context w u userRecord username doc Happ
         (Hid & Hdir & Hver & raw & Hraw & -> & Hre) Hfv Huser Hscript.
  rewrite (createNewUserHandler_valid _ _ _ _ _ _ Happ Hid Hdir Hver Hraw Hre).
  unfold guard, registerUserDoc. rewrite try_catch_bind.
  unfold get at 1. rewrite (arrive_step (log (EvGetUser u) w) _ _ Hscript).
  cbn [fault interference quiet_step apply_mutations fold_left firestore log set_now set_script].
  rewrite Huser. cbn [exists_].
  rewrite try_catch_bind. rewrite createBoth_from_S. cbn [Nat.leb Nat.ltb].
  rewrite try_catch_bind. unfold ret at 1. rewrite try_catch_bind.
  unfold getServerTimestamp at 1. cbn [field_value log set_now set_script]. rewrite Hfv.
  rewrite try_catch_bind. unfold runTransaction at 1.
  match goal with
  | |- context [arrive ?w1] =>
      rewrite (arrive_step w1 (mkStep [OtherSet Firestore (users, u) doc] None) [] eq_refl)
  end.
  cbn [fault interference apply_mutations fold_left apply_mutation firestore log set_now
       set_script set_firestore].
  rewrite createBoth_run. rewrite lookup_insert_eq.
  cbn [exists_ new_Error instanceof_HttpsError Nat.eqb].
  match goal with
  | |- context [createBoth_from 2 _ _ _ _ _ _ _ _ ?w1] =>
      destruct (createBoth_from_profile_exists 2 u (trim raw) userRecord doc 2 3 500 w1)
        as (delta & w' & Hrun & Ht & Hn & Hs & Hms & Hc & Hr & Hf);
        [lia | lia | lia | exact Hfv | reflexivity | apply lookup_insert_eq |]
  end.
  destruct (createBoth_from_on_the_clock _ _ _ _ _ _ _ _ _ _ _ _ Hrun) as (delta' & Ht' & Hnow).
  rewrite Ht in Ht'. apply app_inv_head in Ht'. subst delta'.
  rewrite Hn, Hs in Hnow. cbn [now log set_now set_firestore set_script] in Hnow.
  rewrite Hrun. cbn [something_is_wrong instanceof_HttpsError]. unfold throw.
  eexists (_ :: _ :: _ :: delta), w'. split; [reflexivity|].
  cbn [trace log set_now set_firestore set_script] in Ht. rewrite Ht, <- !app_assoc.
  cbn [count is_run_transaction is_sleep existsb transaction_committed orb app].
  rewrite Hn, Hs, Hc. split; [reflexivity|]. split; [reflexivity|]. split; [reflexivity|].
  split; [|split; [reflexivity | split; [exact Hf|]]].
  - do 3 (apply sleeps_are_cons_other; [reflexivity|]). exact Hms.
  - rewrite Hnow. cbn. lia.
Qed.

Lemma concurrent_profile_is_internal_error_witness :
  valid_request (input "testuser123") (caller "uid-a") late_profile_world "uid-a" alice
                "testuser123" /\
  exists delta w',
    createNewUserHandler (input "testuser123") (caller "uid-a") late_profile_world
    = (Throws something_is_wrong, w') /\
    count is_run_transaction delta = 3%nat /\ count is_sleep delta = 2%nat.
Proof.
  assert (Hvalid : valid_request (input "testuser123") (caller "uid-a") late_profile_world
                                 "uid-a" alice "testuser123").
  { apply valid_alice; reflexivity. }
  split; [exact Hvalid |].
  destruct (concurrent_profile_is_internal_error
              (input "testuser123") (caller "uid-a") late_profile_world "uid-a" alice
              "testuser123" [("username", JStr "somebody1")]
              eq_refl Hvalid eq_refl eq_refl eq_refl)
    as (delta & w' & Hrun & _ & Hn & Hs & _).
  exists delta, w'. auto.
Defined.

(** ** White space around the username *)

Lemma string_app_nil_r s : s +:+ "" = s.
Proof.
  induction s as [|c s IH]; [reflexivity|].
  change (String c s +:+ "") with (String c (s +:+ "")). rewrite IH. reflexivity.
Qed.

Lemma string_app_assoc a b c : (a +:+ b) +:+ c = a +:+ (b +:+ c).
Proof.
  induction a as [|x a IH]; [reflexivity|].
  change ((String x a +:+ b) +:+ c) with (String x ((a +:+ b) +:+ c)).
  rewrite IH. reflexivity.
Qed.

Lemma string_rev_append_app s : forall acc, string_rev_append s acc = string_rev s +:+ acc.
Proof.
  unfold string_rev. induction s as [|c s IH]; intros acc; cbn [string_rev_append].
  - reflexivity.
  - rewrite (IH (String c acc)), (IH (String c "")), string_app_assoc. reflexivity.
Qed.

Lemma string_rev_cons c s : string_rev (String c s) = string_rev s +:+ String c "".
Proof. unfold string_rev at 1. cbn [string_rev_append]. apply string_rev_append_app. Qed.

Lemma string_rev_snoc s c : string_rev (s +:+ String c "") = String c (string_rev s).
Proof.
  induction s as [|a s IH].
  - reflexivity.
  - change (String a s +:+ String c "") with (String a (s +:+ String c "")).
    rewrite !string_rev_cons, IH. reflexivity.
Qed.

Lemma string_rev_involutive s : string_rev (string_rev s) = s.
Proof.
  induction s as [|c s IH]; [reflexivity|].
  rewrite string_rev_cons, string_rev_snoc, IH. reflexivity.
Qed.

Lemma trimStart_head s :
  trimStart s = "" \/ exists c r, trimStart s = String c r /\ is_whitespace c = false.
Proof.
  induction s as [|c s IH]; cbn [trimStart]; [auto|].
  destruct (is_whitespace c) eqn:Hc; [exact IH | right; eauto].
Qed.

Lemma trimStart_idempotent s : trimStart (trimStart s) = trimStart s.
Proof.
  destruct (trimStart_head s) as [-> | (c & r & -> & Hc)]; [reflexivity|].
  cbn [trimStart]. rewrite Hc. reflexivity.
Qed.

Lemma trimStart_snoc l c :
  is_whitespace c = false -> exists l', trimStart (l +:+ String c "") = l' +:+ String c "".
Proof.
  intros Hc. induction l as [|a l IH].
  - exists "". change (trimStart (String c "") = String c "").
    cbn [trimStart]. rewrite Hc. reflexivity.
  - change (String a l +:+ String c "") with (String a (l +:+ String c "")).
    cbn [trimStart]. destruct (is_whitespace a); [exact IH|].
    exists (String a l). reflexivity.
Qed.

Lemma trimEnd_cons c r :
  is_whitespace c = false -> exists x, trimEnd (String c r) = String c x.
Proof.
  intros Hc. unfold trimEnd. rewrite string_rev_cons.
  destruct (trimStart_snoc (string_rev r) c Hc) as (l' & ->).
  rewrite string_rev_snoc. eauto.
Qed.

Lemma trimEnd_idempotent s : trimEnd (trimEnd s) = trimEnd s.
Proof. unfold trimEnd. rewrite string_rev_involutive, trimStart_idempotent. reflexivity. Qed.

Lemma trim_idempotent s : trim (trim s) = trim s.
Proof.
  unfold trim. destruct (trimStart_head s) as [-> | (c & r & -> & Hc)]; [reflexivity|].
  destruct (trimEnd_cons c r Hc) as (x & Hx). rewrite Hx at 1.
  cbn [trimStart]. rewrite Hc, <- Hx. apply trimEnd_idempotent.
Qed.

Lemma all_chars_app p a b : all_chars p (a +:+ b) = all_chars p a && all_chars p b.
Proof.
  induction a as [|c a IH]; [reflexivity|].
  change (all_chars p (String c a +:+ b)) with (p c && all_chars p (a +:+ b)).
  rewrite IH, andb_assoc. reflexivity.
Qed.

Lemma all_chars_rev p s : all_chars p (string_rev s) = all_chars p s.
Proof.
  induction s as [|c s IH]; [reflexivity|].
  rewrite string_rev_cons, all_chars_app, IH. cbn. rewrite andb_true_r. apply andb_comm.
Qed.

Lemma trimStart_no_whitespace s : all_chars not_whitespace s = true -> trimStart s = s.
Proof.
  destruct s as [|c s]; [reflexivity|]. cbn. unfold not_whitespace at 1.
  destruct (is_whitespace c); [discriminate | reflexivity].
Qed.

Lemma trim_no_whitespace s : all_chars not_whitespace s = true -> trim s = s.
Proof.
  intros H. unfold trim, trimEnd. rewrite (trimStart_no_whitespace _ H).
  rewrite trimStart_no_whitespace by (rewrite all_chars_rev; exact H).
  apply string_rev_involutive.
Qed.

Lemma all_chars_impl (p q : ascii -> bool) s :
  (forall c, p c = true -> q c = true) -> all_chars p s = true -> all_chars q s = true.
Proof.
  intros Hpq. induction s as [|c s IH]; cbn; [reflexivity|].
  intros H. apply andb_prop in H as [Hc Hs]. rewrite (Hpq _ Hc), (IH Hs). reflexivity.
Qed.

Lemma is_lower_is_word c : is_lower c = true -> is_word c = true.
Proof. unfold is_word. intros ->. reflexivity. Qed.

Lemma is_word_not_whitespace c : is_word c = true -> not_whitespace c = true.
Proof.
  unfold is_word, is_lower, is_digit, not_whitespace, is_whitespace. cbv zeta.
  generalize (nat_of_ascii c). intros n H.
  apply negb_true_iff.
  destruct (Nat.leb_spec 97 n), (Nat.leb_spec n 122), (Nat.leb_spec 48 n),
    (Nat.leb_spec n 57), (Nat.eqb_spec n 95), (Nat.leb_spec 9 n), (Nat.leb_spec n 13),
    (Nat.eqb_spec n 32), (Nat.eqb_spec n 160);
    cbn in H |- *; try reflexivity; try discriminate H; lia.
Qed.

Lemma accepted_no_whitespace s :
  usernameRegex_test s = true -> all_chars not_whitespace s = true.
Proof.
  intros H. apply usernameRegex_test_spec in H as (c & rest & -> & Hc & Hrest & _).
  cbn. rewrite (is_word_not_whitespace _ (is_lower_is_word _ Hc)).
  apply (all_chars_impl _ _ _ is_word_not_whitespace Hrest).
Qed.

(** X21. White space around the username of a request is ignored by both
    registrations: [trim] is idempotent, so a request behaves, in every world,
    as the request with the trimmed username does. *)
Theorem surrounding_whitespace_is_ignored :
  forall (raw : string) (context : Context) (w : World),
    trim (trim raw) = trim raw /\
    createNewUser (input raw) context w = createNewUser (input (trim raw)) context w /\
    createNewUserHandler (input raw) context w
    = createNewUserHandler (input (trim raw)) context w.
Proof.
  intros raw context w. split; [apply trim_idempotent|].
  unfold createNewUser, createNewUserHandler.
  change (username_of (input raw)) with (Some raw).
  change (username_of (input (trim raw))) with (Some (trim raw)).
  cbv beta iota. rewrite trim_idempotent. split; reflexivity.
Qed.

(** X22. A username that matches the rule as sent contains no white space, so
    [trim] leaves it as it is, and a registration that succeeds answers with
    that very string. *)
Theorem accepted_username_is_kept :
  forall (raw : string),
    usernameRegex_test raw = true ->
    trim raw = raw /\
    forall context w response w',
      createNewUser (input raw) context w = (Returns response, w') ->
      exists u, response = registered raw u.
Proof.
  intros raw Hre.
  assert (Htrim : trim raw = raw) by apply trim_no_whitespace, accepted_no_whitespace, Hre.
  split; [exact Htrim|].
  intros context w response w' Hrun.
  apply createNewUser_returns in Hrun
    as (u & userRecord & username & (_ & _ & _ & raw' & Hraw & -> & _) & Hrun).
  inversion Hraw; subst raw'. rewrite Htrim in Hrun.
  apply registerUser_returns in Hrun as (-> & _). eauto.
Qed.

Lemma accepted_username_is_kept_witness :
  usernameRegex_test "testuser123" = true /\ trim "testuser123" = "testuser123".
Proof.
  split; [reflexivity |].
  exact (proj1 (accepted_username_is_kept "testuser123" eq_refl)).
Defined.

(** ** Without the timestamp sentinel *)

(** The loop of step 6 when [getServerTimestamp] throws: no transaction is
    run, the attempts are spent on the sleeps. *)
Lemma createBoth_from_no_FieldValue fuel :
  forall userRef usernameRef uid username userRecord attempt maxRetries ms w,
    (attempt + fuel = maxRetries + 1)%nat -> (1 <= fuel)%nat -> (1 <= attempt)%nat ->
    field_value w = false ->
    exists w',
      createBoth_from fuel userRef usernameRef uid username userRecord attempt maxRetries ms w
      = (Throws something_is_wrong, w') /\
      trace w' = trace w ++ repeat (EvSleep ms) (if (1 <? attempt)%nat then fuel else fuel - 1) /\
      rtdb w' = rtdb w /\ firestore w' = firestore w /\ script w' = script w.
Proof.
  induction fuel as [|fuel IH];
    intros userRef usernameRef uid username userRecord attempt maxRetries ms w
           Hfuel Hpos Hatt Hfv; [lia|].
  rewrite createBoth_from_S.
  replace (attempt <=? maxRetries)%nat with true by (symmetry; apply Nat.leb_le; lia).
  rewrite try_catch_bind.
  assert (Hloop : forall w1 n,
             field_value w1 = false ->
             trace w1 = trace w ++ repeat (EvSleep ms) n ->
             rtdb w1 = rtdb w -> firestore w1 = firestore w -> script w1 = script w ->
             exists w',
               try_catch
                 (let* timestamp := getServerTimestamp in
                  runTransaction
                    (createBoth userRef usernameRef uid username userRecord timestamp) ;;
                  ret true)
                 (fun error =>
                    if instanceof_HttpsError error then throw error
                    else if (attempt =? maxRetries)%nat then
                      throw (HttpsError "internal" "Something is wrong")
                    else
                      createBoth_from fuel userRef usernameRef uid username userRecord
                                      (S attempt) maxRetries ms) w1
               = (Throws something_is_wrong, w') /\
               trace w' = trace w ++ repeat (EvSleep ms) (n + fuel) /\
               rtdb w' = rtdb w /\ firestore w' = firestore w /\ script w' = script w).
  { intros w1 n Hfv1 Ht1 Hr1 Hf1 Hs1. rewrite try_catch_bind.
    unfold getServerTimestamp at 1. rewrite Hfv1. cbn [new_Error instanceof_HttpsError].
    destruct (attempt =? maxRetries)%nat eqn:Hlast.
    - apply Nat.eqb_eq in Hlast. assert (fuel = 0)%nat as -> by lia.
      exists w1. rewrite Nat.add_0_r. auto.
    - apply Nat.eqb_neq in Hlast.
      destruct (IH userRef usernameRef uid username userRecord (S attempt) maxRetries ms w1)
        as (w' & Hrun & Ht & Hr & Hf & Hs); [lia | lia | lia | exact Hfv1 |].
      exists w'. split; [exact Hrun|].
      replace (1 <? S attempt)%nat with true in Ht by (symmetry; apply Nat.ltb_lt; lia).
      rewrite Ht, Ht1, <- app_assoc, <- repeat_app.
      split; [reflexivity|]. split; [congruence|]. split; congruence. }
  destruct (1 <? attempt)%nat.
  - unfold sleep at 1.
    destruct (Hloop (log (EvSleep ms) (set_now (now w + timeout_delay ms) w)) 1%nat)
      as (w' & Hrun & Ht & Hrest); [exact Hfv | reflexivity | reflexivity..|].
    exists w'. split; [exact Hrun|]. split; [exact Ht | exact Hrest].
  - unfold ret at 1.
    destruct (Hloop w 0%nat) as (w' & Hrun & Ht & Hrest);
      [exact Hfv | cbn; rewrite app_nil_r; reflexivity | reflexivity..|].
    exists w'. split; [exact Hrun|]. rewrite Nat.sub_succ, Nat.sub_0_r.
    split; [exact Ht | exact Hrest].
Qed.

(** X23. When [db.constructor.FieldValue] is not there, [getServerTimestamp]
    throws a plain [Error], and the two handlers that call it treat it
    differently.  With nothing else happening, [quickMatchHandler] answers an
    eligible caller with 'internal' ("An unexpected error occurred") after its
    two reads and writes nothing; [createNewUserHandler] counts the error as a
    failed attempt, so a valid request waits 500 ms twice without running any
    transaction and is answered with 'internal' ("Something is wrong"), 1001
    ms after the call (the read and the two sleeps). *)
Theorem without_FieldValue :
  forall (data : option jsobj) (context : Context) (w : World) (u : string),
    field_value w = false ->
    idle w ->
    (authorized w context u ->
     exists_ (rtdb w !! (presence, u)) = true ->
     firestore w !! (quick_matchmaking_queue, u) = None ->
     exists w',
       quickMatchHandler data context w = (Throws unexpected_error, w') /\
       trace w' = trace w ++ [EvGetUser u;
                              EvStore Rtdb Once (presence, u) (Snapshot (rtdb w !! (presence, u)));
                              EvStore Firestore Get (quick_matchmaking_queue, u) (Snapshot None)] /\
       firestore w' = firestore w) /\
    (forall userRecord username,
        app context = true ->
        valid_request data context w u userRecord username ->
        firestore w !! (users, u) = None ->
        exists w',
          createNewUserHandler data context w = (Throws something_is_wrong, w') /\
          trace w' = trace w ++ [EvGetUser u;
                                 EvStore Firestore Get (users, u) (Snapshot None);
                                 EvSleep 500; EvSleep 500] /\
          firestore w' = firestore w /\
          now w' = now w + 1001).
Proof.
  intros data context w u Hfv Hidle. split.
  - intros Hauth Hpres Hqueue.
    rewrite (quickMatchHandler_authorized _ _ _ _ Hauth).
    unfold guard, try_catch. unfold bind at 1. rewrite once_idle by exact Hidle.
    cbn [rtdb log]. rewrite Hpres. cbn [negb].
    unfold bind at 1. rewrite get_idle by exact Hidle.
    cbn [firestore log set_now]. rewrite Hqueue. cbn [exists_].
    unfold bind at 1. unfold getServerTimestamp. cbn [field_value log set_now]. rewrite Hfv.
    eexists. split; [reflexivity|]. cbn. rewrite <- !app_assoc. auto.
  - intros userRecord username Happ (Hid & Hdir & Hver & raw & Hraw & -> & Hre) Huser.
    rewrite (createNewUserHandler_valid _ _ _ _ _ _ Happ Hid Hdir Hver Hraw Hre).
    unfold guard, registerUserDoc. rewrite try_catch_bind.
    rewrite get_idle by exact Hidle. cbn [firestore set_now log]. rewrite Huser. cbn [exists_].
    rewrite try_catch_bind.
    match goal with
    | |- context [createBoth_from 3 ?a ?b ?c ?d ?e 1 3 500 ?w1] =>
        destruct (createBoth_from_no_FieldValue 3 a b c d e 1 3 500 w1)
          as (w' & Hrun & Ht & _ & Hf & _); [lia | lia | lia | exact Hfv |]
    end.
    destruct (createBoth_from_on_the_clock _ _ _ _ _ _ _ _ _ _ _ _ Hrun)
      as (delta' & Ht' & Hnow).
    rewrite Ht in Ht'. apply app_inv_head in Ht'. subst delta'.
    cbn [now log set_now] in Hnow.
    rewrite Hrun. cbn [something_is_wrong instanceof_HttpsError]. unfold throw.
    exists w'. split; [reflexivity|]. split; [|split].
    + rewrite Ht. cbn. rewrite <- !app_assoc. reflexivity.
    + exact Hf.
    + rewrite Hnow. cbn. lia.
Qed.

Lemma without_FieldValue_witness :
  field_value no_FieldValue_world = false /\
  exists w',
    quickMatchHandler None (caller "uid-a") no_FieldValue_world = (Throws unexpected_error, w') /\
    firestore w' = firestore no_FieldValue_world.
Proof.
  split; [reflexivity |].
  assert (Hauth : authorized no_FieldValue_world (caller "uid-a") "uid-a").
  { repeat split. exists alice. split; reflexivity. }
  destruct (proj1 (without_FieldValue None (caller "uid-a") no_FieldValue_world "uid-a"
                     eq_refl eq_refl) Hauth eq_refl eq_refl) as (w' & Hrun & _ & Hf).
  exists w'. auto.
Defined.

(** * The writes of the registration over the Realtime Database *)

(** ** What the other clients write *)

Lemma rtdb_apply_mutations ms :
  forall w, rtdb (apply_mutations ms w) = fold_left other_write ms (rtdb w).
Proof.
  unfold apply_mutations. induction ms as [|m ms IH]; intros w; cbn [fold_left]; [reflexivity|].
  rewrite IH. destruct m as [[] ? ?|[] ?]; reflexivity.
Qed.

Lemma others_rtdb_app steps1 steps2 s :
  others_rtdb (steps1 ++ steps2) s = others_rtdb steps2 (others_rtdb steps1 s).
Proof. unfold others_rtdb. rewrite flat_map_app, fold_left_app. reflexivity. Qed.

Lemma only_others_refl w : only_others w w.
Proof. exists []. split; reflexivity. Qed.

Lemma only_others_trans w1 w2 w3 : only_others w1 w2 -> only_others w2 w3 -> only_others w1 w3.
Proof.
  intros (steps1 & Hs1 & Hr1) (steps2 & Hs2 & Hr2). exists (steps1 ++ steps2). split.
  - rewrite Hs1, Hs2, app_assoc. reflexivity.
  - rewrite Hr2, Hr1, others_rtdb_app. reflexivity.
Qed.

Lemma arrive_only_others w f w1 : arrive w = (f, w1) -> only_others w w1.
Proof.
  unfold arrive. destruct (script w) as [|s rest] eqn:Hsc; intros H; inversion H; subst.
  - exists []. cbn. rewrite Hsc. split; reflexivity.
  - exists [s]. cbn [script rtdb set_now].
    destruct (apply_mutations_settled (interference s) (set_script rest w)) as (_ & _ & _ & ->).
    rewrite rtdb_apply_mutations. unfold others_rtdb. cbn [flat_map]. rewrite app_nil_r.
    split; [rewrite Hsc; reflexivity | reflexivity].
Qed.

Lemma once_only_others r w res w1 : once r w = (res, w1) -> only_others w w1.
Proof.
  unfold once. destruct (arrive w) as [[e|] w0] eqn:Ha; intros H; inversion H; subst;
    apply (arrive_only_others _ _ _ Ha).
Qed.

(** The username transaction creates the key where it is absent, and leaves
    the key that is there. *)
Lemma username_transaction_others r w res w1 :
  transaction r usernameUpdate w = (res, w1) ->
  exists steps,
    script w = steps ++ script w1 /\
    match res with
    | Throws e => rtdb w1 = others_rtdb steps (rtdb w)
    | Returns tx =>
        match others_rtdb steps (rtdb w) !! r with
        | None => exists t, tx = mkTx true (Some [("created_at", JNum t)]) /\
                            rtdb w1 = <[r := [("created_at", JNum t)]]>
                                        (others_rtdb steps (rtdb w))
        | Some current => tx = mkTx false (Some current) /\
                          rtdb w1 = others_rtdb steps (rtdb w)
        end
    end.
Proof.
  unfold transaction. destruct (arrive w) as [[e|] w0] eqn:Ha;
    destruct (arrive_only_others _ _ _ Ha) as (steps & Hs & Hr); intros H.
  - inversion H; subst. exists steps. auto.
  - exists steps. rewrite <- Hr.
    destruct (rtdb w0 !! r) as [current|] eqn:Hcur; cbn [usernameUpdate] in H;
      inversion H; subst; cbn [script rtdb log set_rtdb]; (split; [exact Hs|]).
    + auto.
    + destruct (server_value w0); cbn; eauto.
Qed.

(** The loop of step 6 writes the key once, where it is absent, or not at
    all. *)
Lemma createUsername_from_others fuel :
  forall usernameRef attempt maxRetries w res w',
    createUsername_from fuel usernameRef attempt maxRetries w = (res, w') ->
    exists steps,
      script w = steps ++ script w' /\
      match res with
      | Returns (Some timestamp) =>
          exists t, timestamp = JNum t /\
                    others_rtdb steps (rtdb w) !! usernameRef = None /\
                    rtdb w' = <[usernameRef := [("created_at", JNum t)]]>
                                (others_rtdb steps (rtdb w))
      | Returns None => rtdb w' = others_rtdb steps (rtdb w)
      | Throws e => rtdb w' = others_rtdb steps (rtdb w)
      end.
Proof.
  induction fuel as [|fuel IH]; intros r attempt maxRetries w res w' Hrun;
    cbn [createUsername_from] in Hrun.
  - inversion Hrun; subst. exists []. split; reflexivity.
  - destruct (attempt <=? maxRetries)%nat;
      [|inversion Hrun; subst; exists []; split; reflexivity].
    assert (Hread : forall r0 w1,
               (if (1 <? attempt)%nat then
                  let* usernameSnapshot := once r in
                  if exists_ usernameSnapshot then throw already_taken else ret tt
                else ret tt) w = (r0, w1) -> only_others w w1).
    { intros r0 w1 H. destruct (1 <? attempt)%nat;
        [|inversion H; subst; apply only_others_refl].
      apply bind_inv in H as [(s & w0 & Honce & Hrest) | (e & Honce & _)];
        [|apply (once_only_others _ _ _ _ Honce)].
      destruct (exists_ s); inversion Hrest; subst; apply (once_only_others _ _ _ _ Honce). }
    apply try_catch_inv in Hrun as [(a & Hbody & ->) | (e & w1 & Hbody & Hhandler)].
    + apply bind_inv in Hbody as [([] & w1 & Hre & Hbody) | (e & _ & He)]; [|discriminate He].
      destruct (Hread _ _ Hre) as (steps1 & Hs1 & Hr1).
      apply bind_inv in Hbody as [(tx & w2 & Htx & Hbody) | (e & _ & He)]; [|discriminate He].
      destruct (username_transaction_others _ _ _ _ Htx) as (steps2 & Hs2 & Htx').
      destruct (others_rtdb steps2 (rtdb w1) !! r) as [current|] eqn:Hcur.
      * destruct Htx' as (-> & _). cbn [committed] in Hbody. discriminate Hbody.
      * destruct Htx' as (t & -> & Hr2). cbn [committed snapshot created_at_of] in Hbody.
        inversion Hbody; subst a w'.
        exists (steps1 ++ steps2). split; [rewrite Hs1, Hs2, app_assoc; reflexivity|].
        rewrite others_rtdb_app, <- Hr1. exists t. auto.
    + assert (Hw1 : only_others w w1).
      { apply bind_inv in Hbody as [([] & w0 & Hre & Hbody) | (e0 & Hre & _)];
          [|apply (Hread _ _ Hre)].
        apply (only_others_trans _ _ _ (Hread _ _ Hre)).
        apply bind_inv in Hbody as [(tx & w2 & Htx & Hbody) | (e0 & Htx & He)].
        - destruct (username_transaction_others _ _ _ _ Htx) as (steps2 & Hs2 & Htx').
          destruct (others_rtdb steps2 (rtdb w0) !! r) as [current|] eqn:Hcur.
          + destruct Htx' as (-> & Hr2). cbn [committed] in Hbody.
            inversion Hbody; subst. exists steps2. auto.
          + destruct Htx' as (t & -> & _). cbn [committed snapshot created_at_of] in Hbody.
            discriminate Hbody.
        - destruct (username_transaction_others _ _ _ _ Htx) as (steps2 & Hs2 & Hr2).
          exists steps2. auto. }
      assert (Hstay : exists steps, script w = steps ++ script w1 /\
                                    rtdb w1 = others_rtdb steps (rtdb w)) by exact Hw1.
      destruct (instanceof_HttpsError e); [inversion Hhandler; subst; exact Hstay|].
      destruct (attempt =? maxRetries)%nat; [inversion Hhandler; subst; exact Hstay|].
      destruct Hw1 as (steps1 & Hs1 & Hr1).
      destruct (IH _ _ _ _ _ _ Hhandler) as (steps2 & Hs2 & Hres).
      exists (steps1 ++ steps2). split; [rewrite Hs1, Hs2, app_assoc; reflexivity|].
      rewrite others_rtdb_app, <- Hr1. exact Hres.
Qed.

Lemma reservation_no_commit r maxRetries attempt delta res :
  reservation r maxRetries attempt delta res ->
  forall e, res = Throws e -> existsb is_commit delta = false.
Proof.
  induction 1 as [attempt t | attempt current Hlt | attempt evs Hmax Hev
                 | attempt evs rest res Hlt Hev Hrest IH]; intros e He.
  - discriminate He.
  - reflexivity.
  - apply (failed_attempt_facts _ _ _ Hev).
  - rewrite existsb_app, (IH e He).
    destruct (failed_attempt_facts _ _ _ Hev) as (_ & _ & _ & -> & _). reflexivity.
Qed.

(** C3. The loop of step 6, as [createNewUser] runs it (three attempts from
    the first). Whatever the world does, its run is a [reservation]: each
    attempt after the first opens with a re-read of the username key; a
    re-read that finds the key ends the run at once with 'already-exists'
    ("username already taken"); an attempt whose transaction commits ends it
    with the committed timestamp; an attempt that fails otherwise is followed
    by the next one, and the third such failure ends the run with 'internal'
    ("Something is wrong"). So there are at most three transactions, no sleep
    between them (the clock advances by the store calls alone), and
    [createNewUser] throws the loop's error as it is.
    The transaction is a create-if-absent: with [steps] the part of the script
    that the run has used up, a run that returns has found the key absent
    from the database as the other clients' writes of [steps] leave it, and
    has added the key to that database; a run that throws has written
    nothing, so a reservation that is there is never overwritten. *)
Theorem username_reservation_attempts :
  forall (usernameRef : ref) (w : World) (res : result (option jsval)) (w' : World),
    createUsername_from 3 usernameRef 1 3 w = (res, w') ->
    exists delta,
      trace w' = trace w ++ delta /\
      reservation usernameRef 3 1 delta res /\
      (count is_transaction delta <= 3)%nat /\
      count is_sleep delta = 0%nat /\
      now w' = now w + Z.of_nat (length delta) /\
      (existsb found_taken delta = true ->
       res = Throws already_taken /\
       exists current,
         last delta = Some (EvStore Rtdb Once usernameRef (Snapshot (Some current)))) /\
      (existsb found_taken delta = false -> existsb is_commit delta = false ->
       res = Throws something_is_wrong) /\
      (forall e, res = Throws e ->
         (e = already_taken \/ e = something_is_wrong) /\
         forall u userRecord username w0 w1,
           usernameRef = (usernames, username) ->
           once (users, u) w0 = (Returns None, w1) ->
           once (usernames, username) w1 = (Returns None, w) ->
           guard (registerUser u userRecord username) w0 = (Throws e, w')) /\
      (exists steps,
          script w = steps ++ script w' /\
          (forall created,
              res = Returns created ->
              exists t,
                created = Some (JNum t) /\
                last delta = Some (reservation_commit usernameRef t) /\
                others_rtdb steps (rtdb w) !! usernameRef = None /\
                rtdb w' = <[usernameRef := [("created_at", JNum t)]]>
                            (others_rtdb steps (rtdb w))) /\
          (forall e, res = Throws e ->
                     existsb is_commit delta = false /\
                     rtdb w' = others_rtdb steps (rtdb w))).
Proof.
  intros r w res w' Hrun.
  destruct (createUsername_from_reservation 3 r 1 3 w eq_refl (le_S _ _ (le_S _ _ (le_n 1))))
    as (res0 & delta & w0 & Hrun0 & Ht & Hn & Hres & Hcommit & _).
  rewrite Hrun in Hrun0. inversion Hrun0; subst res0 w0. clear Hrun0.
  destruct (reservation_facts _ _ _ _ _ Hres) as (Htx & Hsl & Htk & Hex & _); [lia|].
  exists delta. split; [exact Ht|]. split; [exact Hres|]. split; [exact Htx|].
  split; [exact Hsl|]. split; [exact Hn|]. split; [exact Htk|]. split; [exact Hex|].
  split.
  - intros e He. pose proof (reservation_throws _ _ _ _ _ Hres e He) as Hcases.
    split; [exact Hcases|].
    intros u userRecord username w00 w1 -> H1 H2.
    apply (registerUser_reservation_fails _ _ _ _ _ _ _ _ H1 H2); [subst res; exact Hrun|].
    destruct Hcases as [-> | ->]; reflexivity.
  - destruct (createUsername_from_others _ _ _ _ _ _ _ Hrun) as (steps & Hs & Hstore).
    exists steps. split; [exact Hs|]. split.
    + intros created ->. destruct (Hcommit created eq_refl) as (t & -> & _ & Hlast).
      destruct Hstore as (t' & Ht' & Habsent & Hr). inversion Ht'; subst t'.
      exists t. auto.
    + intros e ->. split; [|exact Hstore].
      apply (reservation_no_commit _ _ _ _ _ Hres e eq_refl).
Qed.

Lemma username_reservation_attempts_witness :
  let w' := snd (createUsername_from 3 (usernames, "testuser123") 1 3 lost_race_world) in
  createUsername_from 3 (usernames, "testuser123") 1 3 lost_race_world
  = (Throws already_taken, w') /\
  rtdb w' = others_rtdb (script lost_race_world) (rtdb lost_race_world) /\
  rtdb w' !! (usernames, "testuser123") = Some [("created_at", JNum 7)].
Proof.
  intros w'.
  assert (Hrun : createUsername_from 3 (usernames, "testuser123") 1 3 lost_race_world
                 = (Throws already_taken, w')) by (vm_compute; reflexivity).
  split; [exact Hrun |].
  destruct (username_reservation_attempts _ _ _ _ Hrun)
    as (delta & _ & _ & _ & _ & _ & _ & _ & _ & steps & Hs & _ & Hthrown).
  destruct (Hthrown already_taken eq_refl) as (_ & Hr).
  assert (Hsteps : steps = script lost_race_world).
  { change (script w') with (@nil env_step) in Hs. rewrite app_nil_r in Hs.
    symmetry. exact Hs. }
  rewrite Hsteps in Hr. split; [exact Hr|]. rewrite Hr. reflexivity.
Defined.


(** * The cleanup of the registration over the Realtime Database *)

Lemma transaction_trace r update w res w1 :
  transaction r update w = (res, w1) ->
  exists a, trace w1 = trace w ++ [EvStore Rtdb Transaction r a].
Proof.
  unfold transaction. destruct (arrive w) as [[e|] w0] eqn:Ha; intros H;
    [inversion H; subst; cbn [trace log]; rewrite (arrive_trace _ _ _ Ha); eauto|].
  destruct (update w0 (rtdb w0 !! r)); inversion H; subst; cbn [trace log set_rtdb];
    rewrite (arrive_trace _ _ _ Ha); eauto.
Qed.

(** Step 8 when no other client writes: the one call, and what it leaves. *)
Lemma cleanupUsername_outcome r w res w1 :
  quiet w -> cleanupUsername r w = (res, w1) ->
  res = Returns tt /\ quiet w1 /\
  exists a, trace w1 = trace w ++ [EvStore Rtdb Remove r a] /\
            rtdb w1 = match a with Done => delete r (rtdb w) | _ => rtdb w end.
Proof.
  unfold cleanupUsername, try_catch, remove, ret. intros Hq.
  destruct (arrive w) as [[e|] w0] eqn:Ha;
    destruct (arrive_quiet _ _ _ Hq Ha) as (Hq0 & Hr & Hf); intros H; inversion H; subst;
    (split; [reflexivity|]); (split; [exact Hq0|]); eexists;
    cbn [trace rtdb log set_rtdb]; rewrite (arrive_trace _ _ _ Ha), Hr;
    (split; [reflexivity|]); reflexivity.
Qed.

(** Step 7 when it fails and no other client writes: its last call is the
    removal of the reservation, and that removal is its only write. *)
Lemma createUser_from_failed fuel :
  forall userRef usernameRef createdTimestamp username userRecord attempt maxRetries
         retryDelay w e w',
    quiet w ->
    createUser_from fuel userRef usernameRef createdTimestamp username userRecord
                    attempt maxRetries retryDelay w = (Throws e, w') ->
    exists pre a,
      trace w' = trace w ++ pre ++ [EvStore Rtdb Remove usernameRef a] /\
      rtdb w' = match a with Done => delete usernameRef (rtdb w) | _ => rtdb w end.
Proof.
  induction fuel as [|fuel IH];
    intros userRef usernameRef ts username userRecord attempt maxRetries retryDelay w e w'
           Hq Hrun; cbn [createUser_from] in Hrun; [discriminate Hrun|].
  destruct (attempt <=? maxRetries)%nat; [|discriminate Hrun].
  apply try_catch_inv in Hrun as [(a & _ & Ha) | (e0 & w1 & Hbody & Hhandler)];
    [discriminate Ha|].
  assert (Hw1 : quiet w1 /\ rtdb w1 = rtdb w /\ exists d, trace w1 = trace w ++ d).
  { apply bind_inv in Hbody as [([] & w0 & Hwait & Hbody) | (e1 & Hwait & _)].
    2:{ destruct (1 <? attempt)%nat; discriminate Hwait. }
    assert (Hw0 : quiet w0 /\ rtdb w0 = rtdb w /\ exists d, trace w0 = trace w ++ d).
    { destruct (1 <? attempt)%nat; inversion Hwait; subst.
      - split; [exact Hq|]. split; [reflexivity|]. eexists [_]. reflexivity.
      - split; [exact Hq|]. split; [reflexivity|]. exists []. rewrite app_nil_r. reflexivity. }
    destruct Hw0 as (Hq0 & Hr0 & d0 & Ht0).
    apply bind_inv in Hbody as [(tx & w2 & Htx & Hbody) | (e1 & Htx & He)].
    - destruct (transaction_quiet _ _ _ _ _ Hq0 Htx) as (_ & w00 & Hup).
      destruct (transaction_trace _ _ _ _ _ Htx) as (a1 & Ht2).
      pose proof (settles_transaction _ _ _ _ _ Htx) as (_ & _ & _ & _ & Hq2).
      destruct (userUpdate ts username userRecord w00 (rtdb w0 !! userRef)) as [v|];
        destruct Hup as (-> & Hr2); cbn [committed] in Hbody; inversion Hbody; subst.
      split; [auto|]. split; [congruence|].
      exists (d0 ++ [EvStore Rtdb Transaction userRef a1]).
      rewrite Ht2, Ht0, <- app_assoc. reflexivity.
    - destruct (transaction_quiet _ _ _ _ _ Hq0 Htx) as (_ & Hr2 & _).
      destruct (transaction_trace _ _ _ _ _ Htx) as (a1 & Ht2).
      pose proof (settles_transaction _ _ _ _ _ Htx) as (_ & _ & _ & _ & Hq2).
      split; [auto|]. split; [congruence|].
      exists (d0 ++ [EvStore Rtdb Transaction userRef a1]).
      rewrite Ht2, Ht0, <- app_assoc. reflexivity. }
  destruct Hw1 as (Hq1 & Hr1 & d & Ht1).
  destruct (attempt =? maxRetries)%nat.
  - apply bind_inv in Hhandler as [([] & w2 & Hclean & Hthrow) | (e1 & Hclean & _)].
    + destruct (cleanupUsername_outcome _ _ _ _ Hq1 Hclean) as (_ & _ & a & Ht2 & Hr2).
      inversion Hthrow; subst. exists d, a. rewrite Ht2, Ht1, <- app_assoc, Hr2, Hr1.
      split; reflexivity.
    + destruct (cleanupUsername_outcome _ _ _ _ Hq1 Hclean) as (Habs & _). discriminate Habs.
  - destruct (IH _ _ _ _ _ _ _ _ _ _ _ Hq1 Hhandler) as (pre & a & Ht2 & Hr2).
    exists (d ++ pre), a. rewrite Ht2, Ht1, <- !app_assoc, Hr2, Hr1. split; reflexivity.
Qed.

Lemma failed_attempt_no_remove r attempt evs :
  failed_attempt r attempt evs -> existsb is_remove evs = false.
Proof.
  intros [e Hlt | e | current]; unfold reread; destruct (1 <? attempt)%nat; reflexivity.
Qed.

Lemma reservation_no_remove r maxRetries attempt delta res :
  reservation r maxRetries attempt delta res -> existsb is_remove delta = false.
Proof.
  induction 1 as [attempt t | attempt current Hlt | attempt evs Hmax Hev
                 | attempt evs rest res Hlt Hev Hrest IH].
  - unfold reread. destruct (1 <? attempt)%nat; reflexivity.
  - reflexivity.
  - apply (failed_attempt_no_remove _ _ _ Hev).
  - rewrite existsb_app, IH, (failed_attempt_no_remove _ _ _ Hev). reflexivity.
Qed.

(** A trace that ends with a removal has a removal in it. *)
Lemma ends_with_remove (t pre d : list event) r a :
  t ++ pre ++ [EvStore Rtdb Remove r a] = t ++ d -> existsb is_remove d = true.
Proof.
  intros H. apply app_inv_head in H. subst d. rewrite existsb_app. cbn.
  apply orb_true_r.
Qed.

(** Steps 4 to 8 when they end with the removal and no other client writes:
    the reservation was made, and it is gone again exactly when the removal
    went through. *)
Lemma registerUser_cleanup u userRecord username w e w' pre a :
  quiet w ->
  registerUser u userRecord username w = (Throws e, w') ->
  trace w' = trace w ++ pre ++ [EvStore Rtdb Remove (usernames, username) a] ->
  rtdb w !! (usernames, username) = None /\
  exists t, rtdb w' = match a with
                      | Done => rtdb w
                      | _ => <[(usernames, username) := [("created_at", JNum t)]]> (rtdb w)
                      end.
Proof.
  intros Hq H Htrace. unfold registerUser in H.
  assert (Hno : forall d, trace w' = trace w ++ d -> existsb is_remove d = false -> False).
  { intros d Hd Hnone. rewrite Htrace in Hd. apply ends_with_remove in Hd. congruence. }
  apply bind_inv in H as [(userSnapshot & w1 & H1 & H) | (e1 & H1 & _)].
  2:{ exfalso. destruct (once_trace _ _ _ _ H1) as (a1 & Ht1). apply (Hno _ Ht1). reflexivity. }
  destruct (once_quiet _ _ _ _ Hq H1) as (Hq1 & Hr1 & _ & Hv1). specialize (Hv1 _ eq_refl).
  destruct (once_trace _ _ _ _ H1) as (a1 & Ht1).
  destruct userSnapshot as [existing|]; cbn [exists_] in H.
  { exfalso. inversion H; subst. apply (Hno _ Ht1). reflexivity. }
  apply bind_inv in H as [(usernameSnapshot & w2 & H2 & H) | (e1 & H2 & _)].
  2:{ exfalso. destruct (once_trace _ _ _ _ H2) as (a2 & Ht2).
      rewrite Ht1, <- app_assoc in Ht2. apply (Hno _ Ht2). reflexivity. }
  destruct (once_quiet _ _ _ _ Hq1 H2) as (Hq2 & Hr2 & _ & Hv2). specialize (Hv2 _ eq_refl).
  destruct (once_trace _ _ _ _ H2) as (a2 & Ht2). rewrite Ht1, <- app_assoc in Ht2.
  destruct usernameSnapshot as [existing|]; cbn [exists_] in H.
  { exfalso. inversion H; subst. apply (Hno _ Ht2). reflexivity. }
  assert (Huser : rtdb w !! (users, u) = None) by congruence.
  assert (Hname : rtdb w !! (usernames, username) = None) by congruence.
  assert (Hname2 : rtdb w2 !! (usernames, username) = None) by congruence.
  split; [exact Hname|].
  destruct (createUsername_from_reservation 3 (usernames, username) 1 3 w2 eq_refl
              (le_S _ _ (le_S _ _ (le_n 1))))
    as (res3 & delta3 & w3 & Hrun3 & Ht3 & _ & Hres3 & _ & _).
  pose proof (reservation_no_remove _ _ _ _ _ Hres3) as Hnone3.
  rewrite Ht2, <- app_assoc in Ht3.
  apply bind_inv in H as [(created & w3' & H3 & H) | (e1 & H3 & _)].
  2:{ exfalso. rewrite H3 in Hrun3. inversion Hrun3; subst.
      apply (Hno _ Ht3). cbn. exact Hnone3. }
  rewrite H3 in Hrun3. inversion Hrun3; subst res3 w3'. clear Hrun3.
  destruct (createUsername_from_quiet _ _ _ _ _ _ _ Hq2 Hname2 H3) as (_ & Hr3).
  pose proof (settles_createUsername_from _ _ _ _ _ _ _ H3) as (_ & _ & _ & _ & Hq3).
  specialize (Hq3 Hq2).
  destruct created as [timestamp|].
  2:{ exfalso. inversion H; subst. apply (Hno _ Ht3). cbn. exact Hnone3. }
  destruct Hr3 as (t & -> & Hr3).
  assert (Hr3' : rtdb w3 = <[(usernames, username) := [("created_at", JNum t)]]> (rtdb w))
    by congruence.
  assert (Huser3 : rtdb w3 !! (users, u) = None).
  { rewrite Hr3'. rewrite lookup_insert_ne by discriminate. exact Huser. }
  assert (Hundo : delete (usernames, username) (rtdb w3) = rtdb w).
  { rewrite Hr3'. apply delete_insert_id. exact Hname. }
  exists t.
  assert (Hlast : forall w4 pre4 a4,
             trace w4 = trace w3 ++ pre4 ++ [EvStore Rtdb Remove (usernames, username) a4] ->
             w4 = w' -> a4 = a).
  { intros w4 pre4 a4 Ht4 ->. rewrite Ht3, Htrace in Ht4.
    rewrite <- !app_assoc in Ht4. apply app_inv_head in Ht4.
    rewrite !app_assoc in Ht4. apply app_inj_tail in Ht4 as (_ & Heq).
    inversion Heq. reflexivity. }
  apply bind_inv in H as [(userCreated & w4 & H4 & H) | (e1 & H4 & He)].
  - destruct (createUser_from_quiet _ _ _ _ _ _ _ _ _ _ _ _ Hq3 Huser3 H4) as (_ & Hr4).
    pose proof (settles_createUser_from _ _ _ _ _ _ _ _ _ _ _ _ H4) as (_ & _ & _ & _ & Hq4).
    specialize (Hq4 Hq3).
    destruct userCreated; cbn [negb] in H; [discriminate H|].
    destruct (createUser_from_outcome 3 u username t userRecord 1 3 500 w3 eq_refl
                (le_S _ _ (le_S _ _ (le_n 1))))
      as (res4 & delta4 & w4' & Hrun4 & _ & [(-> & _) | (-> & _)]);
      rewrite H4 in Hrun4; discriminate Hrun4.
  - inversion He; subst e1.
    destruct (createUser_from_failed _ _ _ _ _ _ _ _ _ _ _ _ Hq3 H4) as (pre4 & a4 & Ht4 & Hr4).
    rewrite (Hlast _ _ _ Ht4 eq_refl) in Hr4.
    destruct a; rewrite Hr4; congruence.
Qed.

(** C1, as the code has it. When the three transactions on [users/{uid}] of
    a call all fail to commit, the call ends with 'internal' ("Something is
    Wrong") and its last store call is the removal of the username
    reservation, whether that removal goes through or is rejected. When it
    goes through the reservation is gone, and a later valid request for the
    same username by a caller without a user record, in a world that does
    not interfere, is served. When it is rejected and no other client has
    written during the call, the reservation is the one change that the call
    leaves in the database, and such a later request is refused with
    'already-exists' ("username already taken"). *)
Theorem rollback_after_identity_failure :
  forall (data : option jsobj) (context : Context) (w : World) (u : string)
         (userRecord : UserRecord) (username : string)
         (res : result jsobj) (w' : World) (delta : list event),
    valid_request data context w u userRecord username ->
    createNewUser data context w = (res, w') ->
    trace w' = trace w ++ delta ->
    count failed_user_transaction delta = 3%nat ->
    res = Throws (HttpsError "internal" "Something is Wrong") /\
    exists pre a,
      delta = pre ++ [EvStore Rtdb Remove (usernames, username) a] /\
      (a = Done ->
       rtdb w' !! (usernames, username) = None /\
       forall data2 context2 u2 userRecord2,
         valid_request data2 context2 w' u2 userRecord2 username ->
         rtdb w' !! (users, u2) = None ->
         script w' = [] ->
         exists w'',
           createNewUser data2 context2 w'
           = (Returns [("success", JBool true); ("username", JStr username); ("uid", JStr u2)],
              w'')) /\
      (forall error,
          a = Rejected error ->
          quiet w ->
          rtdb w !! (usernames, username) = None /\
          (exists t,
              rtdb w' = <[(usernames, username) := [("created_at", JNum t)]]> (rtdb w)) /\
          forall data2 context2 u2 userRecord2,
            valid_request data2 context2 w' u2 userRecord2 username ->
            rtdb w' !! (users, u2) = None ->
            script w' = [] ->
            exists w'',
              createNewUser data2 context2 w'
              = (Throws (HttpsError "already-exists" "username already taken"), w'')).
Proof.
  intros data context w u userRecord username res w' delta Hvalid Hrun Ht Hcount.
  destruct Hvalid as (Hid & Hdir & Hver & raw & Hraw & -> & Hre).
  rewrite (createNewUser_valid _ _ _ _ _ _ Hid Hdir Hver Hraw Hre) in Hrun.
  destruct (registerUser_outcome u userRecord (trim raw) (log (EvGetUser u) w))
    as (res0 & delta0 & w0 & Hrun0 & Ht0 & Hcases).
  rewrite Hrun in Hrun0. inversion Hrun0; subst res0 w0. clear Hrun0.
  cbn [trace log] in Ht0. rewrite Ht0, <- app_assoc in Ht. apply app_inv_head in Ht.
  subst delta. rewrite count_app in Hcount. cbn in Hcount.
  destruct Hcases as [(_ & Hlt & _) | [(-> & _ & pre & a & -> & Hgone) | (e & _ & _ & Hzero)]];
    [lia | | lia].
  split; [reflexivity|]. exists ([EvGetUser u] ++ pre), a. split; [|split].
  - rewrite app_assoc. reflexivity.
  - intros Hdone. split; [exact (Hgone Hdone)|].
    intros data2 context2 u2 userRecord2 Hvalid2 Huser2 Hscript.
    apply (createNewUser_fresh _ _ _ _ _ _ Hvalid2 Hscript Huser2 (Hgone Hdone)).
  - intros error -> Hq.
    apply guard_throws in Hrun as (e0 & Hbody & _).
    assert (Htrace : trace w' = trace (log (EvGetUser u) w) ++ pre
                                ++ [EvStore Rtdb Remove (usernames, trim raw) (Rejected error)]).
    { cbn [trace log]. rewrite Ht0, <- app_assoc. reflexivity. }
    destruct (registerUser_cleanup _ _ _ (log (EvGetUser u) w) _ _ _ _ Hq Hbody Htrace)
      as (Hname & t & Hr).
    cbn [rtdb log] in Hname, Hr.
    split; [exact Hname|]. split; [exists t; exact Hr|].
    intros data2 context2 u2 userRecord2 Hvalid2 Huser2 Hscript.
    assert (Htaken : rtdb w' !! (usernames, trim raw) = Some [("created_at", JNum t)]).
    { rewrite Hr. apply lookup_insert_eq. }
    destruct (createNewUser_taken_username _ _ _ _ _ _ _ Hvalid2 Hscript Huser2 Htaken)
      as (w'' & Hrun2 & _).
    exists w''. exact Hrun2.
Qed.

Lemma rollback_after_identity_failure_witness :
  let first := createNewUser (input "testuser123") (caller "uid-a")
                 (world0 (identity_failure quiet_step)) in
  valid_request (input "testuser123") (caller "uid-a") (world0 (identity_failure quiet_step))
                "uid-a" alice "testuser123" /\
  count failed_user_transaction (trace (snd first)) = 3%nat /\
  fst first = Throws (HttpsError "internal" "Something is Wrong") /\
  exists w'',
    createNewUser (input "testuser123") (caller "uid-b") (snd first)
    = (Returns [("success", JBool true); ("username", JStr "testuser123");
                ("uid", JStr "uid-b")], w'').
Proof.
  cbv zeta.
  assert (Hvalid : valid_request (input "testuser123") (caller "uid-a")
                     (world0 (identity_failure quiet_step)) "uid-a" alice "testuser123").
  { repeat split. exists "testuser123". repeat split. }
  assert (Hcount : count failed_user_transaction
                     (trace (snd (createNewUser (input "testuser123") (caller "uid-a")
                                    (world0 (identity_failure quiet_step))))) = 3%nat)
    by (vm_compute; reflexivity).
  split; [exact Hvalid |]. split; [exact Hcount |].
  destruct (rollback_after_identity_failure
              (input "testuser123") (caller "uid-a") (world0 (identity_failure quiet_step))
              "uid-a" alice "testuser123"
              (fst (createNewUser (input "testuser123") (caller "uid-a")
                      (world0 (identity_failure quiet_step))))
              (snd (createNewUser (input "testuser123") (caller "uid-a")
                      (world0 (identity_failure quiet_step))))
              (trace (snd (createNewUser (input "testuser123") (caller "uid-a")
                             (world0 (identity_failure quiet_step)))))
              Hvalid (surjective_pairing _) eq_refl Hcount)
    as (Hres & pre & a & Hdelta & Hnext & _).
  split; [exact Hres |].
  assert (Ha : a = Done).
  { apply (f_equal last) in Hdelta. rewrite last_snoc in Hdelta.
    vm_compute in Hdelta. inversion Hdelta. reflexivity. }
  destruct (Hnext Ha) as [_ Hserved].
  apply (Hserved (input "testuser123") (caller "uid-b") "uid-b" bob).
  - repeat split. exists "testuser123". repeat split.
  - vm_compute; reflexivity.
  - vm_compute; reflexivity.
Defined.
